(** * dubbo-serialization-node: the request codec, its type descriptors and
      its protocol-buffer drivers, embedded in Rocq.

    The development follows the layout of the repository:
    - [Js]        the JavaScript values the codec inspects, and thrown errors;
    - [Utils]     lib/utils.js: [getJavaClassDesc], [getJavaArgsDesc],
                  [desc2classArray];
    - [Bytes]     Node buffers and the ByteBuffer the packet is laid out in;
    - [Long]      the 64-bit packet id;
    - [Env]       what the drivers are handed: options, the message-type
                  registry, library operations, the constants, and the
                  [output] / [input] interfaces of a driver;
    - [ProtobufJson], [Protobuf] and their earlier revisions
                  [ProtobufJsonOld], [ProtobufOld]: lib/serialize/*/index.js;
    - [Serialize] lib/serialize/index.js, the registry;
    - [Request]   lib/protocol/request.js: [encode] and [decode].

    Part I holds the definitions, Part II the theorems. *)

From Stdlib Require Import ZArith List String Ascii Bool Lia Arith DecimalString.
Import ListNotations.

Local Open Scope string_scope.

Set Warnings "-register-all".

(* ===================================================================== *)
(** * Part I. Definitions *)
(* ===================================================================== *)

(* --------------------------------------------------------------------- *)
(** ** JavaScript values *)
(* --------------------------------------------------------------------- *)

Module Js.

(** A JavaScript number, as far as the codec looks at it: [typeof], the
    integrality and range tests of is-type-of, and truthiness.  [NInt z] is a
    finite double whose value is the integer [z]; [NNaN] is NaN; [NOther] is
    any remaining double (a non-integral value or an infinity). *)
Inductive JsNumber : Type :=
| NInt (z : Z)
| NNaN
| NOther.

(** Values.  Strings are sequences of 8-bit characters (ASCII text; a
    string is its own UTF-8 encoding).  An object is the list of its own
    enumerable properties in insertion order, without repeated keys. *)
Inductive JsValue : Type :=
| VUndefined
| VNull
| VBool (b : bool)
| VNum (n : JsNumber)
| VStr (s : string)
| VDate (ms : Z)
| VBuffer (octets : list Z)
| VArray (items : list JsValue)
| VError (message : string)
| VObject (props : list (string * JsValue)).

(** What a [throw] carries.  [TypeError] and [RangeError] are raised by the
    engine or by Node (calling what is not a function, reading a property of
    [undefined], reading past a buffer); [Error] is [new Error(message)]. *)
Inductive JsError : Type :=
| TypeError
| RangeError
| Error (message : string).

Definition errName (e : JsError) : string :=
  match e with
  | TypeError => "TypeError"
  | RangeError => "RangeError"
  | Error _ => "Error"
  end.

(** The outcome of a call: a value, or a thrown error. *)
Inductive result (A : Type) : Type :=
| Ok (a : A)
| Throw (e : JsError).

Arguments Ok {A} a.
Arguments Throw {A} e.

Definition bind {A B : Type} (r : result A) (k : A -> result B) : result B :=
  match r with
  | Ok a => k a
  | Throw e => Throw e
  end.

(** ToBoolean. *)
Definition truthy (v : JsValue) : bool :=
  match v with
  | VUndefined | VNull => false
  | VBool b => b
  | VNum (NInt z) => negb (Z.eqb z 0)
  | VNum NNaN => false
  | VNum NOther => true
  | VStr s => negb (String.eqb s "")
  | _ => true
  end.

(** [a || b]. *)
Definition jsOr (a b : JsValue) : JsValue := if truthy a then a else b.

(** Own-property lookup in a property list. *)
Fixpoint lookup (k : string) (props : list (string * JsValue)) : option JsValue :=
  match props with
  | [] => None
  | (k', v) :: rest => if String.eqb k k' then Some v else lookup k rest
  end.

(** [obj[k] = v] on a property list: an existing key keeps its place. *)
Fixpoint assign (k : string) (v : JsValue) (props : list (string * JsValue))
  : list (string * JsValue) :=
  match props with
  | [] => [(k, v)]
  | (k', v') :: rest =>
      if String.eqb k k' then (k, v) :: rest else (k', v') :: assign k v rest
  end.

(** [Object.prototype.hasOwnProperty.call(v, k)] (utility.has). *)
Definition has (v : JsValue) (k : string) : bool :=
  match v with
  | VObject props => match lookup k props with Some _ => true | None => false end
  | _ => false
  end.

(** [v[k]] for a key that no prototype defines: the own property, or
    [undefined].  Reading a property of [null] or [undefined] throws. *)
Definition getProp (v : JsValue) (k : string) : result JsValue :=
  match v with
  | VUndefined | VNull => Throw TypeError
  | VObject props =>
      match lookup k props with Some x => Ok x | None => Ok VUndefined end
  | _ => Ok VUndefined
  end.

Definition isString (v : JsValue) : bool :=
  match v with VStr _ => true | _ => false end.

(** [obj[k]] on the properties of an object: [undefined] when absent. *)
Definition prop (k : string) (props : list (string * JsValue)) : JsValue :=
  match lookup k props with
  | Some v => v
  | None => VUndefined
  end.

(** The property name of an array index. *)
Definition indexKey (i : nat) : string := NilEmpty.string_of_uint (Nat.to_uint i).

Fixpoint indexed {A : Type} (f : A -> JsValue) (i : nat) (l : list A)
  : list (string * JsValue) :=
  match l with
  | [] => []
  | a :: rest => (indexKey i, f a) :: indexed f (S i) rest
  end.

Fixpoint characters (s : string) : list string :=
  match s with
  | EmptyString => []
  | String c rest => String c EmptyString :: characters rest
  end.

(** The own enumerable properties of a value that is neither [null] nor
    [undefined], as [Object.entries] and [Object.assign] see them. *)
Definition ownProps (v : JsValue) : list (string * JsValue) :=
  match v with
  | VObject props => props
  | VArray items => indexed (fun x => x) 0 items
  | VStr s => indexed VStr 0 (characters s)
  | VBuffer bs => indexed (fun b => VNum (NInt b)) 0 bs
  | _ => []
  end.

(** [Object.entries(v)]. *)
Definition entries (v : JsValue) : result (list (string * JsValue)) :=
  match v with
  | VUndefined | VNull => Throw TypeError
  | _ => Ok (ownProps v)
  end.

(** [Object.assign(target, source)] on the properties of [target]. *)
Definition objectAssign (target : list (string * JsValue)) (source : JsValue)
  : list (string * JsValue) :=
  fold_left (fun acc kv => assign (fst kv) (snd kv) acc) (ownProps source) target.

End Js.

Export Js.

Notation "x <- r ;; k" := (bind r (fun x => k))
  (at level 61, r at next level, right associativity).

(* --------------------------------------------------------------------- *)
(** ** lib/utils.js *)
(* --------------------------------------------------------------------- *)

Module Utils.

(** [primitiveMap]: the own keys of the table. *)
Definition primitiveMap (name : string) : option string :=
  if String.eqb name "void" then Some "V"
  else if String.eqb name "boolean" then Some "Z"
  else if String.eqb name "byte" then Some "B"
  else if String.eqb name "char" then Some "C"
  else if String.eqb name "double" then Some "D"
  else if String.eqb name "float" then Some "F"
  else if String.eqb name "int" then Some "I"
  else if String.eqb name "long" then Some "J"
  else if String.eqb name "short" then Some "S"
  else None.

(** [primitiveMap] is an object literal, so [primitiveMap[name]] also finds
    what Object.prototype defines.  Each of those is a function (an object
    for [__proto__]), hence truthy, and [ret += ...] appends its source text
    as Node prints it. *)
Definition objectPrototypeText (name : string) : option string :=
  if String.eqb name "constructor"
  then Some "function Object() { [native code] }"
  else if String.eqb name "__proto__" then Some "[object Object]"
  else if (String.eqb name "toString" || String.eqb name "toLocaleString"
           || String.eqb name "valueOf" || String.eqb name "hasOwnProperty"
           || String.eqb name "isPrototypeOf"
           || String.eqb name "propertyIsEnumerable"
           || String.eqb name "__defineGetter__"
           || String.eqb name "__defineSetter__"
           || String.eqb name "__lookupGetter__"
           || String.eqb name "__lookupSetter__")%bool
  then Some ("function " ++ name ++ "() { [native code] }")
  else None.

(** [isArray]: [c.startsWith('[')]. *)
Definition isArray (c : string) : bool :=
  match c with
  | String "[" _ => true
  | _ => false
  end.

(** [getComponentType]: [c.slice(1)] for an array name. *)
Definition getComponentType (c : string) : string :=
  match c with
  | String "[" rest => rest
  | _ => c
  end.

(** [s.replace(/from/g, to)] for a one-character pattern. *)
Fixpoint replaceAll (from to : ascii) (s : string) : string :=
  match s with
  | EmptyString => EmptyString
  | String c rest =>
      String (if Ascii.eqb c from then to else c) (replaceAll from to rest)
  end.

(** The loop [while (isArray($class)) { ret += '['; $class = ... }]: the
    accumulated prefix and the component name left.  Each round drops the
    leading character, so the recursion is on the name itself. *)
Fixpoint stripArrays (ret : string) (cls : string) : string * string :=
  match cls with
  | String "[" rest => stripArrays (ret ++ "[") rest
  | _ => (ret, cls)
  end.

(** is-type-of: [is.long] and [is.int] on a number. *)
Definition MAX_INT_31 : Z := 2 ^ 31.

Definition is_int (n : JsNumber) : bool :=
  match n with NInt _ => true | _ => false end.

Definition is_long (n : JsNumber) : bool :=
  match n with
  | NInt z => (Z.leb MAX_INT_31 z || Z.ltb z (- MAX_INT_31))%bool
  | _ => false
  end.

(** [getJavaClassDesc(val)]. *)
Definition getJavaClassDesc (val : JsValue) : result string :=
  match val with
  | VUndefined | VNull => Ok "Ljava/lang/Object;"
  | VBool _ => Ok "Z"
  | VStr _ => Ok "Ljava/lang/String;"
  | VNum n =>
      if is_long n then Ok "J" else if is_int n then Ok "I" else Ok "D"
  | VDate _ => Ok "Ljava/util/Date;"
  | VBuffer _ => Ok "[B"
  | VArray _ => Ok "Ljava/util/ArrayList;"
  | VError _ => Ok "Ljava/lang/Exception;"
  | VObject props =>
      if negb (has val "$class") then Ok "Ljava/util/HashMap;"
      else
        abstract <- getProp val "$abstractClass" ;;
        concrete <- getProp val "$class" ;;
        match jsOr abstract concrete with
        | VStr cls =>
            let '(ret, component) := stripArrays "" cls in
            match primitiveMap component with
            | Some code => Ok (ret ++ code)
            | None =>
                match objectPrototypeText component with
                | Some text => Ok (ret ++ text)
                | None => Ok (ret ++ "L" ++ replaceAll "." "/" component ++ ";")
                end
            end
        | _ => Throw TypeError
        end
  end.

(** [args.map(f)] where [f] may throw. *)
Fixpoint mapM {A B : Type} (f : A -> result B) (l : list A) : result (list B) :=
  match l with
  | [] => Ok []
  | a :: rest => b <- f a ;; bs <- mapM f rest ;; Ok (b :: bs)
  end.

(** [getJavaArgsDesc(args)]: the signatures joined without a separator. *)
Definition getJavaArgsDesc (args : list JsValue) : result string :=
  descs <- mapM getJavaClassDesc args ;; Ok (String.concat "" descs).

(** The scan of the ['L'] case of [desc2classArray], started on the text
    after the ['L']: the class name read and the text left for the next
    round of the outer loop.  When the text ends before a [';'], the read
    [desc[++i]] is [undefined] and [clazz += desc[i]] appends its name. *)
Fixpoint scanClass (s : string) : string * string :=
  match s with
  | EmptyString => ("undefined", EmptyString)
  | String c rest =>
      if Ascii.eqb c ";" then (EmptyString, rest)
      else let '(clazz, remaining) := scanClass rest in (String c clazz, remaining)
  end.

Definition unknownClassType (type : string) : JsError :=
  Error ("[double-remoting] unknown class type => " ++ type).

(** The [switch (type)] of [desc2classArray] on the character [type], with
    [rest] the text after it: the Java type and the text left. *)
Definition classOfCode (type : ascii) (rest : string) : result (string * string) :=
  if Ascii.eqb type "V" then Ok ("void", rest)
  else if Ascii.eqb type "Z" then Ok ("boolean", rest)
  else if Ascii.eqb type "B" then Ok ("byte", rest)
  else if Ascii.eqb type "C" then Ok ("char", rest)
  else if Ascii.eqb type "D" then Ok ("double", rest)
  else if Ascii.eqb type "F" then Ok ("float", rest)
  else if Ascii.eqb type "I" then Ok ("int", rest)
  else if Ascii.eqb type "J" then Ok ("long", rest)
  else if Ascii.eqb type "S" then Ok ("short", rest)
  else if Ascii.eqb type "L" then
    let '(clazz, remaining) := scanClass rest in
    Ok (replaceAll "/" "." clazz, remaining)
  else Throw (unknownClassType (String type EmptyString)).

(** One round of the [for] loop of [desc2classArray] on the text from
    [desc[i]] on: the entry pushed and the text left.  A ['['] sets the
    prefix and moves to the next character once; when nothing follows it
    the type read is [undefined]. *)
Definition desc2classStep (s : string) : result (string * string) :=
  match s with
  | EmptyString => Throw (unknownClassType "undefined")
  | String "[" EmptyString => Throw (unknownClassType "undefined")
  | String "[" (String type rest) =>
      r <- classOfCode type rest ;; Ok ("[" ++ fst r, snd r)
  | String type rest => classOfCode type rest
  end.

(** The [for (let i = 0; i < len; ++i)] loop.  [fuel] is the bound [len]:
    every round consumes at least one character. *)
Fixpoint desc2classLoop (fuel : nat) (s : string) (arr : list string)
  : result (list string) :=
  match s with
  | EmptyString => Ok arr
  | _ =>
      match fuel with
      | O => Ok arr
      | S fuel' =>
          r <- desc2classStep s ;;
          desc2classLoop fuel' (snd r) (arr ++ [fst r])
      end
  end.

(** [desc2classArray(desc)]. *)
Definition desc2classArray (desc : string) : result (list string) :=
  if String.eqb desc "" then Ok []
  else desc2classLoop (String.length desc) desc [].

(** [single d t]: the text [d] is one signature; a round of the loop started
    on it pushes [t] and leaves exactly what followed [d]. *)
Definition single (d t : string) : Prop :=
  d <> EmptyString /\ forall r, desc2classStep (d ++ r) = Ok (t, r).

(** Class tags for which a descriptor reads back as one entry: at most one
    leading ['['], no [';'] in the component name, and a component that is
    not a member of Object.prototype. *)
Fixpoint hasChar (c : ascii) (s : string) : bool :=
  match s with
  | EmptyString => false
  | String c' rest => (Ascii.eqb c' c || hasChar c rest)%bool
  end.

Definition plainClassName (cls : string) : bool :=
  let component := getComponentType cls in
  (negb (isArray component) && negb (hasChar ";" component)
   && match objectPrototypeText component with Some _ => false | None => true end)%bool.

(** Arguments whose [$class] / [$abstractClass] tag, when they carry one,
    is a string that is a plain class name. *)
Definition plainArg (val : JsValue) : bool :=
  match val with
  | VObject props =>
      if has val "$class" then
        match lookup "$abstractClass" props, lookup "$class" props with
        | abstract, Some concrete =>
            match jsOr (match abstract with Some a => a | None => VUndefined end)
                       concrete with
            | VStr cls => plainClassName cls
            | _ => false
            end
        | _, None => false
        end
      else true
  | _ => true
  end.

(** [utils.int2hex(n)], as the readers of the protobuf driver call it:
    lib/utils.js exports no [int2hex], so the call is one of [undefined] and
    throws a TypeError. *)
Definition int2hex (n : nat) : result string := Throw TypeError.

End Utils.

(* --------------------------------------------------------------------- *)
(** ** Byte buffers *)
(* --------------------------------------------------------------------- *)

Module Bytes.

Local Open Scope Z_scope.

(** A Node [Buffer]: its octets, each in [0, 255]. *)
Definition Buffer : Type := list Z.

(** What storing the integer [v] into one octet keeps. *)
Definition toUint8 (v : Z) : Z := v mod 256.

(** Two's-complement reading of the low 32 bits of [z] ([z | 0]). *)
Definition toInt32 (z : Z) : Z := (z + 2 ^ 31) mod 2 ^ 32 - 2 ^ 31.

(** [z >>> 0]. *)
Definition toUint32 (z : Z) : Z := z mod 2 ^ 32.

(** The four octets of a 32-bit value, most significant first. *)
Definition int32BE (v : Z) : list Z :=
  [ toUint8 (Z.shiftr v 24); toUint8 (Z.shiftr v 16);
    toUint8 (Z.shiftr v 8); toUint8 v ].

(** Store [v] at index [i]; storage that was never written reads as 0, and
    a store past the end first extends the storage with zeros (the buffer
    behind a ByteBuffer grows on demand). *)
Fixpoint store (i : nat) (v : Z) (buf : Buffer) : Buffer :=
  match i, buf with
  | O, [] => [v]
  | O, _ :: rest => v :: rest
  | S i', [] => 0 :: store i' v []
  | S i', b :: rest => b :: store i' v rest
  end.

Fixpoint storeAll (i : nat) (vs : list Z) (buf : Buffer) : Buffer :=
  match vs with
  | [] => buf
  | v :: rest => storeAll (S i) rest (store i v buf)
  end.

(** [buf.slice(0, n)] of the storage, unwritten octets reading as 0. *)
Definition prefix (n : nat) (buf : Buffer) : Buffer :=
  firstn n (buf ++ repeat 0 (n - List.length buf)).

(** [buf.readInt32BE(offset)]: a read past the end throws. *)
Definition readInt32BE (offset : nat) (buf : Buffer) : result Z :=
  match skipn offset buf with
  | b0 :: b1 :: b2 :: b3 :: _ =>
      Ok (toInt32 (b0 * 2 ^ 24 + b1 * 2 ^ 16 + b2 * 2 ^ 8 + b3))
  | _ => Throw RangeError
  end.

(** [buf.writeInt32BE(value, offset)] on the storage of a ByteBuffer: a value
    outside the signed 32-bit range throws. *)
Definition writeInt32BE (value : Z) (offset : nat) (buf : Buffer) : result Buffer :=
  if ((- 2 ^ 31 <=? value) && (value <? 2 ^ 31))%bool
  then Ok (storeAll offset (int32BE value) buf)
  else Throw RangeError.

(** The octets of a string. *)
Fixpoint octets (s : string) : list Z :=
  match s with
  | EmptyString => []
  | String c rest => Z.of_nat (nat_of_ascii c) :: octets rest
  end.

(** The value of a hexadecimal digit. *)
Definition hexDigit (c : ascii) : option Z :=
  let n := Z.of_nat (nat_of_ascii c) in
  if ((48 <=? n) && (n <=? 57))%bool then Some (n - 48)
  else if ((97 <=? n) && (n <=? 102))%bool then Some (n - 87)
  else if ((65 <=? n) && (n <=? 70))%bool then Some (n - 55)
  else None.

(** [Buffer.from(text, 'hex')]: one octet per pair of digits, up to the
    first pair that is not one. *)
Fixpoint fromHex (text : string) : Buffer :=
  match text with
  | String a (String b rest) =>
      match hexDigit a, hexDigit b with
      | Some x, Some y => (16 * x + y) :: fromHex rest
      | _, _ => []
      end
  | _ => []
  end.

(** The ByteBuffer of the byte package: storage and write position. *)
Record ByteBuffer : Type := mkByteBuffer {
  _bytes : Buffer;
  _offset : nat
}.

(** [new ByteBuffer()] / [ByteBuffer.allocate()]. *)
Definition allocate : ByteBuffer := mkByteBuffer [] 0.

(** [bb.reset()]: the position returns to 0, the storage stays. *)
Definition reset (bb : ByteBuffer) : ByteBuffer := mkByteBuffer (_bytes bb) 0.

Definition position (bb : ByteBuffer) : nat := _offset bb.

(** [bb.put(v)] for a number: one octet. *)
Definition put (v : Z) (bb : ByteBuffer) : ByteBuffer :=
  mkByteBuffer (store (_offset bb) (toUint8 v) (_bytes bb)) (S (_offset bb)).

(** [bb.put(buf)] for a buffer, and [bb.putRawString(str)] for the octets
    of a string: all of them, in order. *)
Definition putBuffer (vs : list Z) (bb : ByteBuffer) : ByteBuffer :=
  mkByteBuffer (storeAll (_offset bb) vs (_bytes bb))
               (_offset bb + List.length vs).

Definition skip (n : nat) (bb : ByteBuffer) : ByteBuffer :=
  mkByteBuffer (_bytes bb) (_offset bb + n).

(** [bb.putLong(v)] for a signed 64-bit [v]: the high word, then the low
    word, each as a big-endian 32-bit value. *)
Definition putLong (v : Z) (bb : ByteBuffer) : ByteBuffer :=
  putBuffer (int32BE (Z.shiftr v 32) ++ int32BE v) bb.

(** [bb.get(0, bb._offset)] and [bb._bytes.slice(0, bb._offset)]. *)
Definition written (bb : ByteBuffer) : Buffer := prefix (_offset bb) (_bytes bb).

End Bytes.

(* --------------------------------------------------------------------- *)
(** ** The packet id: long.js and hessian.js's [handleLong] *)
(* --------------------------------------------------------------------- *)

Module Long.

Local Open Scope Z_scope.

(** A [Long]: two signed 32-bit halves. *)
Record Long : Type := mkLong {
  low : Z;
  high : Z
}.

(** [new Long(low, high)]: each half is truncated with [| 0]. *)
Definition newLong (lo hi : Z) : Long :=
  mkLong (Bytes.toInt32 lo) (Bytes.toInt32 hi).

(** The value of a signed [Long]: [high * 2^32 + (low >>> 0)]. *)
Definition value (l : Long) : Z := high l * 2 ^ 32 + Bytes.toUint32 (low l).

(** What [handleLong] returns: a number when the value is kept exactly by a
    double, the decimal text of the value otherwise.  Both carry the value. *)
Inductive PacketId : Type :=
| IdNumber (z : Z)
| IdString (z : Z).

Definition idValue (p : PacketId) : Z :=
  match p with IdNumber z | IdString z => z end.

(** [MAX_SAFE_INT] and [MIN_SAFE_INT] of hessian.js's lib/utils.js:
    [Long.fromNumber(2^53 - 1)] and [Long.fromNumber(1 - 2^53)]. *)
Definition MAX_SAFE_INT : Z := 2 ^ 53 - 1.
Definition MIN_SAFE_INT : Z := 1 - 2 ^ 53.

(** [handleLong(val)] of hessian.js, which lib/utils.js re-exports:
    [val.toString()] when
    [val.greaterThan(MAX_SAFE_INT) || val.lessThan(MIN_SAFE_INT)],
    [val.toNumber()] otherwise. *)
Definition handleLong (val : Long) : PacketId :=
  if ((MAX_SAFE_INT <? value val) || (value val <? MIN_SAFE_INT))%bool
  then IdString (value val)
  else IdNumber (value val).

End Long.

(* --------------------------------------------------------------------- *)
(** ** What the drivers take from their environment *)
(* --------------------------------------------------------------------- *)

Module Env.

Import Bytes.

(** A message type of the registry (a protobufjs [Type]).  Messages are
    values; the codec of each type is the registry's. *)
Record Msg : Type := mkMsg {
  msgCreate : JsValue -> JsValue;                 (* Msg.create(properties)     *)
  msgEncode : JsValue -> list Z;                  (* Msg.encode(m).finish()     *)
  msgDecode : list Z -> result JsValue;           (* Msg.decode(buf)            *)
  msgDecodeDelimited : list Z -> result JsValue;  (* Msg.decodeDelimited(buf)   *)
  msgToObject : JsValue -> JsValue;     (* Msg.toObject(m, conversionOptions)   *)
  msgToJSON : JsValue -> JsValue                  (* m.toJSON()                 *)
}.

(** The pre-resolved registry ([options.options.proto] for the writers,
    [options.proto] for the readers). *)
Record Root : Type := mkRoot {
  lookupType : string -> option Msg;            (* root.lookup(path)           *)
  rootHas : string -> bool;                     (* is root[path] truthy        *)
  (* utils.getMethodInfo(root, serviceId, methodName), reduced to the
     resolved response type when the method declares one *)
  responseType : JsValue -> JsValue -> result (option Msg)
}.

(** [options.channel]: the call a reply is decoded for. *)
Record Channel : Type := mkChannel {
  service : JsValue;           (* data.req.requestProps.service *)
  serverSignature : JsValue;   (* data.req.serverSignature      *)
  reqMethodName : JsValue      (* data.req.methodName           *)
}.

(** The options object handed to [encode], [decode] and the drivers. *)
Record Options : Type := mkOptions {
  codecType : option string;          (* options.codecType, None: undefined   *)
  classMap : JsValue;                 (* options.classMap                     *)
  options : option (option Root);     (* options.options, and its .proto      *)
  proto : option Root;                (* options.proto                        *)
  channel : option Channel            (* options.channel                      *)
}.

(** [options.options.proto] when [options.options] is set. *)
Definition writerProto (opts : Options) : option Root :=
  match options opts with Some r => r | None => None end.

(** The position of a protobufjs [Reader] in its buffer. *)
Record Reader : Type := mkReader {
  rbuf : Buffer;
  rpos : nat
}.

(** Library and engine operations the drivers call and the sources do not
    define. *)
Record Runtime : Type := mkRuntime {
  (* JSON.stringify(v) as text *)
  JSON_stringify : JsValue -> string;
  JSON_parse : string -> result JsValue;
  (* ToString of a value that is no string *)
  toStringOf : JsValue -> string;
  (* reader.bytes(): a length-prefixed run of octets and the reader after it *)
  Reader_bytes : Reader -> result (list Z * Reader);
  (* StringValue.encodeDelimited(StringValue.create({value: v})).finish()
     for the one-field type that writeUTF builds inline *)
  StringValue_delimited : JsValue -> list Z;
  (* the octets putRawString lays down for a value that is no string *)
  rawOctets : JsValue -> result (list Z);
  (* the outcome of desc2classArray on a truthy descriptor that is no string *)
  classArrayOfNonString : JsValue -> result (list string)
}.

(** Constants of lib/const.js and lib/serialize/const.js. *)
Record Constants : Type := mkConstants {
  DUBBO_VERSION_KEY : string;
  PATH_KEY : string;
  VERSION_KEY : string;
  DEFAULT_REMOTING_SERIALIZATION : string;
  HESSIAN2_SERIALIZATION_ID : Z;
  PROTOSTUFF_SERIALIZATION_ID : Z;
  PROTOBUF_JSON_SERIALIZATION_ID : Z;
  PROTOBUF_SERIALIZATION_ID : Z
}.

(** ToString. *)
Definition jsToString (rt : Runtime) (v : JsValue) : string :=
  match v with
  | VStr s => s
  | VUndefined => "undefined"
  | VNull => "null"
  | VBool true => "true"
  | VBool false => "false"
  | _ => toStringOf rt v
  end.

(** [a + b] when one side is a string. *)
Definition jsConcat (rt : Runtime) (a b : JsValue) : JsValue :=
  VStr (jsToString rt a ++ jsToString rt b).

(** [utils.findType(root, path)], without its memo table (one registry per
    process).  A path that is no string resolves to the namespace itself,
    and using that as a message type throws. *)
Definition findType (root : Root) (path : JsValue) : result Msg :=
  match path with
  | VStr name =>
      match lookupType root name with
      | Some m => Ok m
      | None => Throw (Error ("no such Type '" ++ name ++ "' in proto file"))
      end
  | _ => Throw TypeError
  end.

(** The session interface of a driver's [serialize()]: the [output] object. *)
Record OutputDriver : Type := mkOutputDriver {
  OutSt : Type;
  serialize : OutSt;                                (* state after serialize()  *)
  outBytes : OutSt -> ByteBuffer;                   (* output.bytes            *)
  onBytes : (ByteBuffer -> ByteBuffer) -> OutSt -> OutSt; (* a write through it *)
  outLen : OutSt -> Z;                              (* output.len              *)
  contentTypeId : Z;                                (* output.contentTypeId    *)
  outGet : OutSt -> Buffer;                         (* output.get()            *)
  writeUTF : JsValue -> Options -> OutSt -> result OutSt;
  writeObject : JsValue -> JsValue -> string -> Options -> OutSt -> result OutSt
}.

(** The session interface of a driver's [deserialize(buf)]: the [input]
    object. *)
Record InputDriver : Type := mkInputDriver {
  InSt : Type;
  deserialize : Buffer -> InSt;
  inSkip : nat -> InSt -> result InSt;
  readObject : Options -> option string -> InSt -> result (JsValue * InSt);
  readUTF : Options -> InSt -> result (JsValue * InSt)
}.

(** A module of lib/serialize. *)
Record Driver : Type := mkDriver {
  output : OutputDriver;
  input : InputDriver
}.

(** Is a type tag truthy: [undefined] and the empty string are not. *)
Definition tagged (type : option string) : bool :=
  match type with
  | Some t => negb (String.eqb t "")
  | None => false
  end.

(** [type === tag]. *)
Definition isTag (tag : string) (type : option string) : bool :=
  match type with
  | Some t => String.eqb t tag
  | None => false
  end.

End Env.

(* --------------------------------------------------------------------- *)
(** ** lib/serialize/protobuf-json/index.js *)
(* --------------------------------------------------------------------- *)

Module ProtobufJson.

Import Bytes Env.

Section Driver.

Variable rt : Runtime.
Variable cst : Constants.

(** The module keeps one [encoder] ByteBuffer for every session;
    [previous] is that buffer as the sessions before left it. *)
Variable previous : ByteBuffer.

(** [encoder.putRawString(v)]. *)
Definition putRawString (v : JsValue) (encoder : ByteBuffer) : result ByteBuffer :=
  match v with
  | VStr s => Ok (putBuffer (octets s) encoder)
  | _ => raw <- rawOctets rt v ;; Ok (putBuffer raw encoder)
  end.

(** The object built in the ['HashMap'] case of [writeObject]. *)
Definition hashMapAttachments (v : JsValue) : result JsValue :=
  path <- getProp v "path" ;;
  group <- getProp v "group" ;;
  version <- getProp v "version" ;;
  Ok (VObject [ ("path", jsOr path (VStr ""));
                ("interface", jsOr path (VStr ""));
                ("group", jsOr group (VStr ""));
                ("version", jsOr version (VStr "")) ]).

(** [output.writeObject(v, classMap, type, options)]. *)
Definition writeObject (v classMap : JsValue) (type : string) (opts : Options)
    (encoder : ByteBuffer) : result ByteBuffer :=
  match truthy v, options opts with
  | true, Some optsProto =>
      cls <- getProp v "$class" ;;
      val <- getProp v "$" ;;
      match optsProto with
      | None => Ok encoder
      | Some _ =>
          if (truthy cls && truthy val)%bool then
            putRawString (VStr (JSON_stringify rt val ++ String "010" "")) encoder
          else if tagged (Some type) then
            bytes <- (if String.eqb type "HashMap"
                      then attachments <- hashMapAttachments v ;;
                           Ok (VObject [("attachments", attachments)])
                      else Ok v) ;;
            putRawString (VStr (JSON_stringify rt bytes ++ String "010" "")) encoder
          else Ok encoder
      end
  | _, _ => Ok encoder
  end.

(** [output.writeUTF(v, options)]. *)
Definition writeUTF (v : JsValue) (opts : Options) (encoder : ByteBuffer)
  : result ByteBuffer :=
  match options opts with
  | Some _ => writeObject v VNull "StringValue" opts encoder
  | None => putRawString v encoder
  end.

(** The [output] object: [output.bytes] is the [encoder] itself, and
    [output.len] is its position. *)
Definition output : OutputDriver :=
  {| Env.OutSt := ByteBuffer;
     Env.serialize := reset previous;
     Env.outBytes := fun encoder => encoder;
     Env.onBytes := fun f encoder => f encoder;
     Env.outLen := fun encoder => Z.of_nat (position encoder);
     Env.contentTypeId := PROTOBUF_JSON_SERIALIZATION_ID cst;
     Env.outGet := fun encoder => written encoder;
     Env.writeUTF := writeUTF;
     Env.writeObject := writeObject |}.

(** [buf.indexOf(value, from)]. *)
Fixpoint indexFrom (value : Z) (from : nat) (at_ : nat) (buf : Buffer) : option nat :=
  match buf with
  | [] => None
  | b :: rest =>
      if (Nat.leb from at_ && Z.eqb b value)%bool then Some at_
      else indexFrom value from (S at_) rest
  end.

(** [buf.toString()] on ASCII octets. *)
Fixpoint textOf (bs : list Z) : string :=
  match bs with
  | [] => EmptyString
  | b :: rest => String (ascii_of_nat (Z.to_nat b)) (textOf rest)
  end.

(** [input.readLine()]: the text up to and including the next line feed.
    When there is none, [indexOf] gives [-1], the size read is [-pos], the
    slice is empty and the position returns to 0. *)
Definition readLine (decoder : ByteBuffer) : string * ByteBuffer :=
  let pos := position decoder in
  match indexFrom 10 pos 0 (_bytes decoder) with
  | Some idx =>
      (textOf (firstn (idx - pos + 1) (skipn pos (_bytes decoder))),
       mkByteBuffer (_bytes decoder) (idx + 1))
  | None => (EmptyString, mkByteBuffer (_bytes decoder) 0)
  end.

(** [input.readObject(options, type)]. *)
Definition readObject (opts : Options) (type : option string)
    (decoder : ByteBuffer) : result (JsValue * ByteBuffer) :=
  match proto opts with
  | None => Ok (VUndefined, decoder)
  | Some _ =>
      if tagged type then
        let '(buf, decoder') := readLine decoder in
        json <- JSON_parse rt buf ;;
        data <- (if isTag "HashMap" type
                 then getProp json "attachments" else Ok json) ;;
        Ok (data, decoder')
      else
        match channel opts with
        | Some _ =>
            let '(buf, decoder') := readLine decoder in
            json <- JSON_parse rt buf ;;
            Ok (json, decoder')
        | None => Ok (VUndefined, decoder)
        end
  end.

Definition input : InputDriver :=
  {| Env.InSt := ByteBuffer;
     Env.deserialize := fun buf => mkByteBuffer buf 0;
     Env.inSkip := fun n decoder => Ok (skip n decoder);
     Env.readObject := readObject;
     Env.readUTF := fun opts => readObject opts (Some "StringValue") |}.

Definition driver : Driver := {| Env.output := output; Env.input := input |}.

End Driver.

End ProtobufJson.

(* --------------------------------------------------------------------- *)
(** ** protobufjs: the [Writer] the binary drivers collect their payload in *)
(* --------------------------------------------------------------------- *)

Module Writer.

Import Bytes.

(** A [Writer]: its [len] field and the octets its operations will write. *)
Record Writer : Type := mkWriter {
  len : nat;
  content : list Z
}.

(** [Writer.create()] and [writer.reset()]. *)
Definition create : Writer := mkWriter 0 [].

(** A base-128 varint of at most [S fuel] octets. *)
Fixpoint varint (fuel : nat) (n : Z) : list Z :=
  match fuel with
  | O => [n]
  | S fuel' =>
      if (n <? 128)%Z then [n]
      else (n mod 128 + 128)%Z :: varint fuel' (n / 128)%Z
  end.

(** [writer.uint32(n)]. *)
Definition uint32 (n : nat) : list Z := varint 4 (toUint32 (Z.of_nat n)).

(** [writer.bytes(value)]: the length as a varint, then the octets. *)
Definition bytes (value : list Z) (w : Writer) : Writer :=
  let prefix := uint32 (List.length value) in
  mkWriter (len w + List.length prefix + List.length value)
           (content w ++ prefix ++ value)%list.

(** [writer.len += n]: the field alone. *)
Definition addLen (n : nat) (w : Writer) : Writer :=
  mkWriter (len w + n) (content w).

(** [writer.finish()]: a buffer of [len] octets with the content laid out
    from its start. *)
Definition finish (w : Writer) : Buffer := prefix (len w) (content w).

End Writer.

(* --------------------------------------------------------------------- *)
(** ** lib/serialize/protobuf/index.js *)
(* --------------------------------------------------------------------- *)

Module Protobuf.

Import Bytes Env.

(** The [output] of the binary drivers: [output.bytes] holds the header,
    the module's [encoder] the payload. *)
Record Session : Type := mkSession {
  bytes : ByteBuffer;
  encoder : Writer.Writer
}.

Section Driver.

Variable rt : Runtime.
Variable cst : Constants.

(** [mapType]: the own keys of the table. *)
Definition mapType (name : string) : option string :=
  if String.eqb name "java.lang.String" then Some "StringValue"
  else if String.eqb name "java.util.HashMap" then Some "HashMap"
  else if String.eqb name "java.util.ArrayList" then Some "ArrayValue"
  else if String.eqb name "java.lang.Exception" then Some "AnyVal"
  else if String.eqb name "boolean" then Some "BoolValue"
  else if String.eqb name "int" then Some "Int32Value"
  else if String.eqb name "long" then Some "Int64Value"
  else if String.eqb name "double" then Some "DoubleValue"
  else None.

(** [mapType[type] || type]. *)
Definition mapped (type : string) : string :=
  match mapType type with Some t => t | None => type end.

Definition mappedValue (cls : JsValue) : JsValue :=
  match cls with
  | VStr name => VStr (mapped name)
  | _ => cls
  end.

(** [output.get()]. *)
Definition get (st : Session) : Buffer :=
  if Nat.ltb 16 (_offset (bytes st)) then written (bytes st)
  else (written (bytes st)
        ++ firstn (Writer.len (encoder st)) (Writer.finish (encoder st)))%list.

(** The loop of the ['HashMap'] case: the entries whose value is a string
    or a number, the value as text. *)
Fixpoint stringEntries (arr : list (string * JsValue))
    (attachments : list (string * JsValue)) : list (string * JsValue) :=
  match arr with
  | [] => attachments
  | (key, val) :: rest =>
      match val with
      | VStr s => stringEntries rest (assign key (VStr s) attachments)
      | VNum _ => stringEntries rest (assign key (VStr (toStringOf rt val)) attachments)
      | _ => stringEntries rest attachments
      end
  end.

Definition hashMapAttachments (v : JsValue) : result JsValue :=
  arr <- entries v ;; Ok (VObject (stringEntries arr [])).

(** [output.writeObject(v, classMap, type, options)].  The values of the
    model are plain: none has a constructor with an [encode] of its own.
    The source also stores the mapped class name and the message of an
    error back into [v]; nothing reads them again during the call. *)
Definition writeObject (v classMap : JsValue) (type : string) (opts : Options)
    (st : Session) : result Session :=
  match options opts with
  | None => Ok st
  | Some optsProto =>
      cls <- (if truthy v then getProp v "$class" else Ok VUndefined) ;;
      val <- (if truthy v then getProp v "$" else Ok VUndefined) ;;
      match optsProto with
      | None => Ok st
      | Some root =>
          if (truthy v && truthy cls && truthy val)%bool then
            Msg <- findType root (mappedValue cls) ;;
            let payload := match val with
                           | VError message => VStr message
                           | _ => val
                           end in
            Ok (mkSession (bytes st)
                  (Writer.bytes (msgEncode Msg (msgCreate Msg payload)) (encoder st)))
          else if tagged (Some type) then
            Msg <- findType root (VStr (mapped type)) ;;
            message <-
              (if String.eqb (mapped type) "HashMap"
               then attachments <- hashMapAttachments v ;;
                    Ok (VObject [("value", attachments)])
               else _ <- getProp v "constructor" ;;
                    Ok (VObject [("value", v)])) ;;
            Ok (mkSession (bytes st)
                  (Writer.bytes (msgEncode Msg (msgCreate Msg message)) (encoder st)))
          else Ok st
      end
  end.

(** [output.writeUTF(v, options)]. *)
Definition writeUTF (v : JsValue) (opts : Options) (st : Session) : result Session :=
  match options opts with
  | Some _ => writeObject v VNull "StringValue" opts st
  | None =>
      Ok (mkSession (putBuffer (StringValue_delimited rt v) (bytes st))
                    (Writer.addLen 4 (encoder st)))
  end.

Definition output : OutputDriver :=
  {| Env.OutSt := Session;
     Env.serialize := mkSession allocate Writer.create;
     Env.outBytes := bytes;
     Env.onBytes := fun f st => mkSession (f (bytes st)) (encoder st);
     Env.outLen := fun st => Z.of_nat (Writer.len (encoder st));
     Env.contentTypeId := PROTOBUF_SERIALIZATION_ID cst;
     Env.outGet := get;
     Env.writeUTF := writeUTF;
     Env.writeObject := writeObject |}.

(** [reader.skip(n)]. *)
Definition skip (n : nat) (decoder : Reader) : result Reader :=
  if Nat.ltb (List.length (rbuf decoder)) (rpos decoder + n)
  then Throw RangeError
  else Ok (mkReader (rbuf decoder) (rpos decoder + n)).

(** [Msg.toObject(decoded, conversionOptions)], then [.value] when the
    registry has a member named like the type. *)
Definition unwrap (root : Root) (type : string) (Msg : Msg)
    (decoded : result JsValue) : result JsValue :=
  message <- decoded ;;
  let data := msgToObject Msg message in
  if rootHas root type then getProp data "value" else Ok data.

(** The [try { ... } catch (e) { ... }] of [readObject]: the direct decode,
    and on any throw of it the handler, which asks [utils.int2hex] for the
    length of the octets before it decodes them length-delimited. *)
Definition decodeWithFallback (root : Root) (type : string) (Msg : Msg)
    (buf : list Z) : result JsValue :=
  match unwrap root type Msg (msgDecode Msg buf) with
  | Ok data => Ok data
  | Throw _ =>
      hex <- Utils.int2hex (List.length buf) ;;
      unwrap root type Msg (msgDecodeDelimited Msg (fromHex hex ++ buf)%list)
  end.

(** The reply branch of [readObject]: the response type of the call in
    [options.channel]. *)
Definition readReply (root : Root) (ch : Channel) (decoder : Reader)
  : result (JsValue * Reader) :=
  responseMsg <- responseType root (jsOr (service ch) (serverSignature ch))
                              (reqMethodName ch) ;;
  match responseMsg with
  | None => Ok (VStr "", decoder)
  | Some Msg =>
      r <- Reader_bytes rt decoder ;;
      match msgDecode Msg (fst r) with
      | Ok message => Ok (msgToObject Msg message, snd r)
      | Throw _ =>
          hex <- Utils.int2hex (List.length (fst r)) ;;
          message <- msgDecodeDelimited Msg (fromHex hex ++ fst r)%list ;;
          Ok (msgToObject Msg message, snd r)
      end
  end.

(** [input.readObject(options, type)]. *)
Definition readObject (opts : Options) (type : option string) (decoder : Reader)
  : result (JsValue * Reader) :=
  match proto opts with
  | None => Ok (VUndefined, decoder)
  | Some root =>
      match type with
      | Some t =>
          if tagged type then
            Msg <- findType root (VStr (mapped t)) ;;
            r <- Reader_bytes rt decoder ;;
            data <- decodeWithFallback root (mapped t) Msg (fst r) ;;
            Ok (data, snd r)
          else
            match channel opts with
            | Some ch => readReply root ch decoder
            | None => Ok (VUndefined, decoder)
            end
      | None =>
          match channel opts with
          | Some ch => readReply root ch decoder
          | None => Ok (VUndefined, decoder)
          end
      end
  end.

Definition input : InputDriver :=
  {| Env.InSt := Reader;
     Env.deserialize := fun buf => mkReader buf 0;
     Env.inSkip := skip;
     Env.readObject := readObject;
     Env.readUTF := fun opts => readObject opts (Some "StringValue") |}.

Definition driver : Driver := {| Env.output := output; Env.input := input |}.

End Driver.

End Protobuf.

(* --------------------------------------------------------------------- *)
(** ** lib/serialize/protobuf/index.js, the earlier revision *)
(* --------------------------------------------------------------------- *)

Module ProtobufOld.

Import Bytes Env.

Section Driver.

Variable rt : Runtime.
Variable cst : Constants.

(** The object built in the ['HashMap'] case of [writeObject]. *)
Definition hashMapAttachments (v : JsValue) : result JsValue :=
  path <- getProp v "path" ;;
  group <- getProp v "group" ;;
  version <- getProp v "version" ;;
  Ok (VObject [ ("path", jsOr path (VStr ""));
                ("interface", jsOr path (VStr ""));
                ("group", jsOr group (VStr ""));
                ("version", jsOr version (VStr "")) ]).

(** [output.writeObject(v, classMap, type, options)]. *)
Definition writeObject (v classMap : JsValue) (type : string) (opts : Options)
    (st : Protobuf.Session) : result Protobuf.Session :=
  match truthy v, options opts with
  | true, Some optsProto =>
      cls <- getProp v "$class" ;;
      val <- getProp v "$" ;;
      match optsProto with
      | None => Ok st
      | Some root =>
          if (truthy cls && truthy val)%bool then
            Msg <- findType root cls ;;
            Ok (Protobuf.mkSession (Protobuf.bytes st)
                  (Writer.bytes (msgEncode Msg (msgCreate Msg val))
                                (Protobuf.encoder st)))
          else if tagged (Some type) then
            Msg <- findType root (VStr type) ;;
            message <-
              (if String.eqb type "HashMap"
               then attachments <- hashMapAttachments v ;;
                    Ok (VObject [("value", attachments)])
               else Ok (VObject [("value", v)])) ;;
            Ok (Protobuf.mkSession (Protobuf.bytes st)
                  (Writer.bytes (msgEncode Msg (msgCreate Msg message))
                                (Protobuf.encoder st)))
          else Ok st
      end
  | _, _ => Ok st
  end.

(** [output.writeUTF(v, options)]. *)
Definition writeUTF (v : JsValue) (opts : Options) (st : Protobuf.Session)
  : result Protobuf.Session :=
  match options opts with
  | Some _ => writeObject v VNull "StringValue" opts st
  | None =>
      Ok (Protobuf.mkSession
            (putBuffer (StringValue_delimited rt v) (Protobuf.bytes st))
            (Writer.addLen 4 (Protobuf.encoder st)))
  end.

Definition output : OutputDriver :=
  {| Env.OutSt := Protobuf.Session;
     Env.serialize := Protobuf.mkSession allocate Writer.create;
     Env.outBytes := Protobuf.bytes;
     Env.onBytes := fun f st =>
       Protobuf.mkSession (f (Protobuf.bytes st)) (Protobuf.encoder st);
     Env.outLen := fun st => Z.of_nat (Writer.len (Protobuf.encoder st));
     Env.contentTypeId := PROTOBUF_SERIALIZATION_ID cst;
     Env.outGet := Protobuf.get;
     Env.writeUTF := writeUTF;
     Env.writeObject := writeObject |}.

(** [Buffer.concat([Buffer.from([buf.length]), buf])]: one octet of length,
    then the octets. *)
Definition lengthOctet (buf : list Z) : list Z :=
  toUint8 (Z.of_nat (List.length buf)) :: buf.

(** The reply branch of [readObject]. *)
Definition readReply (root : Root) (ch : Channel) (decoder : Reader)
  : result (JsValue * Reader) :=
  responseMsg <- responseType root (jsOr (service ch) (serverSignature ch))
                              (reqMethodName ch) ;;
  match responseMsg with
  | None => Ok (VStr "", decoder)
  | Some Msg =>
      r <- Reader_bytes rt decoder ;;
      match msgDecode Msg (fst r) with
      | Ok message => Ok (msgToJSON Msg message, snd r)
      | Throw _ =>
          hex <- Utils.int2hex (List.length (fst r)) ;;
          message <- msgDecodeDelimited Msg (fromHex hex ++ fst r)%list ;;
          Ok (msgToJSON Msg message, snd r)
      end
  end.

(** [input.readObject(options, type)]: a typed read decodes the octets
    behind their length octet, length-delimited. *)
Definition readObject (opts : Options) (type : option string) (decoder : Reader)
  : result (JsValue * Reader) :=
  match proto opts with
  | None => Ok (VUndefined, decoder)
  | Some root =>
      match type with
      | Some t =>
          if tagged type then
            Msg <- findType root (VStr t) ;;
            r <- Reader_bytes rt decoder ;;
            message <- msgDecodeDelimited Msg (lengthOctet (fst r)) ;;
            data <- getProp (msgToJSON Msg message) "value" ;;
            Ok (data, snd r)
          else
            match channel opts with
            | Some ch => readReply root ch decoder
            | None => Ok (VUndefined, decoder)
            end
      | None =>
          match channel opts with
          | Some ch => readReply root ch decoder
          | None => Ok (VUndefined, decoder)
          end
      end
  end.

Definition input : InputDriver :=
  {| Env.InSt := Reader;
     Env.deserialize := fun buf => mkReader buf 0;
     Env.inSkip := Protobuf.skip;
     Env.readObject := readObject;
     Env.readUTF := fun opts => readObject opts (Some "StringValue") |}.

Definition driver : Driver := {| Env.output := output; Env.input := input |}.

End Driver.

End ProtobufOld.

(* --------------------------------------------------------------------- *)
(** ** lib/serialize/protobuf-json/index.js, the earlier revision *)
(* --------------------------------------------------------------------- *)

Module ProtobufJsonOld.

Import Bytes Env.

Section Driver.

Variable rt : Runtime.
Variable cst : Constants.

(** The octets of [Buffer.from(JSON.stringify(x) + "\n", 'utf8')]. *)
Definition jsonLine (x : JsValue) : list Z :=
  octets (JSON_stringify rt x ++ String "010" "").

(** [output.get()]. *)
Definition get (st : Protobuf.Session) : Buffer :=
  (written (Protobuf.bytes st) ++ Writer.finish (Protobuf.encoder st))%list.

(** [output.writeObject(v, classMap, type, options)]. *)
Definition writeObject (v classMap : JsValue) (type : string) (opts : Options)
    (st : Protobuf.Session) : result Protobuf.Session :=
  match truthy v, options opts with
  | true, Some optsProto =>
      cls <- getProp v "$class" ;;
      val <- getProp v "$" ;;
      match optsProto with
      | None => Ok st
      | Some root =>
          if (truthy cls && truthy val)%bool then
            Msg <- findType root cls ;;
            Ok (Protobuf.mkSession (Protobuf.bytes st)
                  (Writer.bytes (jsonLine (msgToJSON Msg (msgCreate Msg val)))
                                (Protobuf.encoder st)))
          else if tagged (Some type) then
            Msg <- findType root (VStr type) ;;
            json <-
              (if String.eqb type "HashMap"
               then attachments <- ProtobufOld.hashMapAttachments v ;;
                    Ok (VObject [("attachments", attachments)])
               else getProp (msgToJSON Msg (msgCreate Msg (VObject [("value", v)])))
                            "value") ;;
            Ok (Protobuf.mkSession (Protobuf.bytes st)
                  (Writer.bytes (jsonLine json) (Protobuf.encoder st)))
          else Ok st
      end
  | _, _ => Ok st
  end.

(** [output.writeUTF(v, options)]: without [options.options] the call is
    [this.string(v)], and the [output] object has no [string] method. *)
Definition writeUTF (v : JsValue) (opts : Options) (st : Protobuf.Session)
  : result Protobuf.Session :=
  match options opts with
  | Some _ => writeObject v VNull "StringValue" opts st
  | None => Throw TypeError
  end.

Definition output : OutputDriver :=
  {| Env.OutSt := Protobuf.Session;
     Env.serialize := Protobuf.mkSession allocate Writer.create;
     Env.outBytes := Protobuf.bytes;
     Env.onBytes := fun f st =>
       Protobuf.mkSession (f (Protobuf.bytes st)) (Protobuf.encoder st);
     Env.outLen := fun st => Z.of_nat (Writer.len (Protobuf.encoder st));
     Env.contentTypeId := PROTOBUF_JSON_SERIALIZATION_ID cst;
     Env.outGet := get;
     Env.writeUTF := writeUTF;
     Env.writeObject := writeObject |}.

(** [input.readObject(options, type)]. *)
Definition readObject (opts : Options) (type : option string) (decoder : Reader)
  : result (JsValue * Reader) :=
  match proto opts with
  | None => Ok (VUndefined, decoder)
  | Some root =>
      match type with
      | Some t =>
          if tagged type then
            Msg <- findType root (VStr t) ;;
            r <- Reader_bytes rt decoder ;;
            message <- msgDecodeDelimited Msg (ProtobufOld.lengthOctet (fst r)) ;;
            data <- getProp (msgToJSON Msg message)
                            (if String.eqb t "HashMap" then "attachments" else "value") ;;
            Ok (data, snd r)
          else
            match channel opts with
            | Some ch =>
                responseMsg <- responseType root
                                 (jsOr (service ch) (serverSignature ch))
                                 (reqMethodName ch) ;;
                match responseMsg with
                | None => Ok (VStr "", decoder)
                | Some Msg =>
                    r <- Reader_bytes rt decoder ;;
                    message <- msgDecodeDelimited Msg
                                 (ProtobufOld.lengthOctet (fst r)) ;;
                    Ok (msgToJSON Msg message, snd r)
                end
            | None => Ok (VUndefined, decoder)
            end
      | None =>
          match channel opts with
          | Some ch =>
              responseMsg <- responseType root
                               (jsOr (service ch) (serverSignature ch))
                               (reqMethodName ch) ;;
              match responseMsg with
              | None => Ok (VStr "", decoder)
              | Some Msg =>
                  r <- Reader_bytes rt decoder ;;
                  message <- msgDecodeDelimited Msg
                               (ProtobufOld.lengthOctet (fst r)) ;;
                  Ok (msgToJSON Msg message, snd r)
              end
          | None => Ok (VUndefined, decoder)
          end
      end
  end.

Definition input : InputDriver :=
  {| Env.InSt := Reader;
     Env.deserialize := fun buf => mkReader buf 0;
     Env.inSkip := Protobuf.skip;
     Env.readObject := readObject;
     Env.readUTF := fun opts => readObject opts (Some "StringValue") |}.

Definition driver : Driver := {| Env.output := output; Env.input := input |}.

End Driver.

End ProtobufJsonOld.

(* --------------------------------------------------------------------- *)
(** ** lib/serialize/index.js *)
(* --------------------------------------------------------------------- *)

Module Serialize.

Import Env.

(** A lookup in an object literal: of two entries with one key the later
    one is the property. *)
Fixpoint property {K A : Type} (same : K -> K -> bool) (k : K)
    (literal : list (K * A)) : option A :=
  match literal with
  | [] => None
  | (k', a) :: rest =>
      match property same k rest with
      | Some later => Some later
      | None => if same k k' then Some a else None
      end
  end.

Section Registry.

Variable cst : Constants.

(** The three modules the tables name; [./hessian] is not among the
    sources. *)
Variables hessian protobufJson protobuf : Driver.

(** The protostuff entries are commented out in both tables. *)
Definition idToSerializations : list (Z * Driver) :=
  [ (HESSIAN2_SERIALIZATION_ID cst, hessian);
    (PROTOBUF_JSON_SERIALIZATION_ID cst, protobufJson);
    (PROTOBUF_SERIALIZATION_ID cst, protobuf) ].

Definition nameToSerializations : list (string * Driver) :=
  [ ("hessian2", hessian);
    ("protobuf-json", protobufJson);
    ("protobuf", protobuf) ].

(** [getSerializationById(id)]: the property, or [undefined]. *)
Definition getSerializationById (id : Z) : option Driver :=
  property Z.eqb id idToSerializations.

(** [getSerializationByName(name)]. *)
Definition getSerializationByName (name : string) : option Driver :=
  property String.eqb name nameToSerializations.

(** [getSerializationNameById(id)]. *)
Definition getSerializationNameById (id : Z) : string :=
  if Z.eqb id (PROTOSTUFF_SERIALIZATION_ID cst) then "protostuff"
  else if Z.eqb id (PROTOBUF_JSON_SERIALIZATION_ID cst) then "protobuf-json"
  else if Z.eqb id (PROTOBUF_SERIALIZATION_ID cst) then "protobuf"
  else "hessian2".

End Registry.

End Serialize.

(* --------------------------------------------------------------------- *)
(** ** lib/protocol/request.js *)
(* --------------------------------------------------------------------- *)

Module Request.

Import Bytes Env Utils.

Definition DUBBO_VERSION : string := "2.5.3".
Definition HEADER_LENGTH : nat := 16.
Definition MAGIC_HIGH : Z := 218.
Definition MAGIC_LOW : Z := 187.
Definition FLAG_EVENT : Z := 32.
Definition FLAG_TWOWAY : Z := 64.
Definition FLAG_REQUEST : Z := 128.
Definition SERIALIZATION_MASK : Z := 31.

(** An [Invocation]: method name, arguments, attachments. *)
Record Invocation : Type := mkInvocation {
  methodName : JsValue;
  args : list JsValue;
  attachments : list (string * JsValue)
}.

(** [request.data]: an [Invocation], or any other value. *)
Inductive Payload : Type :=
| PInvocation (inv : Invocation)
| PValue (v : JsValue).

(** A [Request], as far as [encode] reads it. *)
Record Request : Type := mkRequest {
  id : Z;
  isTwoWay : bool;
  isEvent : bool;
  data : Payload
}.

(** [inv.attachments[key]]. *)
Definition attachment (inv : Invocation) (key : string) : JsValue :=
  prop key (attachments inv).

(** The flag octet of [encode]. *)
Definition flagOf (contentTypeId : Z) (req : Request) : Z :=
  let flag := Z.lor FLAG_REQUEST contentTypeId in
  let flag := if isTwoWay req then Z.lor flag FLAG_TWOWAY else flag in
  if isEvent req then Z.lor flag FLAG_EVENT else flag.

(** The header writes of [encode], from [bytes.put(MAGIC_HIGH)] to
    [bytes.skip(4)]. *)
Definition putHeader (contentTypeId : Z) (req : Request) (bytes : ByteBuffer)
  : ByteBuffer :=
  skip 4 (putLong (id req) (put 0 (put (flagOf contentTypeId req)
    (put MAGIC_LOW (put MAGIC_HIGH bytes))))).

Section Encode.

Variable cst : Constants.
Variable D : OutputDriver.

(** [for (let i = 0; i < types.length; i++) output.writeObject(inv.args[i],
    classMap, types[i], options)]. *)
Fixpoint writeArgs (opts : Options) (args : list JsValue) (types : list string)
    (i : nat) (st : OutSt D) : result (OutSt D) :=
  match types with
  | [] => Ok st
  | type :: rest =>
      st' <- writeObject D (nth i args VUndefined) (classMap opts) type opts st ;;
      writeArgs opts args rest (S i) st'
  end.

(** The body of a packet. *)
Definition encodeBody (req : Request) (opts : Options) (st : OutSt D)
  : result (OutSt D) :=
  match data req with
  | PInvocation inv =>
      st <- writeUTF D (jsOr (attachment inv (DUBBO_VERSION_KEY cst))
                             (VStr DUBBO_VERSION)) opts st ;;
      st <- writeUTF D (attachment inv (PATH_KEY cst)) opts st ;;
      st <- writeUTF D (jsOr (attachment inv (VERSION_KEY cst))
                             (VStr "0.0.0")) opts st ;;
      st <- writeUTF D (methodName inv) opts st ;;
      desc <- getJavaArgsDesc (args inv) ;;
      st <- writeUTF D (VStr desc) opts st ;;
      types <- desc2classArray desc ;;
      st <- writeArgs opts (args inv) types 0 st ;;
      writeObject D (VObject (attachments inv)) (classMap opts) "HashMap" opts st
  | PValue v =>
      if isEvent req then writeUTF D (VStr "H") opts st
      else writeObject D v (classMap opts) "AnyVal" opts st
  end.

(** [codecType != Constants.DEFAULT_REMOTING_SERIALIZATION]. *)
Definition notDefaultCodec (opts : Options) : bool :=
  match codecType opts with
  | Some name => negb (String.eqb name (DEFAULT_REMOTING_SERIALIZATION cst))
  | None => true
  end.

(** [bodyLen]. *)
Definition bodyLen (opts : Options) (st : OutSt D) : Z :=
  if notDefaultCodec opts then outLen D st
  else (Z.of_nat (position (outBytes D st)) - Z.of_nat HEADER_LENGTH)%Z.

(** [request.encode(options)] once the driver is resolved. *)
Definition encodeWith (req : Request) (opts : Options) : result Buffer :=
  let st := onBytes D (putHeader (contentTypeId D) req) (serialize D) in
  st <- encodeBody req opts st ;;
  storage <- writeInt32BE (bodyLen opts st) 12 (_bytes (outBytes D st)) ;;
  let st := onBytes D (fun bytes => mkByteBuffer storage (_offset bytes)) st in
  Ok (outGet D st).

End Encode.

(** The calls [encode] makes on the [output] object for a body. *)
Inductive Call : Type :=
| CallWriteUTF (v : JsValue)
| CallWriteObject (v classMap : JsValue) (type : string).

Definition perform (D : OutputDriver) (opts : Options) (c : Call) (st : OutSt D)
  : result (OutSt D) :=
  match c with
  | CallWriteUTF v => writeUTF D v opts st
  | CallWriteObject v classMap type => writeObject D v classMap type opts st
  end.

(** The calls in order, each on the state the one before left; a throw ends
    the sequence. *)
Fixpoint performAll (D : OutputDriver) (opts : Options) (calls : list Call)
    (st : OutSt D) : result (OutSt D) :=
  match calls with
  | [] => Ok st
  | c :: rest => st' <- perform D opts c st ;; performAll D opts rest st'
  end.

(** The first sixteen octets of [b] are those of [a], and the position has
    not moved back. *)
Definition headerKept (a b : ByteBuffer) : Prop :=
  _offset a <= _offset b /\
  forall k, k < HEADER_LENGTH -> nth k (_bytes b) 0%Z = nth k (_bytes a) 0%Z.

(** A driver that leaves the header alone: [output.bytes] is one object for
    the whole session, the writers do not touch its first sixteen octets
    once the position is past them, and [get()] returns a buffer that starts
    with them. *)
Record HeaderKept (D : OutputDriver) : Prop := mkHeaderKept {
  serialize_at_start : _offset (outBytes D (serialize D)) = 0;
  onBytes_outBytes :
    forall f st, outBytes D (onBytes D f st) = f (outBytes D st);
  writeUTF_kept :
    forall v opts st st',
      HEADER_LENGTH <= _offset (outBytes D st) ->
      writeUTF D v opts st = Ok st' ->
      headerKept (outBytes D st) (outBytes D st');
  writeObject_kept :
    forall v classMap type opts st st',
      HEADER_LENGTH <= _offset (outBytes D st) ->
      writeObject D v classMap type opts st = Ok st' ->
      headerKept (outBytes D st) (outBytes D st');
  get_header :
    forall st,
      HEADER_LENGTH <= _offset (outBytes D st) ->
      HEADER_LENGTH <= List.length (outGet D st) /\
      forall k, k < HEADER_LENGTH ->
        nth k (outGet D st) 0%Z = nth k (_bytes (outBytes D st)) 0%Z
}.

(** [request.encode(options)]: the driver is the one named by
    [codecType || Constants.DEFAULT_REMOTING_SERIALIZATION]; calling
    [serialize] on a missing one throws. *)
Definition encode (cst : Constants) (byName : string -> option Driver)
    (req : Request) (opts : Options) : result Buffer :=
  let name := match codecType opts with
              | Some name =>
                  if String.eqb name "" then DEFAULT_REMOTING_SERIALIZATION cst
                  else name
              | None => DEFAULT_REMOTING_SERIALIZATION cst
              end in
  match byName name with
  | Some driver => encodeWith cst (output driver) req opts
  | None => Throw TypeError
  end.

(** The [data] of a decoded invocation. *)
Record InvocationData : Type := mkInvocationData {
  dMethodName : JsValue;
  dServerSignature : JsValue;
  dArgs : list JsValue;
  dMethodArgSigs : list string;
  dRequestProps : list (string * JsValue)
}.

Inductive PacketData : Type :=
| DValue (v : JsValue)
| DInvocation (d : InvocationData).

(** [attachments.path] of a decoded invocation. *)
Definition pathOf (d : InvocationData) : JsValue :=
  match lookup "path" (dRequestProps d) with
  | Some p => p
  | None => VUndefined
  end.

(** What [decode] returns; its [meta] is always [null]. *)
Record Packet : Type := mkPacket {
  packetId : Long.PacketId;
  packetType : string;
  packetData : PacketData;
  protocolType : string;
  packetCodecType : string;
  packetClassMap : JsValue
}.

(** The first statement of [decode]: the packet id. *)
Definition readPacketId (buf : Buffer) : result Long.PacketId :=
  lo <- readInt32BE 8 buf ;;
  hi <- readInt32BE 4 buf ;;
  Ok (Long.handleLong (Long.newLong lo hi)).

(** [buf[2]], read after the id: the buffer has twelve octets or more. *)
Definition flagByte (buf : Buffer) : Z := nth 2 buf 0%Z.

(** [flag & SERIALIZATION_MASK]. *)
Definition serializationType (flag : Z) : Z := Z.land flag SERIALIZATION_MASK.

Section Decode.

Variable rt : Runtime.
Variable cst : Constants.
Variable I : InputDriver.

(** [utils.desc2classArray(desc)] on what [readUTF] returned. *)
Definition classArrayOf (desc : JsValue) : result (list string) :=
  match desc with
  | VStr s => desc2classArray s
  | _ => if truthy desc then classArrayOfNonString rt desc else Ok []
  end.

(** [for (let i = 0; i < argLen; ++i) args.push(input.readObject(options,
    methodArgSigs[i]))]. *)
Fixpoint readArgs (opts : Options) (sigs : list string) (args : list JsValue)
    (st : InSt I) : result (list JsValue * InSt I) :=
  match sigs with
  | [] => Ok (args, st)
  | sig :: rest =>
      r <- readObject I opts (Some sig) st ;;
      readArgs opts rest (args ++ [fst r]) (snd r)
  end.

(** The invocation branch: [field] is the first value of the body. *)
Definition readInvocation (opts : Options) (field : JsValue) (st : InSt I)
  : result InvocationData :=
  path <- readUTF I opts st ;;
  let attachments :=
    assign (PATH_KEY cst) (fst path) (assign (DUBBO_VERSION_KEY cst) field []) in
  version <- readUTF I opts (snd path) ;;
  name <- readUTF I opts (snd version) ;;
  desc <- readUTF I opts (snd name) ;;
  methodArgSigs <- classArrayOf (fst desc) ;;
  read <- readArgs opts methodArgSigs [] (snd desc) ;;
  merged <- readObject I opts (Some "HashMap") (snd read) ;;
  let attachments := objectAssign attachments (fst merged) in
  let path := match lookup "path" attachments with
              | Some p => p
              | None => VUndefined
              end in
  let serverSignature :=
    if truthy (fst version)
    then jsConcat rt (jsConcat rt path (VStr ":")) (fst version)
    else path in
  Ok (mkInvocationData (fst name) serverSignature (fst read) methodArgSigs
                       attachments).

(** The body branch of [decode], after [input.skip(16)]. *)
Definition readBody (flag : Z) (opts : Options) (st : InSt I)
  : result (string * PacketData) :=
  if negb (Z.eqb (Z.land flag FLAG_EVENT) 0) then
    r <- readObject I opts None st ;;
    Ok ("heartbeat", DValue (fst r))
  else
    field <- readObject I opts (Some "AnyVal") st ;;
    if isString (fst field) then
      d <- readInvocation opts (fst field) (snd field) ;;
      Ok ("request", DInvocation d)
    else Ok ("request", DValue (fst field)).

End Decode.

(** [Request.decode(buf, options)]. *)
Definition decode (rt : Runtime) (cst : Constants) (byId : Z -> option Driver)
    (buf : Buffer) (opts : Options) : result Packet :=
  packetId <- readPacketId buf ;;
  let flag := flagByte buf in
  let sType := serializationType flag in
  match byId sType with
  | None => Throw TypeError
  | Some driver =>
      let I := input driver in
      let st := deserialize I buf in
      let opts := if Z.eqb sType 21
                  then mkOptions (Some "protobuf") (classMap opts) (options opts)
                                 (proto opts) (channel opts)
                  else opts in
      st <- inSkip I 16 st ;;
      body <- readBody rt cst I flag opts st ;;
      Ok (mkPacket packetId (fst body) (snd body) "dubbo"
            (match codecType opts with
             | Some name => if String.eqb name "" then "hessian2" else name
             | None => "hessian2"
             end)
            (classMap opts))
  end.

End Request.

(* --------------------------------------------------------------------- *)
(** ** lib/utils.js: the functions around the descriptor translator *)
(* --------------------------------------------------------------------- *)

Module UtilsRest.

Import Bytes Env Utils.

(** [utility.MAX_SAFE_INTEGER]. *)
Definition MAX_SAFE_INTEGER : Z := 2 ^ 53 - 1.

(** [newId()] on the module's counter [id]: the value returned, which is
    also the counter afterwards.  The counter is an integer of at most
    [2^53 - 1], so [id + 1] is exact. *)
Definition newId (id : Z) : Z :=
  if (id <? MAX_SAFE_INTEGER)%Z then (id + 1)%Z else 0%Z.

(** [Buffer.alloc(n)]. *)
Definition alloc (n : nat) : Buffer := repeat 0%Z n.

(** [source.copy(target, targetStart, sourceStart, sourceEnd)], as the
    target after the call: the octets [sourceStart, sourceEnd) of the source,
    as many as fit, laid over the target from [targetStart]. *)
Definition copy (source target : Buffer) (targetStart sourceStart sourceEnd : nat)
  : Buffer :=
  let chunk := firstn (List.length target - targetStart)
                 (firstn (sourceEnd - sourceStart) (skipn sourceStart source)) in
  (firstn targetStart target ++ chunk
   ++ skipn (targetStart + List.length chunk) target)%list.

(** [concatBuffer(buf_1, buf_2)]. *)
Definition concatBuffer (buf_1 buf_2 : Buffer) : Buffer :=
  let len_1 := List.length buf_1 in
  let len_2 := List.length buf_2 in
  let buf := alloc (len_1 + len_2) in
  let buf := copy buf_1 buf 0 0 len_1 in
  copy buf_2 buf len_1 0 len_2.

(** What a call of [getJavaClassname] ends in: the name, or the
    [ReferenceError] of the engine for the identifier [has], which the
    module uses there and neither defines nor imports. *)
Inductive Classname : Type :=
| Named (name : string)
| HasIsNotDefined.

(** [getJavaClassname(val)]. *)
Definition getJavaClassname (val : JsValue) : Classname :=
  match val with
  | VUndefined | VNull | VNum NNaN => Named "null"
  | _ =>
      if truthy (match val with
                 | VObject props => prop "$class" props
                 | _ => VUndefined
                 end)
      then HasIsNotDefined
      else
        match val with
        | VBool _ => Named "boolean"
        | VStr _ => Named "java.lang.String"
        | VNum n =>
            if is_long n then Named "long"
            else if is_int n then Named "int" else Named "double"
        | VDate _ => Named "java.util.Date"
        | VBuffer _ => Named "[B"
        | VArray _ => Named "java.util.ArrayList"
        | VError _ => Named "java.lang.RuntimeException"
        | _ => Named "java.util.HashMap"
        end
  end.



Section Copies.

Variable rt : Runtime.

(** [flatCopyTo(prefix, sourceMap, distMap)], as [distMap] after the call,
    for a [distMap] that is no part of [sourceMap].  The [for ... in] visits
    the enumerable properties: those of a plain object, the indices of an
    array or of a string, none for [null] (which [typeof] calls an object),
    for a date, for an error or for a primitive.  A buffer also inherits
    enumerable properties from Node's prototype, which the model does not
    list: the result is [None] when the walk meets one. *)
Fixpoint flatCopyTo (prefix : string) (sourceMap : JsValue)
    (distMap : list (string * JsValue)) {struct sourceMap}
  : option (list (string * JsValue)) :=
  match sourceMap with
  | VObject props =>
      (fix each (ps : list (string * JsValue)) (dist : list (string * JsValue))
         : option (list (string * JsValue)) :=
         match ps with
         | [] => Some dist
         | (k, val) :: rest =>
             match
               match val with
               | VStr _ => Some (assign (prefix ++ k) val dist)
               | VNum _ =>
                   Some (assign (prefix ++ k) (VStr (toStringOf rt val)) dist)
               | VUndefined | VBool _ => Some dist
               | _ => flatCopyTo ((prefix ++ k) ++ ".") val dist
               end
             with
             | Some dist' => each rest dist'
             | None => None
             end
         end) props distMap
  | VArray items =>
      (fix each (i : nat) (xs : list JsValue) (dist : list (string * JsValue))
         : option (list (string * JsValue)) :=
         match xs with
         | [] => Some dist
         | val :: rest =>
             match
               match val with
               | VStr _ => Some (assign (prefix ++ indexKey i) val dist)
               | VNum _ =>
                   Some (assign (prefix ++ indexKey i)
                                (VStr (toStringOf rt val)) dist)
               | VUndefined | VBool _ => Some dist
               | _ => flatCopyTo ((prefix ++ indexKey i) ++ ".") val dist
               end
             with
             | Some dist' => each (S i) rest dist'
             | None => None
             end
         end) 0 items distMap
  | VStr s =>
      Some (fold_left (fun dist kv => assign (prefix ++ fst kv) (snd kv) dist)
                      (indexed VStr 0 (characters s)) distMap)
  | VBuffer _ => None
  | _ => Some distMap
  end.

End Copies.



(** [typeMap]: a [Map] from paths to the types found, the latest entry
    first. *)
Definition typeMapGet (path : string) (typeMap : list (string * Msg))
  : option Msg :=
  match find (fun entry => String.eqb path (fst entry)) typeMap with
  | Some entry => Some (snd entry)
  | None => None
  end.

(** [utils.findType(root, path)] for a string [path], with its memo table:
    the outcome and the table afterwards. *)
Definition findTypeMemo (typeMap : list (string * Msg)) (root : Root)
    (path : string) : result Msg * list (string * Msg) :=
  match typeMapGet path typeMap with
  | Some target => (Ok target, typeMap)
  | None =>
      match lookupType root path with
      | Some target => (Ok target, (path, target) :: typeMap)
      | None =>
          (Throw (Error ("no such Type '" ++ path ++ "' in proto file")), typeMap)
      end
  end.

End UtilsRest.

(* --------------------------------------------------------------------- *)
(** ** lib/protocol/request.js: the constructor and the accessors *)
(* --------------------------------------------------------------------- *)

Module RequestClass.

Import Request.

(** [new Request(id)] with the module counter of lib/utils.js at [counter]:
    the request and the counter afterwards.  [given] is [None] for an [id]
    that is [null] or [undefined]. *)
Definition construct (given : option Z) (counter : Z) : Request * Z :=
  match given with
  | Some i => (mkRequest i true false (PValue VNull), counter)
  | None =>
      let i := UtilsRest.newId counter in
      (mkRequest i true false (PValue VNull), i)
  end.

(** [get event()]. *)
Definition event (req : Request) : Payload :=
  if isEvent req then data req else PValue VNull.

(** [set event(val)]. *)
Definition setEvent (val : Payload) (req : Request) : Request :=
  mkRequest (id req) (isTwoWay req) true val.

(** [get isHeartbeat()]. *)
Definition isHeartbeat (req : Request) : bool :=
  (isEvent req && match event req with PValue VNull => true | _ => false end)%bool.

(** The requests [new Request()] returns on [n] calls in a row, oldest
    first, and the counter after them. *)
Fixpoint constructMany (n : nat) (counter : Z) : list Request * Z :=
  match n with
  | O => ([], counter)
  | S n' =>
      let '(req, counter') := construct None counter in
      let '(reqs, final) := constructMany n' counter' in
      (req :: reqs, final)
  end.

End RequestClass.

(* --------------------------------------------------------------------- *)
(** ** Stand-ins used to run the definitions on concrete inputs *)
(* --------------------------------------------------------------------- *)

Module Example.

Import Bytes Env.

(** The keys and ids of Apache Dubbo. *)
Definition constants : Constants :=
  mkConstants "dubbo" "path" "version" "hessian2" 2 12 21 22.

(** [reader.uint32()] of protobufjs: a varint of up to five octets, seven
    bits an octet and the low group first, the fifth octet giving four bits;
    after five octets with the continuation bit five more are passed over.
    An octet read past the end is [undefined], which ends no varint, and the
    bound check after the fifth throws. *)
Fixpoint varint (groups : nat) (shift value : Z) (r : Reader)
  : result (Z * Reader) :=
  match groups with
  | O =>
      if Nat.ltb (List.length (rbuf r)) (rpos r + 5) then Throw RangeError
      else Ok (value, mkReader (rbuf r) (rpos r + 5))
  | S groups' =>
      match nth_error (rbuf r) (rpos r) with
      | Some b =>
          let mask := match groups' with O => 15%Z | S _ => 127%Z end in
          let value := toUint32 (Z.lor value (Z.shiftl (Z.land b mask) shift)) in
          let r' := mkReader (rbuf r) (S (rpos r)) in
          if (b <? 128)%Z then Ok (value, r')
          else varint groups' (shift + 7) value r'
      | None => Throw RangeError
      end
  end.

Definition uint32 (r : Reader) : result (Z * Reader) := varint 5 0 0 r.

(** [reader.bytes()]: a varint length, then that many octets. *)
Definition readerBytes (r : Reader) : result (list Z * Reader) :=
  len <- uint32 r ;;
  let n := Z.to_nat (fst len) in
  let start := rpos (snd len) in
  if Nat.ltb (List.length (rbuf r)) (start + n) then Throw RangeError
  else Ok (firstn n (skipn start (rbuf r)), mkReader (rbuf r) (start + n)).

(** [reader.skip()]: over one varint. *)
Fixpoint skipVarint (rest : list Z) (r : Reader) : result Reader :=
  match rest with
  | [] => Throw RangeError
  | b :: rest' =>
      let r' := mkReader (rbuf r) (S (rpos r)) in
      if (b <? 128)%Z then Ok r' else skipVarint rest' r'
  end.

(** [reader.skipType(wireType)] for the wire types of a message without
    groups: a varint, eight octets, a length-delimited run, four octets.
    The wire types 4, 6 and 7 are refused as protobufjs refuses them; so is
    3 here, the start of a group, which the examples do not use. *)
Definition skipType (wireType : Z) (r : Reader) : result Reader :=
  if (wireType =? 0)%Z then skipVarint (skipn (rpos r) (rbuf r)) r
  else if (wireType =? 1)%Z then Protobuf.skip 8 r
  else if (wireType =? 2)%Z then
    len <- uint32 r ;; Protobuf.skip (Z.to_nat (fst len)) (snd len)
  else if (wireType =? 5)%Z then Protobuf.skip 4 r
  else Throw (Error ("invalid wire type "
                     ++ NilEmpty.string_of_uint (Nat.to_uint (Z.to_nat wireType))
                     ++ " at offset "
                     ++ NilEmpty.string_of_uint (Nat.to_uint (rpos r)))).

(** The loop of [StringValue.decode(reader, length)], as protobufjs
    generates it for [message StringValue { string value = 1; }]: up to the
    end position, field 1 is read as the string and any other field is
    passed over.  Every round moves the reader on or throws, so one round
    more than the buffer has octets is never used up. *)
Fixpoint decodeFields (rounds : nat) (end_ : nat) (m : list (string * JsValue))
    (r : Reader) : result JsValue :=
  match rounds with
  | O => Throw RangeError
  | S rounds' =>
      if Nat.ltb (rpos r) end_ then
        tag <- uint32 r ;;
        if (Z.shiftr (fst tag) 3 =? 1)%Z then
          run <- readerBytes (snd tag) ;;
          decodeFields rounds' end_
            (assign "value" (VStr (ProtobufJson.textOf (fst run))) m) (snd run)
        else
          r' <- skipType (Z.land (fst tag) 7) (snd tag) ;;
          decodeFields rounds' end_ m r'
      else Ok (VObject m)
  end.

(** The octets of [writer.uint32(n)]. *)
Fixpoint varintOctets (groups : nat) (n : Z) : list Z :=
  match groups with
  | O => []
  | S groups' =>
      if (n <? 128)%Z then [n]
      else Z.lor (Z.land n 127) 128 :: varintOctets groups' (Z.shiftr n 7)
  end.

(** The type [StringValue] of google/protobuf/wrappers.proto, as protobufjs
    runs it on ASCII text: a message is the object of the fields that are
    set; [encode] writes field 1 when it is set; [decodeDelimited] reads a
    varint length and decodes up to there; [toObject], with its [defaults]
    option, gives an unset [value] as the empty string. *)
Definition stringValue : Msg :=
  {| msgCreate := fun v => v;
     msgEncode := fun m =>
       match lookup "value" (ownProps m) with
       | Some (VStr s) =>
           (10%Z :: varintOctets 5 (Z.of_nat (String.length s)) ++ octets s)%list
       | _ => []
       end;
     msgDecode := fun buf =>
       decodeFields (S (List.length buf)) (List.length buf) [] (mkReader buf 0);
     msgDecodeDelimited := fun buf =>
       len <- uint32 (mkReader buf 0) ;;
       decodeFields (S (List.length buf)) (rpos (snd len) + Z.to_nat (fst len)) []
                    (snd len);
     msgToObject := fun m =>
       match lookup "value" (ownProps m) with
       | Some _ => m
       | None => VObject (assign "value" (VStr "") (ownProps m))
       end;
     msgToJSON := fun m => m |}.

(** A delimited [StringValue] for a short string: the message length, the
    tag of field 1, the string length, the string. *)
Definition stringValueDelimited (v : JsValue) : list Z :=
  match v with
  | VStr s =>
      let n := Z.of_nat (String.length s) in
      ((n + 2)%Z :: 10%Z :: n :: octets s)
  | _ => [0%Z]
  end.

(** JSON text for strings (without escapes), [{}] for the rest. *)
Definition stringify (v : JsValue) : string :=
  match v with
  | VStr s => String (ascii_of_nat 34) (s ++ String (ascii_of_nat 34) "")
  | _ => "{}"
  end.

(** ToString of an integer, and of a plain object for the rest. *)
Definition toText (v : JsValue) : string :=
  match v with
  | VNum (NInt z) => NilEmpty.string_of_int (Z.to_int z)
  | _ => "[object Object]"
  end.

Definition runtime : Runtime :=
  {| JSON_stringify := stringify;
     JSON_parse := fun text => Ok (VStr text);
     toStringOf := toText;
     Reader_bytes := readerBytes;
     StringValue_delimited := stringValueDelimited;
     rawOctets := fun _ => Throw TypeError;
     classArrayOfNonString := fun _ => Ok [] |}.

(** An input that returns the values of a script, one per read. *)
Definition scriptedRead (script : list JsValue) : result (JsValue * list JsValue) :=
  match script with
  | v :: rest => Ok (v, rest)
  | [] => Throw RangeError
  end.

Definition scripted (script : list JsValue) : InputDriver :=
  {| InSt := list JsValue;
     deserialize := fun _ => script;
     inSkip := fun _ st => Ok st;
     readObject := fun _ _ st => scriptedRead st;
     readUTF := fun _ st => scriptedRead st |}.

(** A message type with one map field [value], encoded as the text
    [key=value;...] of its entries: what is written shows what was passed. *)
Definition entryText (kv : string * JsValue) : string :=
  fst kv ++ "=" ++ match snd kv with VStr s => s | _ => "?" end.

Definition entryList : Msg :=
  {| msgCreate := fun v => v;
     msgEncode := fun m =>
       octets (String.concat ";" (map entryText (ownProps (prop "value" (ownProps m)))));
     msgDecode := fun _ => Throw (Error "invalid wire type");
     msgDecodeDelimited := fun _ => Throw (Error "invalid wire type");
     msgToObject := fun m => m;
     msgToJSON := fun m => m |}.

Definition rootOf (Msg : Msg) : Root :=
  {| lookupType := fun _ => Some Msg;
     rootHas := fun _ => true;
     responseType := fun _ _ => Ok None |}.

(** A registry whose types are all [Msg] and whose methods all answer with
    [Msg]. *)
Definition replyRoot (Msg : Msg) : Root :=
  {| lookupType := fun _ => Some Msg;
     rootHas := fun _ => true;
     responseType := fun _ _ => Ok (Some Msg) |}.

(** The call a reply is read for, and the options of a reader that has the
    registry and the call. *)
Definition greeterChannel : Channel :=
  mkChannel VUndefined (VStr "com.example.Greeter") (VStr "sayHello").

Definition replyOptions (Msg : Msg) : Options :=
  mkOptions (Some "protobuf") VUndefined None (Some (replyRoot Msg))
            (Some greeterChannel).

(** A text of [n] letters. *)
Fixpoint letters (n : nat) : string :=
  match n with
  | O => EmptyString
  | S n' => String "a" (letters n')
  end.

(** A [StringValue] of 134 letters, 137 octets long, and the body a reader
    finds it in: the message behind its varint length. *)
Definition longMessage : list Z :=
  msgEncode stringValue (VObject [("value", VStr (letters 134))]).

Definition longBody : Buffer :=
  (varintOctets 5 (Z.of_nat (List.length longMessage)) ++ longMessage)%list.

(** Options for a writer in typed mode, and for a reader, over a registry. *)
Definition typed (root : Root) : Options :=
  mkOptions (Some "protobuf") VUndefined (Some (Some root)) (Some root) None.

(** Options without a registry. *)
Definition untyped (codec : string) : Options :=
  mkOptions (Some codec) VUndefined None None None.

(** An attachment mapping with a key outside the four, and typed options
    over a registry of [entryList]. *)
Definition attachments : list (string * JsValue) :=
  [("path", VStr "p"); ("timeout", VStr "3000")].

Definition typedOptions : Options := typed (rootOf entryList).


(** The call of scenario A: [sayHello("world")] on [com.example.Greeter]. *)
Definition greeter : Request.Request :=
  Request.mkRequest 7 true false
    (Request.PInvocation
       (Request.mkInvocation (VStr "sayHello") [VStr "world"]
          [("path", VStr "com.example.Greeter")])).

(** A call with two arguments, and a call whose one argument is tagged with
    a class name that holds a [';']. *)
Definition greeterTwice : Request.Request :=
  Request.mkRequest 7 true false
    (Request.PInvocation
       (Request.mkInvocation (VStr "sayHello") [VStr "world"; VNum (NInt 2)]
          [("path", VStr "com.example.Greeter")])).

Definition greeterTagged : Request.Request :=
  Request.mkRequest 7 true false
    (Request.PInvocation
       (Request.mkInvocation (VStr "sayHello")
          [VObject [("$class", VStr "x;Ly")]]
          [("path", VStr "com.example.Greeter")])).

(** An [output] that keeps the calls made on it, in order, and writes
    nothing. *)
Definition recorder : OutputDriver :=
  {| OutSt := list Request.Call;
     serialize := [];
     outBytes := fun _ => allocate;
     onBytes := fun _ st => st;
     outLen := fun _ => 0%Z;
     contentTypeId := 2%Z;
     outGet := fun _ => [];
     writeUTF := fun v _ st => Ok (st ++ [Request.CallWriteUTF v])%list;
     writeObject := fun v classMap type _ st =>
       Ok (st ++ [Request.CallWriteObject v classMap type])%list |}.

(** A header with the request and two-way bits and serialization id 2, and
    one with the protostuff id 12. *)
Definition requestHeader : Buffer :=
  [218; 187; 194; 0; 0; 0; 0; 0; 0; 0; 0; 7; 0; 0; 0; 0]%Z.

Definition protostuffHeader : Buffer :=
  [218; 187; 204; 0; 0; 0; 0; 0; 0; 0; 0; 7; 0; 0; 0; 0]%Z.

(** What a driver reads from the body of scenario A. *)
Definition greeterScript : list JsValue :=
  [ VStr "2.5.3"; VStr "com.example.Greeter"; VStr ""; VStr "sayHello";
    VStr "Ljava/lang/String;"; VStr "world";
    VObject [("path", VStr "com.example.Greeter")] ].

(** The body of a call on version 1.0.0 of the service whose attachment
    mapping names another path than the path field does. *)
Definition versionedScript : list JsValue :=
  [ VStr "2.5.3"; VStr "com.example.Greeter"; VStr "1.0.0"; VStr "sayHello";
    VStr "Ljava/lang/String;"; VStr "world";
    VObject [("path", VStr "com.example.Other"); ("timeout", VStr "3000")] ].

(** A module whose input replays [greeterScript]. *)
Definition greeterDriver : Driver :=
  {| Env.output := ProtobufJson.output runtime constants allocate;
     Env.input := scripted greeterScript |}.

(** The packet [decode] returns for [requestHeader] read through
    [greeterDriver]. *)
Definition greeterPacket : Request.Packet :=
  Request.mkPacket (Long.IdNumber 7) "request"
    (Request.DInvocation
       (Request.mkInvocationData (VStr "sayHello") (VStr "com.example.Greeter")
          [VStr "world"] ["java.lang.String"]
          [("dubbo", VStr "2.5.3"); ("path", VStr "com.example.Greeter")]))
    "dubbo" "hessian2" VUndefined.

(** A module whose input replays [versionedScript], and the packet [decode]
    returns for [requestHeader] read through it. *)
Definition versionedDriver : Driver :=
  {| Env.output := ProtobufJson.output runtime constants allocate;
     Env.input := scripted versionedScript |}.

Definition versionedPacket : Request.Packet :=
  Request.mkPacket (Long.IdNumber 7) "request"
    (Request.DInvocation
       (Request.mkInvocationData (VStr "sayHello") (VStr "com.example.Other:1.0.0")
          [VStr "world"] ["java.lang.String"]
          [("dubbo", VStr "2.5.3"); ("path", VStr "com.example.Other");
           ("timeout", VStr "3000")]))
    "dubbo" "hessian2" VUndefined.

End Example.

(* --------------------------------------------------------------------- *)
(** ** The lines of a protobuf-json body *)
(* --------------------------------------------------------------------- *)

Module JsonLines.

Import Bytes Env.

(** The value whose JSON text the typed [writeObject] of the protobuf-json
    driver writes for [v] under a tag other than ['HashMap']: [v['$']] when
    [v['$class']] and [v['$']] are both truthy, [v] itself otherwise. *)
Definition payloadOf (v : JsValue) : JsValue :=
  match v with
  | VObject props =>
      if (truthy (prop "$class" props) && truthy (prop "$" props))%bool
      then prop "$" props else v
  | _ => v
  end.

(** The octets of [JSON.stringify(v) + "\n"]. *)
Definition line (rt : Runtime) (v : JsValue) : list Z :=
  octets (JSON_stringify rt v ++ String "010" "").

(** A value [JSON.parse] gives back from the line written for it, and whose
    JSON text holds no line feed. *)
Definition echoed (rt : Runtime) (v : JsValue) : Prop :=
  JSON_parse rt (JSON_stringify rt v ++ String "010" "") = Ok v /\
  ~ In 10%Z (octets (JSON_stringify rt v)).

(** The object the typed writer builds under ['HashMap'] from the
    properties of an attachment mapping. *)
Definition attachmentsOf (atts : list (string * JsValue)) : JsValue :=
  VObject [ ("path", jsOr (prop "path" atts) (VStr ""));
            ("interface", jsOr (prop "path" atts) (VStr ""));
            ("group", jsOr (prop "group" atts) (VStr ""));
            ("version", jsOr (prop "version" atts) (VStr "")) ].

(** The body of an invocation in typed mode: a line for each of the five
    strings, a line for each argument, the line of the attachments. *)
Definition invocationLines (rt : Runtime) (strings : list string)
    (args : list JsValue) (atts : list (string * JsValue)) : list Z :=
  (List.concat (map (fun s => line rt (VStr s)) strings)
   ++ List.concat (map (fun a => line rt (payloadOf a)) args)
   ++ line rt (VObject [("attachments", attachmentsOf atts)]))%list.

(** A writer that only appends: whether it throws does not depend on the
    buffer, and when it returns it has put one run of octets, the same for
    every buffer, at the position. *)
Definition appends (write : ByteBuffer -> result ByteBuffer) : Prop :=
  exists run : result (list Z),
    forall bb, write bb = (vs <- run ;; Ok (putBuffer vs bb)).

End JsonLines.

(* --------------------------------------------------------------------- *)
(** ** A stand-in JSON for strings and one object *)
(* --------------------------------------------------------------------- *)

Module Sample.

Import Env.

(** The text up to the next double quote. *)
Fixpoint quoted (text : string) : string :=
  match text with
  | EmptyString => EmptyString
  | String c rest =>
      if Ascii.eqb c (ascii_of_nat 34) then EmptyString
      else String c (quoted rest)
  end.

(** The attachments object the driver writes for [Example.greeter]. *)
Definition greeterAttachments : JsValue :=
  VObject [ ("attachments",
             VObject [ ("path", VStr "com.example.Greeter");
                       ("interface", VStr "com.example.Greeter");
                       ("group", VStr "");
                       ("version", VStr "") ]) ].

(** A parser for the texts [Example.stringify] writes: a quoted string, or
    the text of the one object. *)
Definition parse (text : string) : result JsValue :=
  match text with
  | String c rest =>
      if Ascii.eqb c (ascii_of_nat 34) then Ok (VStr (quoted rest))
      else Ok greeterAttachments
  | EmptyString => Throw (Error "Unexpected end of JSON input")
  end.

Definition runtime : Runtime :=
  {| JSON_stringify := Example.stringify;
     JSON_parse := parse;
     toStringOf := toStringOf Example.runtime;
     Reader_bytes := Reader_bytes Example.runtime;
     StringValue_delimited := StringValue_delimited Example.runtime;
     rawOctets := rawOctets Example.runtime;
     classArrayOfNonString := classArrayOfNonString Example.runtime |}.

(** Options of a typed writer and a reader under the name of the
    protobuf-json codec. *)
Definition typedJson : Options :=
  mkOptions (Some "protobuf-json") VUndefined
            (Some (Some (Example.rootOf Example.entryList)))
            (Some (Example.rootOf Example.entryList)) None.

End Sample.

(* ===================================================================== *)
(** * Part II. Theorems *)
(* ===================================================================== *)

Import Utils.

(* --------------------------------------------------------------------- *)
(** ** Type descriptors: [getJavaArgsDesc] read back by [desc2classArray] *)
(* --------------------------------------------------------------------- *)

Section Strings.

Lemma append_assoc (a b c : string) : (a ++ b) ++ c = a ++ (b ++ c).
Proof. induction a as [|x a IH]; simpl; [reflexivity | now rewrite IH]. Qed.

Lemma append_nil_r (a : string) : a ++ "" = a.
Proof. induction a as [|x a IH]; simpl; [reflexivity | now rewrite IH]. Qed.

Lemma length_append (a b : string) :
  String.length (a ++ b) = String.length a + String.length b.
Proof. induction a as [|x a IH]; simpl; [reflexivity | now rewrite IH]. Qed.

End Strings.

Section Descriptors.

(** [stripArrays] is the source's [while] loop. *)
Lemma stripArrays_unfold (ret cls : string) :
  stripArrays ret cls =
  if isArray cls then stripArrays (ret ++ "[") (getComponentType cls)
  else (ret, cls).
Proof.
  destruct cls as [|c rest]; [reflexivity|].
  destruct c as [[] [] [] [] [] [] [] []]; reflexivity.
Qed.

Lemma isArray_inv (cls : string) :
  isArray cls = true -> exists rest, cls = String "[" rest.
Proof.
  destruct cls as [|c rest]; [discriminate|].
  destruct c as [[] [] [] [] [] [] [] []]; try discriminate.
  intros _. now exists rest.
Qed.

Lemma stripArrays_plain (ret cls : string) :
  isArray cls = false -> stripArrays ret cls = (ret, cls).
Proof. intros H. rewrite stripArrays_unfold, H. reflexivity. Qed.

Lemma hasChar_replaceAll (c from to : ascii) (s : string) :
  to <> c -> hasChar c s = false -> hasChar c (replaceAll from to s) = false.
Proof.
  intros Hto. induction s as [|a s IH]; simpl; [reflexivity|].
  intros H. apply orb_false_iff in H. destruct H as [Ha Hs].
  rewrite (IH Hs), orb_false_r.
  destruct (Ascii.eqb a from); [now apply Ascii.eqb_neq | exact Ha].
Qed.

(** A class name without [';'] is read up to the [';'] that closes it. *)
Lemma scanClass_closed (x r : string) :
  hasChar ";" x = false -> scanClass (x ++ String ";" r) = (x, r).
Proof.
  induction x as [|a x IH]; simpl; [reflexivity|].
  intros H. apply orb_false_iff in H. destruct H as [Ha Hx].
  rewrite Ha, (IH Hx). reflexivity.
Qed.

Lemma single_reference (x : string) :
  hasChar ";" x = false ->
  single ("L" ++ x ++ ";") (replaceAll "/" "." x).
Proof.
  intros H. split; [discriminate|]. intros r.
  cbn [append desc2classStep]. unfold classOfCode. cbn [Ascii.eqb Bool.eqb].
  rewrite append_assoc. cbn [append].
  rewrite (scanClass_closed _ _ H). reflexivity.
Qed.

Lemma single_array_reference (x : string) :
  hasChar ";" x = false ->
  single ("[L" ++ x ++ ";") ("[" ++ replaceAll "/" "." x).
Proof.
  intros H. split; [discriminate|]. intros r.
  cbn [append desc2classStep]. unfold classOfCode. cbn [Ascii.eqb Bool.eqb].
  rewrite append_assoc. cbn [append].
  rewrite (scanClass_closed _ _ H). reflexivity.
Qed.

Lemma primitiveMap_single (name code : string) :
  primitiveMap name = Some code ->
  single code name /\ single ("[" ++ code) ("[" ++ name).
Proof.
  unfold primitiveMap.
  repeat match goal with
  | |- context [String.eqb name ?k] =>
      destruct (String.eqb_spec name k) as [->|_]
  end; intros H; inversion H; subst;
  (split; (split; [discriminate | intros r; reflexivity])).
Qed.

Lemma single_fixed (d t : string) :
  d <> EmptyString -> (forall r, desc2classStep (d ++ r) = Ok (t, r)) -> single d t.
Proof. intros; split; assumption. Qed.

Ltac fixed_signature t :=
  exists t; split; [reflexivity |];
  apply single_fixed; [discriminate | intros r; reflexivity].

(** Every plain argument has a signature that is one entry. *)
Lemma getJavaClassDesc_single (val : JsValue) :
  plainArg val = true ->
  exists d t, getJavaClassDesc val = Ok d /\ single d t.
Proof.
  destruct val as [ | | b | n | s | ms | octets | items | message | props ];
    intros Hplain.
  - exists "Ljava/lang/Object;". fixed_signature "java.lang.Object".
  - exists "Ljava/lang/Object;". fixed_signature "java.lang.Object".
  - exists "Z". fixed_signature "boolean".
  - cbn [getJavaClassDesc].
    destruct (is_long n); [exists "J"; fixed_signature "long" |].
    destruct (is_int n); [exists "I"; fixed_signature "int" |].
    exists "D"; fixed_signature "double".
  - exists "Ljava/lang/String;". fixed_signature "java.lang.String".
  - exists "Ljava/util/Date;". fixed_signature "java.util.Date".
  - exists "[B". fixed_signature "[byte".
  - exists "Ljava/util/ArrayList;". fixed_signature "java.util.ArrayList".
  - exists "Ljava/lang/Exception;". fixed_signature "java.lang.Exception".
  - cbn [getJavaClassDesc plainArg] in *.
    destruct (has (VObject props) "$class") eqn:Hhas; cbn [negb];
      [| exists "Ljava/util/HashMap;"; fixed_signature "java.util.HashMap"].
    cbn [getProp bind].
    destruct (lookup "$class" props) as [concrete|]; [|discriminate].
    set (abstract := lookup "$abstractClass" props) in *.
    assert (Habs : match abstract with Some x => Ok x | None => Ok VUndefined end
                   = Ok (match abstract with Some a => a | None => VUndefined end))
      by (destruct abstract; reflexivity).
    rewrite Habs. cbn [bind].
    destruct (jsOr _ concrete) as [ | | | | cls | | | | | ]; try discriminate.
    unfold plainClassName in Hplain.
    apply andb_true_iff in Hplain. destruct Hplain as [Hplain Hproto].
    apply andb_true_iff in Hplain. destruct Hplain as [Hcomp Hsemi].
    apply negb_true_iff in Hcomp, Hsemi.
    assert (Hstrip : stripArrays "" cls
                     = (if isArray cls then "[" else "", getComponentType cls)).
    { rewrite stripArrays_unfold. destruct (isArray cls) eqn:Harr.
      - now rewrite (stripArrays_plain _ _ Hcomp).
      - destruct cls as [|c rest]; [reflexivity|].
        destruct c as [[] [] [] [] [] [] [] []]; try reflexivity. discriminate. }
    rewrite Hstrip. set (component := getComponentType cls) in *.
    destruct (primitiveMap component) as [code|] eqn:Hprim.
    + destruct (primitiveMap_single _ _ Hprim) as [Hone Harray].
      destruct (isArray cls); eauto.
    + destruct (objectPrototypeText component); [discriminate|].
      assert (Hslash : hasChar ";" (replaceAll "." "/" component) = false)
        by (apply hasChar_replaceAll; [discriminate | exact Hsemi]).
      destruct (isArray cls).
      * eexists. eexists. split; [reflexivity|].
        apply (single_array_reference _ Hslash).
      * eexists. eexists. split; [reflexivity|].
        apply (single_reference _ Hslash).
Qed.

Lemma desc2classLoop_nil (fuel : nat) (arr : list string) :
  desc2classLoop fuel "" arr = Ok arr.
Proof. destruct fuel; reflexivity. Qed.

Lemma desc2classLoop_single (d t r : string) (fuel : nat) (arr : list string) :
  single d t -> String.length (d ++ r) <= fuel ->
  desc2classLoop fuel (d ++ r) arr = desc2classLoop (fuel - 1) r (arr ++ [t]).
Proof.
  intros [Hne Hstep] Hfuel.
  destruct d as [|c d]; [contradiction|].
  destruct fuel as [|fuel]; [simpl in Hfuel; lia|].
  cbn [append desc2classLoop]. change (String c (d ++ r)) with (String c d ++ r).
  rewrite Hstep. cbn [bind fst snd].
  replace (S fuel - 1) with fuel by lia. reflexivity.
Qed.

Lemma concat_cons (d : string) (ds : list string) :
  String.concat "" (d :: ds) = d ++ String.concat "" ds.
Proof. destruct ds; simpl; [now rewrite append_nil_r | reflexivity]. Qed.

Lemma desc2classLoop_concat (ds ts : list string) :
  Forall2 single ds ts ->
  forall fuel arr, String.length (String.concat "" ds) <= fuel ->
  desc2classLoop fuel (String.concat "" ds) arr = Ok (arr ++ ts)%list.
Proof.
  induction 1 as [|d t ds ts Hd _ IH]; intros fuel arr Hfuel.
  - cbn [String.concat]. now rewrite desc2classLoop_nil, app_nil_r.
  - rewrite concat_cons in *. rewrite (desc2classLoop_single _ _ _ _ _ Hd Hfuel).
    rewrite IH.
    + now rewrite <- app_assoc.
    + rewrite length_append in Hfuel. destruct Hd as [Hne _].
      destruct d; [contradiction | simpl in Hfuel; lia].
Qed.

Lemma desc2classArray_concat (ds ts : list string) :
  Forall2 single ds ts -> desc2classArray (String.concat "" ds) = Ok ts.
Proof.
  intros H. unfold desc2classArray.
  destruct (String.eqb_spec (String.concat "" ds) "") as [Heq|_].
  - destruct H as [|d t ds ts [Hne _] _]; [reflexivity|].
    rewrite concat_cons in Heq. destruct d; [contradiction | discriminate].
  - now apply (desc2classLoop_concat _ _ H).
Qed.

(** The bound of the loop is never what ends it: every round consumes a
    character, so [len] rounds are enough for a text of [len] characters. *)
Lemma scanClass_length (s : string) :
  String.length (snd (scanClass s)) <= String.length s.
Proof.
  induction s as [|c s IH]; cbn [scanClass String.length]; [cbn; lia|].
  destruct (Ascii.eqb c ";"); cbn [snd]; [lia|].
  destruct (scanClass s); cbn [snd] in *. lia.
Qed.

Lemma classOfCode_length (type : ascii) (rest t r : string) :
  classOfCode type rest = Ok (t, r) -> String.length r <= String.length rest.
Proof.
  unfold classOfCode.
  repeat match goal with
  | |- context [Ascii.eqb type ?c] => destruct (Ascii.eqb type c)
  end; try (intros H; injection H as <- <-; lia); try discriminate.
  pose proof (scanClass_length rest) as Hlen.
  destruct (scanClass rest). intros H. injection H as <- <-. exact Hlen.
Qed.

Lemma desc2classStep_length (c : ascii) (s t r : string) :
  desc2classStep (String c s) = Ok (t, r) ->
  String.length r <= String.length s.
Proof.
  cbn [desc2classStep].
  destruct (Ascii.eqb_spec c "[") as [->|Hne].
  - destruct s as [|type rest]; [discriminate|].
    destruct (classOfCode type rest) as [[t' r']|] eqn:Hcode; [|discriminate].
    cbn [bind fst snd]. intros H. injection H as <- <-.
    apply classOfCode_length in Hcode. cbn [String.length]. lia.
  - assert (Hstep : desc2classStep (String c s) = classOfCode c s).
    { cbn [desc2classStep].
      destruct c as [[] [] [] [] [] [] [] []]; try reflexivity. now elim Hne. }
    cbn [desc2classStep] in Hstep. rewrite Hstep. apply classOfCode_length.
Qed.

Lemma desc2classLoop_enough (fuel : nat) :
  forall fuel' s arr,
    String.length s <= fuel -> String.length s <= fuel' ->
    desc2classLoop fuel s arr = desc2classLoop fuel' s arr.
Proof.
  induction fuel as [|fuel IH]; intros fuel' s arr Hfuel Hfuel'.
  - destruct s; [|cbn in Hfuel; lia]. now rewrite !desc2classLoop_nil.
  - destruct s as [|c s]; [now rewrite !desc2classLoop_nil|].
    destruct fuel' as [|fuel']; [cbn in Hfuel'; lia|].
    cbn [desc2classLoop].
    destruct (desc2classStep (String c s)) as [[t r]|] eqn:Hstep;
      cbn [bind fst snd]; [|reflexivity].
    apply desc2classStep_length in Hstep. cbn [String.length] in *.
    apply IH; lia.
Qed.

Lemma mapM_getJavaClassDesc (args : list JsValue) :
  forallb plainArg args = true ->
  exists ds ts, mapM getJavaClassDesc args = Ok ds /\ Forall2 single ds ts /\
    forall i arg, nth_error args i = Some arg ->
      exists d t, getJavaClassDesc arg = Ok d /\ single d t /\
                  nth_error ts i = Some t.
Proof.
  induction args as [|a args IH]; intros Hplain.
  - exists [], []. repeat split; [constructor|].
    intros [|i] arg H; discriminate.
  - cbn [forallb] in Hplain. apply andb_true_iff in Hplain.
    destruct Hplain as [Ha Hargs].
    destruct (getJavaClassDesc_single _ Ha) as (d & t & Hd & Hsingle).
    destruct (IH Hargs) as (ds & ts & Hds & Hall & Hnth).
    exists (d :: ds), (t :: ts). cbn [mapM]. rewrite Hd, Hds. cbn [bind].
    repeat split; [now constructor|].
    intros [|i] arg H; cbn [nth_error] in *.
    + inversion H; subst. now exists d, t.
    + now apply Hnth.
Qed.

(** The signatures of plain arguments read back to one class name each,
    together and one by one. *)
Lemma plainArgs_signatures (args : list JsValue) :
  forallb plainArg args = true ->
  exists ds ts,
    mapM getJavaClassDesc args = Ok ds /\ Forall2 single ds ts /\
    Forall2 (fun arg t => exists d, getJavaClassDesc arg = Ok d /\
                                    desc2classArray d = Ok [t]) args ts.
Proof.
  induction args as [|a args IH]; intros Hplain.
  - exists [], []. repeat split; constructor.
  - cbn [forallb] in Hplain. apply andb_true_iff in Hplain.
    destruct Hplain as [Ha Hargs].
    destruct (getJavaClassDesc_single _ Ha) as (d & t & Hd & Hsingle).
    destruct (IH Hargs) as (ds & ts & Hds & Hall & Heach).
    exists (d :: ds), (t :: ts). cbn [mapM]. rewrite Hd, Hds. cbn [bind].
    repeat split; [now constructor|]. constructor; [|exact Heach].
    exists d. split; [exact Hd|]. change d with (String.concat "" [d]).
    apply desc2classArray_concat. constructor; [assumption | constructor].
Qed.

(** Entry by entry over two lists of one length is over their pairs. *)
Lemma map_seq_combine {A B C : Type} (f : A -> B -> C) (a : A) (b : B)
    (xs : list A) (ys : list B) :
  List.length ys = List.length xs ->
  map (fun i => f (nth i xs a) (nth i ys b)) (seq 0 (List.length ys))
  = map (fun xy => f (fst xy) (snd xy)) (combine xs ys).
Proof.
  revert ys. induction xs as [|x xs IH]; intros [|y ys] Hlen;
    try discriminate; [reflexivity|].
  cbn [List.length seq map combine nth fst snd]. f_equal.
  rewrite <- seq_shift, map_map. cbn [nth]. apply IH.
  now injection Hlen.
Qed.

End Descriptors.

(** X1. The invariant of the translator on plain arguments: the descriptor of
    an argument list reads back as one entry per argument, and entry [i] is
    the entry the signature of argument [i] reads back as on its own. *)
Theorem desc2classArray_getJavaArgsDesc_plain (args : list JsValue) :
  forallb plainArg args = true ->
  exists desc types,
    getJavaArgsDesc args = Ok desc /\
    desc2classArray desc = Ok types /\
    List.length types = List.length args /\
    forall i arg, nth_error args i = Some arg ->
      exists d t, getJavaClassDesc arg = Ok d /\
                  desc2classArray d = Ok [t] /\
                  nth_error types i = Some t.
Proof.
  intros Hplain.
  destruct (mapM_getJavaClassDesc _ Hplain) as (ds & ts & Hds & Hall & Hnth).
  exists (String.concat "" ds), ts. unfold getJavaArgsDesc. rewrite Hds.
  split; [reflexivity|]. split; [now apply desc2classArray_concat|]. split.
  - clear Hnth. revert ds ts Hds Hall.
    induction args as [|a args IH]; intros ds ts Hds Hall.
    + inversion Hds; subst. now inversion Hall.
    + cbn [mapM forallb] in *. apply andb_true_iff in Hplain.
      destruct (getJavaClassDesc a); [|discriminate]. cbn [bind] in Hds.
      destruct (mapM getJavaClassDesc args) as [ds'|] eqn:Hrest; [|discriminate].
      inversion Hds; subst. inversion Hall; subst. cbn [List.length].
      f_equal. now apply (IH (proj2 Hplain) ds').
  - intros i arg Hi. destruct (Hnth i arg Hi) as (d & t & Hd & Hsingle & Ht).
    exists d, t. repeat split; try assumption.
    change d with (String.concat "" [d]).
    apply desc2classArray_concat. constructor; [assumption | constructor].
Qed.

Lemma desc2classArray_getJavaArgsDesc_plain_witness :
  exists desc types,
    getJavaArgsDesc [VBool true; VNull;
                     VObject [("$class", VStr "[java.lang.String")]] = Ok desc /\
    desc2classArray desc = Ok types /\
    List.length types = 3%nat /\
    forall i arg,
      nth_error [VBool true; VNull;
                 VObject [("$class", VStr "[java.lang.String")]] i = Some arg ->
      exists d t, getJavaClassDesc arg = Ok d /\
                  desc2classArray d = Ok [t] /\
                  nth_error types i = Some t.
Proof.
  apply (desc2classArray_getJavaArgsDesc_plain
           [VBool true; VNull; VObject [("$class", VStr "[java.lang.String")]]).
  reflexivity.
Defined.

(** Scenario C of the specification. *)
Example descriptor_scenario_C :
  (desc <- getJavaArgsDesc
             [VBool true; VNum (NInt 42); VStr "x";
              VArray [VNum (NInt 1); VNum (NInt 2)]] ;;
   desc2classArray desc)
  = Ok ["boolean"; "int"; "java.lang.String"; "java.util.ArrayList"].
Proof. reflexivity. Qed.

(** One array dimension reads back; a descriptor that ends inside a class
    name reads the missing character as [undefined]. *)
Example descriptor_one_dimension :
  (desc <- getJavaArgsDesc
             [VObject [("$class", VStr "[java.lang.String"); ("$", VNull)]] ;;
   desc2classArray desc)
  = Ok ["[java.lang.String"].
Proof. reflexivity. Qed.

Example descriptor_unterminated :
  desc2classArray "Ljava/lang/String" = Ok ["java.lang.Stringundefined"].
Proof. reflexivity. Qed.

(** C1. An argument tagged with two array dimensions: [getJavaClassDesc]
    writes one ['['] per dimension, and [desc2classArray], which reads a
    single ['['] before a type code, throws on the second one instead of
    returning one entry for the argument. *)
Theorem desc2classArray_two_dimensions_throws :
  getJavaArgsDesc [VObject [("$class", VStr "[[int"); ("$", VArray [])]]
    = Ok "[[I" /\
  desc2classArray "[[I" = Throw (unknownClassType "[").
Proof. split; reflexivity. Qed.

(* --------------------------------------------------------------------- *)
(** ** Byte buffers: what a store leaves in place *)
(* --------------------------------------------------------------------- *)

Section Storage.

Import Bytes.

Local Open Scope nat_scope.

Lemma nth_store (i k : nat) (v : Z) (buf : Buffer) :
  nth k (store i v buf) 0%Z = if Nat.eqb k i then v else nth k buf 0%Z.
Proof.
  revert k buf. induction i as [|i IH]; intros k buf.
  - destruct buf, k as [|[|k]]; reflexivity.
  - destruct buf as [|b buf], k as [|k]; cbn [store nth Nat.eqb]; try reflexivity.
    + rewrite IH. destruct (Nat.eqb k i); [reflexivity | now destruct k].
    + apply IH.
Qed.

Lemma length_store (i : nat) (v : Z) (buf : Buffer) :
  List.length (store i v buf) = Nat.max (S i) (List.length buf).
Proof.
  revert buf. induction i as [|i IH]; intros [|b buf]; cbn [store List.length].
  - reflexivity.
  - lia.
  - rewrite IH. cbn [List.length]. lia.
  - rewrite IH. lia.
Qed.

Lemma nth_storeAll (vs : list Z) (i k : nat) (buf : Buffer) :
  nth k (storeAll i vs buf) 0%Z =
  if (Nat.leb i k && Nat.ltb k (i + List.length vs))%bool
  then nth (k - i) vs 0%Z else nth k buf 0%Z.
Proof.
  revert i buf. induction vs as [|v vs IH]; intros i buf; cbn [storeAll List.length].
  - destruct (Nat.leb_spec i k), (Nat.ltb_spec k (i + 0)); cbn; try reflexivity; lia.
  - rewrite IH, nth_store.
    destruct (Nat.leb_spec (S i) k), (Nat.ltb_spec k (S i + List.length vs)),
      (Nat.leb_spec i k), (Nat.ltb_spec k (i + S (List.length vs))),
      (Nat.eqb_spec k i); cbn [andb]; try lia; try reflexivity.
    + replace (k - i) with (S (k - S i)) by lia. reflexivity.
    + subst k. now rewrite Nat.sub_diag.
Qed.

Lemma length_storeAll (vs : list Z) (i : nat) (buf : Buffer) :
  vs <> [] ->
  List.length (storeAll i vs buf) = Nat.max (i + List.length vs) (List.length buf).
Proof.
  revert i buf. induction vs as [|v vs IH]; intros i buf Hne; [contradiction|].
  cbn [storeAll List.length]. destruct vs as [|w vs].
  - cbn [storeAll List.length]. rewrite length_store. lia.
  - rewrite IH by discriminate. rewrite length_store. cbn [List.length]. lia.
Qed.

Lemma length_prefix (n : nat) (buf : Buffer) : List.length (prefix n buf) = n.
Proof.
  unfold prefix. rewrite length_firstn, length_app, repeat_length. lia.
Qed.

Lemma nth_prefix (n k : nat) (buf : Buffer) :
  k < n -> nth k (prefix n buf) 0%Z = nth k buf 0%Z.
Proof.
  intros Hk. unfold prefix. rewrite nth_firstn.
  destruct (Nat.ltb_spec k n); [|lia].
  destruct (Nat.lt_ge_cases k (List.length buf)).
  - now rewrite app_nth1.
  - rewrite app_nth2 by lia. rewrite nth_repeat. now rewrite nth_overflow.
Qed.

(** A read inside the buffer returns the big-endian value of four octets. *)
Lemma Bytes_readInt32BE_at (offset : nat) (buf : Buffer) :
  offset + 4 <= List.length buf ->
  readInt32BE offset buf =
  Ok (toInt32 (nth offset buf 0 * 2 ^ 24 + nth (offset + 1) buf 0 * 2 ^ 16
               + nth (offset + 2) buf 0 * 2 ^ 8 + nth (offset + 3) buf 0)%Z).
Proof.
  intros Hlen. unfold readInt32BE.
  rewrite <- (firstn_skipn offset buf) at 2 3 4 5.
  assert (Hfirst : List.length (firstn offset buf) = offset)
    by (rewrite length_firstn; lia).
  rewrite !app_nth2 by lia. rewrite Hfirst.
  replace (offset - offset) with 0 by lia.
  replace (offset + 1 - offset) with 1 by lia.
  replace (offset + 2 - offset) with 2 by lia.
  replace (offset + 3 - offset) with 3 by lia.
  assert (Hskip : 4 <= List.length (skipn offset buf))
    by (rewrite length_skipn; lia).
  destruct (skipn offset buf) as [|b0 [|b1 [|b2 [|b3 rest]]]];
    cbn [List.length] in Hskip; try lia.
  reflexivity.
Qed.

End Storage.

(* --------------------------------------------------------------------- *)
(** ** The packet id: two 32-bit words and back *)
(* --------------------------------------------------------------------- *)

Section PacketIdWords.

Import Bytes.

Local Open Scope Z_scope.

Ltac words :=
  unfold toInt32, toUint32, toUint8 in *; rewrite ?Z.shiftr_div_pow2 by lia;
  change (2 ^ 8) with 256 in *; change (2 ^ 16) with 65536 in *;
  change (2 ^ 24) with 16777216 in *; change (2 ^ 31) with 2147483648 in *;
  change (2 ^ 32) with 4294967296 in *;
  change (2 ^ 63) with 9223372036854775808 in *;
  Z.div_mod_to_equations; lia.

(** The four octets of [int32BE v] spell [v] modulo [2^32]. *)
Lemma int32BE_value (v : Z) :
  toInt32 (toUint8 (Z.shiftr v 24) * 2 ^ 24 + toUint8 (Z.shiftr v 16) * 2 ^ 16
           + toUint8 (Z.shiftr v 8) * 2 ^ 8 + toUint8 v) = toInt32 v.
Proof. words. Qed.

Lemma toInt32_idempotent (v : Z) : toInt32 (toInt32 v) = toInt32 v.
Proof. words. Qed.

Lemma toInt32_range (v : Z) : - 2 ^ 31 <= toInt32 v < 2 ^ 31.
Proof. words. Qed.

(** The two words of a signed 64-bit value give the value back. *)
Lemma long_of_words (i : Z) :
  - 2 ^ 63 <= i < 2 ^ 63 ->
  Long.value (Long.newLong (toInt32 i) (toInt32 (Z.shiftr i 32))) = i.
Proof.
  intros Hi. unfold Long.value, Long.newLong. cbn [Long.low Long.high].
  rewrite !toInt32_idempotent. words.
Qed.

Lemma idValue_handleLong (l : Long.Long) :
  Long.idValue (Long.handleLong l) = Long.value l.
Proof. unfold Long.handleLong. now destruct (_ || _)%bool. Qed.

(** [handleLong] returns a number exactly for the values of the safe range,
    which a double holds exactly. *)
Lemma handleLong_number (l : Long.Long) (z : Z) :
  Long.handleLong l = Long.IdNumber z <->
  z = Long.value l /\ - 2 ^ 53 < z < 2 ^ 53.
Proof.
  unfold Long.handleLong, Long.MAX_SAFE_INT, Long.MIN_SAFE_INT.
  destruct (2 ^ 53 - 1 <? Long.value l) eqn:H1; cbn [orb].
  - apply Z.ltb_lt in H1. split; [discriminate | lia].
  - apply Z.ltb_ge in H1.
    destruct (Long.value l <? 1 - 2 ^ 53) eqn:H2.
    + apply Z.ltb_lt in H2. split; [discriminate | lia].
    + apply Z.ltb_ge in H2. split.
      * intros H. inversion H. lia.
      * intros [-> _]. reflexivity.
Qed.

End PacketIdWords.

(* --------------------------------------------------------------------- *)
(** ** [encode]: the header of the returned buffer *)
(* --------------------------------------------------------------------- *)

Section EncodeHeader.

Import Bytes Env Request.

Variable cst : Constants.
Variable D : OutputDriver.
Hypothesis kept : HeaderKept D.

Lemma headerKept_refl (a : ByteBuffer) : headerKept a a.
Proof. split; [lia | reflexivity]. Qed.

Lemma headerKept_trans (a b c : ByteBuffer) :
  headerKept a b -> headerKept b c -> headerKept a c.
Proof.
  intros [Hab Hnab] [Hbc Hnbc]. split; [lia|].
  intros k Hk. now rewrite Hnbc, Hnab.
Qed.

Lemma perform_kept (opts : Options) (c : Call) (st st' : OutSt D) :
  HEADER_LENGTH <= _offset (outBytes D st) ->
  perform D opts c st = Ok st' ->
  headerKept (outBytes D st) (outBytes D st').
Proof.
  destruct c; cbn [perform]; intros Hpos H.
  - exact (writeUTF_kept D kept _ _ _ _ Hpos H).
  - exact (writeObject_kept D kept _ _ _ _ _ _ Hpos H).
Qed.

Lemma performAll_kept (opts : Options) (calls : list Call) :
  forall st st',
    HEADER_LENGTH <= _offset (outBytes D st) ->
    performAll D opts calls st = Ok st' ->
    headerKept (outBytes D st) (outBytes D st').
Proof.
  induction calls as [|c calls IH]; intros st st' Hpos H; cbn [performAll] in H.
  - inversion H; subst. apply headerKept_refl.
  - destruct (perform D opts c st) as [st1|] eqn:Hc; [|discriminate].
    cbn [bind] in H. pose proof (perform_kept _ _ _ _ Hpos Hc) as Hk.
    apply (headerKept_trans _ _ _ Hk). apply IH; [|exact H].
    destruct Hk as [Hk _]. lia.
Qed.

End EncodeHeader.

(* --------------------------------------------------------------------- *)
(** ** [encode]: the calls made for an invocation *)
(* --------------------------------------------------------------------- *)

Section EncodeCalls.

Import Bytes Env Request.

Variable cst : Constants.
Variable D : OutputDriver.

Lemma performAll_app (opts : Options) (a b : list Call) (st : OutSt D) :
  performAll D opts (a ++ b)%list st =
  (st' <- performAll D opts a st ;; performAll D opts b st').
Proof.
  revert st. induction a as [|c a IH]; intros st; cbn [performAll app bind].
  - reflexivity.
  - destruct (perform D opts c st); cbn [bind]; [apply IH | reflexivity].
Qed.

(** The argument loop is one [writeObject] per entry of [types], entry [k]
    with [args[i + k]]. *)
Lemma writeArgs_calls (opts : Options) (args : list JsValue) (types : list string) :
  forall i st,
    writeArgs D opts args types i st =
    performAll D opts
      (map (fun k => CallWriteObject (nth (i + k) args VUndefined)
                       (classMap opts) (nth k types ""))
           (seq 0 (List.length types))) st.
Proof.
  induction types as [|type types IH]; intros i st; [reflexivity|].
  cbn [writeArgs List.length seq map performAll perform nth].
  rewrite Nat.add_0_r.
  destruct (writeObject D _ _ _ _ st) as [st'|]; cbn [bind]; [|reflexivity].
  rewrite IH, <- seq_shift, map_map. f_equal. apply map_ext. intros k.
  now rewrite Nat.add_succ_comm.
Qed.

(** The body of an invocation whose descriptor reads back: five strings,
    one object per entry of the type list, the attachments. *)
Lemma encodeBody_invocation (req : Request) (opts : Options) (inv : Invocation)
    (desc : string) (types : list string) (st : OutSt D) :
  data req = PInvocation inv ->
  getJavaArgsDesc (args inv) = Ok desc ->
  desc2classArray desc = Ok types ->
  encodeBody cst D req opts st =
  performAll D opts
    ([ CallWriteUTF (jsOr (attachment inv (DUBBO_VERSION_KEY cst)) (VStr "2.5.3"));
       CallWriteUTF (attachment inv (PATH_KEY cst));
       CallWriteUTF (jsOr (attachment inv (VERSION_KEY cst)) (VStr "0.0.0"));
       CallWriteUTF (methodName inv);
       CallWriteUTF (VStr desc) ]
     ++ map (fun i => CallWriteObject (nth i (args inv) VUndefined)
                        (classMap opts) (nth i types ""))
            (seq 0 (List.length types))
     ++ [ CallWriteObject (VObject (attachments inv)) (classMap opts) "HashMap" ])%list
    st.
Proof.
  intros Hdata Hdesc Htypes. unfold encodeBody. rewrite Hdata.
  cbn [app performAll perform]. unfold DUBBO_VERSION.
  do 4 (match goal with
        | |- context [writeUTF D ?v opts ?s] =>
            destruct (writeUTF D v opts s); cbn [bind]; [|reflexivity]
        end).
  rewrite Hdesc. cbn [bind].
  match goal with
  | |- context [writeUTF D ?v opts ?s] =>
      destruct (writeUTF D v opts s); cbn [bind]; [|reflexivity]
  end.
  rewrite Htypes. cbn [bind].
  rewrite performAll_app, (writeArgs_calls opts (args inv) types 0).
  cbn [Nat.add]. destruct (performAll D opts _ _); cbn [bind performAll perform].
  - now destruct (writeObject D _ _ _ _ _).
  - reflexivity.
Qed.

(** Whatever the payload, a body that was written is a sequence of writer
    calls. *)
Lemma encodeBody_calls (req : Request) (opts : Options) (st st' : OutSt D) :
  encodeBody cst D req opts st = Ok st' ->
  exists calls, performAll D opts calls st = Ok st'.
Proof.
  intros H. destruct (data req) as [inv|v] eqn:Hdata.
  - destruct (getJavaArgsDesc (args inv)) as [desc|] eqn:Hdesc.
    + destruct (desc2classArray desc) as [types|] eqn:Htypes.
      * rewrite (encodeBody_invocation _ _ _ _ _ _ Hdata Hdesc Htypes) in H.
        eauto.
      * unfold encodeBody in H. rewrite Hdata in H.
        do 4 (match type of H with
              | context [writeUTF D ?v opts ?s] =>
                  destruct (writeUTF D v opts s); cbn [bind] in H; [|discriminate]
              end).
        rewrite Hdesc in H. cbn [bind] in H.
        match type of H with
        | context [writeUTF D ?v opts ?s] =>
            destruct (writeUTF D v opts s); cbn [bind] in H; [|discriminate]
        end.
        rewrite Htypes in H. discriminate.
    + unfold encodeBody in H. rewrite Hdata in H.
      do 4 (match type of H with
            | context [writeUTF D ?v opts ?s] =>
                destruct (writeUTF D v opts s); cbn [bind] in H; [|discriminate]
            end).
      rewrite Hdesc in H. discriminate.
  - unfold encodeBody in H. rewrite Hdata in H. destruct (isEvent req).
    + exists [CallWriteUTF (VStr "H")]. cbn [performAll perform].
      rewrite H. reflexivity.
    + exists [CallWriteObject v (classMap opts) "AnyVal"]. cbn [performAll perform].
      rewrite H. reflexivity.
Qed.

End EncodeCalls.

Section EncodedHeader.

Import Bytes Env Request.

Variable cst : Constants.
Variable D : OutputDriver.
Hypothesis kept : HeaderKept D.

(** The header as [putHeader] lays it out in a buffer whose position is 0. *)
Lemma putHeader_layout (c : Z) (req : Request) (bytes : ByteBuffer) :
  _offset bytes = 0 ->
  _offset (putHeader c req bytes) = HEADER_LENGTH /\
  nth 0 (_bytes (putHeader c req bytes)) 0%Z = MAGIC_HIGH /\
  nth 1 (_bytes (putHeader c req bytes)) 0%Z = MAGIC_LOW /\
  nth 2 (_bytes (putHeader c req bytes)) 0%Z = toUint8 (flagOf c req) /\
  (forall k, k < 4 ->
     nth (4 + k) (_bytes (putHeader c req bytes)) 0%Z
     = nth k (int32BE (Z.shiftr (id req) 32)) 0%Z) /\
  (forall k, k < 4 ->
     nth (8 + k) (_bytes (putHeader c req bytes)) 0%Z
     = nth k (int32BE (id req)) 0%Z).
Proof.
  destruct bytes as [storage offset]. cbn [_offset]. intros ->.
  unfold putHeader, skip, putLong, putBuffer, put. cbn [_bytes _offset].
  repeat split.
  - rewrite nth_storeAll, !nth_store. reflexivity.
  - rewrite nth_storeAll, !nth_store. reflexivity.
  - rewrite nth_storeAll, !nth_store. reflexivity.
  - intros k Hk. rewrite nth_storeAll.
    destruct k as [|[|[|[|k]]]]; try lia; reflexivity.
  - intros k Hk. rewrite nth_storeAll.
    destruct k as [|[|[|[|k]]]]; try lia; reflexivity.
Qed.

Lemma encodeBody_kept (req : Request) (opts : Options) (st st' : OutSt D) :
  HEADER_LENGTH <= _offset (outBytes D st) ->
  encodeBody cst D req opts st = Ok st' ->
  headerKept (outBytes D st) (outBytes D st').
Proof.
  intros Hpos H. destruct (encodeBody_calls _ _ _ _ _ _ H) as [calls Hcalls].
  exact (performAll_kept D kept _ _ _ _ Hpos Hcalls).
Qed.

(** The first sixteen octets of an encoded packet. *)
Lemma encodeWith_header (req : Request) (opts : Options) (buf : Buffer) :
  encodeWith cst D req opts = Ok buf ->
  exists st,
    encodeBody cst D req opts
      (onBytes D (putHeader (contentTypeId D) req) (serialize D)) = Ok st /\
    HEADER_LENGTH <= List.length buf /\
    nth 0 buf 0%Z = MAGIC_HIGH /\
    nth 1 buf 0%Z = MAGIC_LOW /\
    nth 2 buf 0%Z = toUint8 (flagOf (contentTypeId D) req) /\
    (forall k, k < 4 ->
       nth (4 + k) buf 0%Z = nth k (int32BE (Z.shiftr (id req) 32)) 0%Z) /\
    (forall k, k < 4 -> nth (8 + k) buf 0%Z = nth k (int32BE (id req)) 0%Z) /\
    (forall k, k < 4 ->
       nth (12 + k) buf 0%Z = nth k (int32BE (bodyLen cst D opts st)) 0%Z).
Proof.
  unfold encodeWith. intros H.
  set (st0 := onBytes D (putHeader (contentTypeId D) req) (serialize D)) in *.
  destruct (encodeBody cst D req opts st0) as [st|] eqn:Hbody; [|discriminate].
  cbn [bind] in H.
  destruct (writeInt32BE (bodyLen cst D opts st) 12 (_bytes (outBytes D st)))
    as [storage|] eqn:Hwrite; [|discriminate].
  cbn [bind] in H.
  assert (Hstorage : storage = storeAll 12 (int32BE (bodyLen cst D opts st))
                                 (_bytes (outBytes D st))).
  { unfold writeInt32BE in Hwrite.
    destruct ((- 2 ^ 31 <=? bodyLen cst D opts st)%Z
              && (bodyLen cst D opts st <? 2 ^ 31)%Z)%bool; congruence. }
  clear Hwrite.
  assert (Hbuf : buf = outGet D
            (onBytes D (fun bytes => mkByteBuffer storage (_offset bytes)) st))
    by congruence.
  clear H. subst buf.
  exists st. split; [reflexivity|].
  assert (Hbytes0 : outBytes D st0
                    = putHeader (contentTypeId D) req (outBytes D (serialize D)))
    by apply (onBytes_outBytes D kept).
  destruct (putHeader_layout (contentTypeId D) req _ (serialize_at_start D kept))
    as (Hoff & H0 & H1 & H2 & Hhi & Hlo).
  rewrite <- Hbytes0 in Hoff, H0, H1, H2, Hhi, Hlo.
  assert (Hpos0 : HEADER_LENGTH <= _offset (outBytes D st0)) by lia.
  destruct (encodeBody_kept _ _ _ _ Hpos0 Hbody) as [Hpos Hsame].
  match goal with
  | |- context [onBytes D ?f st] => set (patch := f); set (st1 := onBytes D f st)
  end.
  assert (Hbytes1 : outBytes D st1 = patch (outBytes D st))
    by apply (onBytes_outBytes D kept).
  assert (Hpos1 : HEADER_LENGTH <= _offset (outBytes D st1))
    by (rewrite Hbytes1; unfold patch; cbn [_offset]; lia).
  destruct (get_header D kept st1 Hpos1) as [Hlen Hget].
  assert (Hnth : forall k, k < HEADER_LENGTH ->
            nth k (outGet D st1) 0%Z =
            if (Nat.leb 12 k && Nat.ltb k (12 + 4))%bool
            then nth (k - 12) (int32BE (bodyLen cst D opts st)) 0%Z
            else nth k (_bytes (outBytes D st0)) 0%Z).
  { intros k Hk. rewrite (Hget k Hk), Hbytes1. unfold patch. cbn [_bytes].
    rewrite Hstorage, nth_storeAll. cbn [List.length int32BE].
    destruct (Nat.leb 12 k && Nat.ltb k (12 + 4))%bool; [reflexivity|].
    now apply Hsame. }
  unfold HEADER_LENGTH in *. change (onBytes D patch st) with st1.
  repeat split.
  - exact Hlen.
  - rewrite (Hnth 0) by lia. exact H0.
  - rewrite (Hnth 1) by lia. exact H1.
  - rewrite (Hnth 2) by lia. exact H2.
  - intros k Hk. rewrite (Hnth (4 + k)) by lia.
    destruct k as [|[|[|[|k]]]]; try lia; cbn [Nat.leb Nat.ltb andb]; now apply Hhi.
  - intros k Hk. rewrite (Hnth (8 + k)) by lia.
    destruct k as [|[|[|[|k]]]]; try lia; cbn [Nat.leb Nat.ltb andb]; now apply Hlo.
  - intros k Hk. rewrite (Hnth (12 + k)) by lia.
    destruct k as [|[|[|[|k]]]]; try lia; reflexivity.
Qed.

End EncodedHeader.

(* --------------------------------------------------------------------- *)
(** ** The drivers of the sources leave the header alone *)
(* --------------------------------------------------------------------- *)

Section DriversKeepHeader.

Import Bytes Env Request.

Variable rt : Runtime.
Variable cst : Constants.

Lemma putBuffer_kept (vs : list Z) (bb : ByteBuffer) :
  HEADER_LENGTH <= _offset bb -> headerKept bb (putBuffer vs bb).
Proof.
  intros Hpos. split; cbn [putBuffer _offset _bytes]; [lia|].
  intros k Hk. rewrite nth_storeAll.
  destruct (Nat.leb_spec (_offset bb) k); [lia | reflexivity].
Qed.

Lemma written_header (bb : ByteBuffer) :
  HEADER_LENGTH <= _offset bb ->
  HEADER_LENGTH <= List.length (written bb) /\
  forall k, k < HEADER_LENGTH -> nth k (written bb) 0%Z = nth k (_bytes bb) 0%Z.
Proof.
  intros Hpos. unfold written. rewrite length_prefix. split; [exact Hpos|].
  intros k Hk. apply nth_prefix. lia.
Qed.

Lemma written_app_header (bb : ByteBuffer) (tail : list Z) :
  HEADER_LENGTH <= _offset bb ->
  HEADER_LENGTH <= List.length (written bb ++ tail) /\
  forall k, k < HEADER_LENGTH ->
    nth k (written bb ++ tail) 0%Z = nth k (_bytes bb) 0%Z.
Proof.
  intros Hpos. destruct (written_header bb Hpos) as [Hlen Hnth].
  rewrite length_app. split; [lia|].
  intros k Hk. rewrite app_nth1 by lia. now apply Hnth.
Qed.

(** A writer that returns [output.bytes] as it found it. *)
Ltac bytes_untouched H :=
  repeat match type of H with
  | Ok _ = Ok _ => injection H as <-; cbn [Protobuf.bytes]; apply headerKept_refl
  | Throw _ = Ok _ => discriminate H
  | context [match ?x with _ => _ end] => destruct x eqn:?; cbn [bind] in H
  | context [bind ?x _] => destruct x eqn:?; cbn [bind] in H
  end.

Lemma ProtobufJson_putRawString_kept (v : JsValue) (encoder encoder' : ByteBuffer) :
  HEADER_LENGTH <= _offset encoder ->
  ProtobufJson.putRawString rt v encoder = Ok encoder' ->
  headerKept encoder encoder'.
Proof.
  intros Hpos H. unfold ProtobufJson.putRawString in H.
  destruct v; try (destruct (rawOctets rt _); cbn [bind] in H; [|discriminate]);
    injection H as <-; now apply putBuffer_kept.
Qed.

Lemma ProtobufJson_writeObject_kept v classMap type opts (st st' : ByteBuffer) :
  HEADER_LENGTH <= _offset st ->
  ProtobufJson.writeObject rt v classMap type opts st = Ok st' ->
  headerKept st st'.
Proof.
  intros Hpos H. unfold ProtobufJson.writeObject in H.
  repeat match type of H with
  | ProtobufJson.putRawString _ _ _ = Ok _ =>
      exact (ProtobufJson_putRawString_kept _ _ _ Hpos H)
  | Ok _ = Ok _ => injection H as <-; apply headerKept_refl
  | Throw _ = Ok _ => discriminate H
  | context [match ?x with _ => _ end] => destruct x eqn:?; cbn [bind] in H
  | context [bind ?x _] => destruct x eqn:?; cbn [bind] in H
  end.
Qed.

Lemma ProtobufJson_kept (previous : ByteBuffer) :
  HeaderKept (ProtobufJson.output rt cst previous).
Proof.
  constructor; cbn.
  - reflexivity.
  - reflexivity.
  - intros v opts st st' Hpos H. unfold ProtobufJson.writeUTF in H.
    destruct (options opts).
    + exact (ProtobufJson_writeObject_kept _ _ _ _ _ _ Hpos H).
    + exact (ProtobufJson_putRawString_kept _ _ _ Hpos H).
  - intros v classMap type opts st st' Hpos H.
    exact (ProtobufJson_writeObject_kept _ _ _ _ _ _ Hpos H).
  - intros st Hpos. now apply written_header.
Qed.

Lemma Protobuf_get_header (st : Protobuf.Session) :
  HEADER_LENGTH <= _offset (Protobuf.bytes st) ->
  HEADER_LENGTH <= List.length (Protobuf.get st) /\
  forall k, k < HEADER_LENGTH ->
    nth k (Protobuf.get st) 0%Z = nth k (_bytes (Protobuf.bytes st)) 0%Z.
Proof.
  intros Hpos. unfold Protobuf.get.
  destruct (Nat.ltb 16 (_offset (Protobuf.bytes st)));
    [now apply written_header | now apply written_app_header].
Qed.

Lemma Protobuf_writeObject_kept v classMap type opts (st st' : Protobuf.Session) :
  Protobuf.writeObject rt v classMap type opts st = Ok st' ->
  headerKept (Protobuf.bytes st) (Protobuf.bytes st').
Proof. intros H. unfold Protobuf.writeObject in H. bytes_untouched H. Qed.

Lemma Protobuf_kept : HeaderKept (Protobuf.output rt cst).
Proof.
  constructor; cbn.
  - reflexivity.
  - reflexivity.
  - intros v opts st st' Hpos H. unfold Protobuf.writeUTF in H.
    destruct (options opts).
    + exact (Protobuf_writeObject_kept _ _ _ _ _ _ H).
    + injection H as <-. cbn [Protobuf.bytes]. now apply putBuffer_kept.
  - intros v classMap type opts st st' _ H.
    exact (Protobuf_writeObject_kept _ _ _ _ _ _ H).
  - exact Protobuf_get_header.
Qed.

Lemma ProtobufOld_writeObject_kept v classMap type opts (st st' : Protobuf.Session) :
  ProtobufOld.writeObject v classMap type opts st = Ok st' ->
  headerKept (Protobuf.bytes st) (Protobuf.bytes st').
Proof. intros H. unfold ProtobufOld.writeObject in H. bytes_untouched H. Qed.

Lemma ProtobufOld_kept : HeaderKept (ProtobufOld.output rt cst).
Proof.
  constructor; cbn.
  - reflexivity.
  - reflexivity.
  - intros v opts st st' Hpos H. unfold ProtobufOld.writeUTF in H.
    destruct (options opts).
    + exact (ProtobufOld_writeObject_kept _ _ _ _ _ _ H).
    + injection H as <-. cbn [Protobuf.bytes]. now apply putBuffer_kept.
  - intros v classMap type opts st st' _ H.
    exact (ProtobufOld_writeObject_kept _ _ _ _ _ _ H).
  - exact Protobuf_get_header.
Qed.

Lemma ProtobufJsonOld_writeObject_kept v classMap type opts
    (st st' : Protobuf.Session) :
  ProtobufJsonOld.writeObject rt v classMap type opts st = Ok st' ->
  headerKept (Protobuf.bytes st) (Protobuf.bytes st').
Proof. intros H. unfold ProtobufJsonOld.writeObject in H. bytes_untouched H. Qed.

Lemma ProtobufJsonOld_kept : HeaderKept (ProtobufJsonOld.output rt cst).
Proof.
  constructor; cbn.
  - reflexivity.
  - reflexivity.
  - intros v opts st st' Hpos H. unfold ProtobufJsonOld.writeUTF in H.
    destruct (options opts); [|discriminate].
    exact (ProtobufJsonOld_writeObject_kept _ _ _ _ _ _ H).
  - intros v classMap type opts st st' _ H.
    exact (ProtobufJsonOld_writeObject_kept _ _ _ _ _ _ H).
  - intros st Hpos. unfold ProtobufJsonOld.get. now apply written_app_header.
Qed.

End DriversKeepHeader.

(* --------------------------------------------------------------------- *)
(** ** [encode] and [decode]: the header fields *)
(* --------------------------------------------------------------------- *)

Section FlagCases.

Lemma below_32 (P : Z -> Prop) :
  (forall n : nat, n < 32 -> P (Z.of_nat n)) ->
  forall c : Z, (0 <= c < 32)%Z -> P c.
Proof.
  intros H c Hc. rewrite <- (Z2Nat.id c) by lia. apply H. lia.
Qed.

End FlagCases.

(** C3. The packet id of a request is written as two big-endian 32-bit
    words, the high word at offset 4 and the low word at offset 8, and
    [decode]'s two reads give back exactly the id, for every signed 64-bit
    id and every driver that leaves the header alone. *)
Theorem packet_id_round_trip (cst : Env.Constants) (D : Env.OutputDriver)
    (req : Request.Request) (opts : Env.Options) (buf : Bytes.Buffer) :
  Request.HeaderKept D ->
  (- 2 ^ 63 <= Request.id req < 2 ^ 63)%Z ->
  Request.encodeWith cst D req opts = Ok buf ->
  Bytes.readInt32BE 4 buf = Ok (Bytes.toInt32 (Z.shiftr (Request.id req) 32)) /\
  Bytes.readInt32BE 8 buf = Ok (Bytes.toInt32 (Request.id req)) /\
  exists p, Request.readPacketId buf = Ok p /\ Long.idValue p = Request.id req.
Proof.
  intros kept Hid Hencode.
  destruct (encodeWith_header cst D kept req opts buf Hencode)
    as (st & _ & Hlen & _ & _ & _ & Hhi & Hlo & _).
  unfold Request.HEADER_LENGTH in Hlen.
  assert (H4 : Bytes.readInt32BE 4 buf
               = Ok (Bytes.toInt32 (Z.shiftr (Request.id req) 32))).
  { rewrite Bytes_readInt32BE_at by lia.
    pose proof (Hhi 0 ltac:(lia)) as E0. pose proof (Hhi 1 ltac:(lia)) as E1.
    pose proof (Hhi 2 ltac:(lia)) as E2. pose proof (Hhi 3 ltac:(lia)) as E3.
    cbn [Nat.add nth Bytes.int32BE] in *. rewrite E0, E1, E2, E3.
    now rewrite int32BE_value. }
  assert (H8 : Bytes.readInt32BE 8 buf = Ok (Bytes.toInt32 (Request.id req))).
  { rewrite Bytes_readInt32BE_at by lia.
    pose proof (Hlo 0 ltac:(lia)) as E0. pose proof (Hlo 1 ltac:(lia)) as E1.
    pose proof (Hlo 2 ltac:(lia)) as E2. pose proof (Hlo 3 ltac:(lia)) as E3.
    cbn [Nat.add nth Bytes.int32BE] in *. rewrite E0, E1, E2, E3.
    now rewrite int32BE_value. }
  repeat split; try assumption.
  unfold Request.readPacketId. rewrite H8, H4. cbn [bind].
  eexists. split; [reflexivity|].
  rewrite idValue_handleLong. now apply long_of_words.
Qed.

Lemma packet_id_round_trip_witness :
  Bytes.readInt32BE 4
    [218; 187; 245; 0; 128; 0; 0; 0; 0; 0; 0; 0; 0; 0; 0; 17; 72]%Z
  = Ok (Bytes.toInt32 (Z.shiftr (- 2 ^ 63) 32)) /\
  Bytes.readInt32BE 8
    [218; 187; 245; 0; 128; 0; 0; 0; 0; 0; 0; 0; 0; 0; 0; 17; 72]%Z
  = Ok (Bytes.toInt32 (- 2 ^ 63)) /\
  exists p,
    Request.readPacketId
      [218; 187; 245; 0; 128; 0; 0; 0; 0; 0; 0; 0; 0; 0; 0; 17; 72]%Z = Ok p /\
    Long.idValue p = (- 2 ^ 63)%Z.
Proof.
  apply (packet_id_round_trip Example.constants
           (ProtobufJson.output Example.runtime Example.constants Bytes.allocate)
           (Request.mkRequest (- 2 ^ 63) true true (Request.PValue VNull))
           (Example.untyped "protobuf-json")).
  - apply ProtobufJson_kept.
  - cbn [Request.id]. lia.
  - reflexivity.
Defined.

(** C4. The flag octet of an encoded request: bit 7 is set, bit 6 is the
    two-way flag, bit 5 the event flag, and the low five bits are the
    driver's [contentTypeId], which is what [decode] gets by masking the
    octet with [0x1f].  The content type ids are five-bit tags. *)
Theorem flag_byte_of_encoded_request (cst : Env.Constants) (D : Env.OutputDriver)
    (req : Request.Request) (opts : Env.Options) (buf : Bytes.Buffer) :
  Request.HeaderKept D ->
  (0 <= Env.contentTypeId D < 32)%Z ->
  Request.encodeWith cst D req opts = Ok buf ->
  Z.testbit (Request.flagByte buf) 7 = true /\
  Z.testbit (Request.flagByte buf) 6 = Request.isTwoWay req /\
  Z.testbit (Request.flagByte buf) 5 = Request.isEvent req /\
  Z.land (Request.flagByte buf) 31 = Env.contentTypeId D /\
  Request.serializationType (Request.flagByte buf) = Env.contentTypeId D.
Proof.
  intros kept Hid Hencode.
  destruct (encodeWith_header cst D kept req opts buf Hencode)
    as (st & _ & _ & _ & _ & Hflag & _).
  unfold Request.flagByte, Request.serializationType, Request.SERIALIZATION_MASK.
  rewrite Hflag. clear Hflag Hencode st. unfold Request.flagOf.
  revert Hid. generalize (Env.contentTypeId D). intros c Hc. revert c Hc.
  apply below_32. intros n Hn.
  destruct (Request.isTwoWay req), (Request.isEvent req);
    do 32 (destruct n as [|n]; [repeat split; reflexivity|]); lia.
Qed.

Lemma flag_byte_of_encoded_request_witness :
  Z.testbit (Request.flagByte
    [218; 187; 245; 0; 128; 0; 0; 0; 0; 0; 0; 0; 0; 0; 0; 17; 72]%Z) 7 = true /\
  Z.testbit (Request.flagByte
    [218; 187; 245; 0; 128; 0; 0; 0; 0; 0; 0; 0; 0; 0; 0; 17; 72]%Z) 6 = true /\
  Z.testbit (Request.flagByte
    [218; 187; 245; 0; 128; 0; 0; 0; 0; 0; 0; 0; 0; 0; 0; 17; 72]%Z) 5 = true /\
  Z.land (Request.flagByte
    [218; 187; 245; 0; 128; 0; 0; 0; 0; 0; 0; 0; 0; 0; 0; 17; 72]%Z) 31 = 21%Z /\
  Request.serializationType (Request.flagByte
    [218; 187; 245; 0; 128; 0; 0; 0; 0; 0; 0; 0; 0; 0; 0; 17; 72]%Z) = 21%Z.
Proof.
  apply (flag_byte_of_encoded_request Example.constants
           (ProtobufJson.output Example.runtime Example.constants Bytes.allocate)
           (Request.mkRequest (- 2 ^ 63) true true (Request.PValue VNull))
           (Example.untyped "protobuf-json")).
  - apply ProtobufJson_kept.
  - cbn. lia.
  - reflexivity.
Defined.

(** [encode] is [encodeWith] on the output of the module that
    [codecType || DEFAULT_REMOTING_SERIALIZATION] names. *)
Lemma encode_resolved (cst : Env.Constants) (byName : string -> option Env.Driver)
    (req : Request.Request) (opts : Env.Options) (buf : Bytes.Buffer) :
  Request.encode cst byName req opts = Ok buf ->
  exists name driver,
    byName name = Some driver /\
    Request.encodeWith cst (Env.output driver) req opts = Ok buf.
Proof.
  unfold Request.encode. intros H.
  match type of H with
  | match byName ?n with _ => _ end = _ =>
      destruct (byName n) as [driver|] eqn:Hname; [|discriminate];
      now exists n, driver
  end.
Qed.

(** X2. For every driver that leaves the header alone, an encoded packet
    starts with the magic pair and carries at offset 12 the length [encode]
    computed: the driver's [len] for a codec other than the default one,
    the position past the header for the default one. *)
Lemma encoded_magic_and_length (cst : Env.Constants) (D : Env.OutputDriver)
    (req : Request.Request) (opts : Env.Options) (buf : Bytes.Buffer) :
  Request.HeaderKept D ->
  Request.encodeWith cst D req opts = Ok buf ->
  nth 0 buf 0%Z = 218%Z /\ nth 1 buf 0%Z = 187%Z /\
  exists st,
    Request.encodeBody cst D req opts
      (Env.onBytes D (Request.putHeader (Env.contentTypeId D) req)
                   (Env.serialize D)) = Ok st /\
    Bytes.readInt32BE 12 buf = Ok (Bytes.toInt32 (Request.bodyLen cst D opts st)).
Proof.
  intros kept Hencode.
  destruct (encodeWith_header cst D kept req opts buf Hencode)
    as (st & Hbody & Hlen & H0 & H1 & _ & _ & _ & Hbl).
  unfold Request.HEADER_LENGTH in Hlen.
  split; [exact H0|]. split; [exact H1|]. exists st. split; [exact Hbody|].
  rewrite Bytes_readInt32BE_at by lia.
  pose proof (Hbl 0 ltac:(lia)) as E0. pose proof (Hbl 1 ltac:(lia)) as E1.
  pose proof (Hbl 2 ltac:(lia)) as E2. pose proof (Hbl 3 ltac:(lia)) as E3.
  cbn [Nat.add nth Bytes.int32BE] in *. rewrite E0, E1, E2, E3.
  now rewrite int32BE_value.
Qed.

(** C2. A heartbeat encoded with the protobuf-json codec: the packet is the
    header and the one octet ['H'], and the length at offset 12 is 17, the
    position of the shared buffer with the header counted in, where the
    payload after offset 16 is 1 octet long. *)
Theorem encode_protobuf_json_heartbeat_length (hessian protobuf : Env.Driver) :
  Request.encode Example.constants
    (Serialize.getSerializationByName hessian
       (ProtobufJson.driver Example.runtime Example.constants Bytes.allocate) protobuf)
    (Request.mkRequest 1 true true (Request.PValue VNull))
    (Example.untyped "protobuf-json")
  = Ok [218; 187; 245; 0; 0; 0; 0; 0; 0; 0; 0; 1; 0; 0; 0; 17; 72]%Z /\
  Bytes.readInt32BE 12
    [218; 187; 245; 0; 0; 0; 0; 0; 0; 0; 0; 1; 0; 0; 0; 17; 72]%Z = Ok 17%Z /\
  List.length
    (skipn 16 [218; 187; 245; 0; 0; 0; 0; 0; 0; 0; 0; 1; 0; 0; 0; 17; 72]%Z) = 1.
Proof. repeat split; reflexivity. Qed.

(** C8, as the code has it.  The body of an invocation is written in this
    order: the protocol version of the attachments or ["2.5.3"], the service
    path, the service version or ["0.0.0"], the method name, the descriptor
    of the arguments, then one object per entry of the type list the
    descriptor reads back to, entry [i] being [args[i]] ([undefined] past the
    end of the arguments) under the type tag [types[i]], and last the whole
    attachment mapping under the tag ['HashMap'].  When every argument is
    plain the descriptor does read back, to one class name per argument, the
    one its own signature reads back to, and the objects written are the
    arguments, each once and in order, under these names. *)
Theorem encode_invocation_field_order (cst : Env.Constants) (D : Env.OutputDriver)
    (req : Request.Request) (opts : Env.Options) (inv : Request.Invocation)
    (st : Env.OutSt D) :
  Request.data req = Request.PInvocation inv ->
  let strings :=
    [ Request.CallWriteUTF
        (jsOr (Request.attachment inv (Env.DUBBO_VERSION_KEY cst)) (VStr "2.5.3"));
      Request.CallWriteUTF (Request.attachment inv (Env.PATH_KEY cst));
      Request.CallWriteUTF
        (jsOr (Request.attachment inv (Env.VERSION_KEY cst)) (VStr "0.0.0"));
      Request.CallWriteUTF (Request.methodName inv) ] in
  let mapping :=
    Request.CallWriteObject (VObject (Request.attachments inv))
      (Env.classMap opts) "HashMap" in
  (forall desc types,
     getJavaArgsDesc (Request.args inv) = Ok desc ->
     desc2classArray desc = Ok types ->
     Request.encodeBody cst D req opts st =
     Request.performAll D opts
       (strings ++ [Request.CallWriteUTF (VStr desc)]
        ++ map (fun i => Request.CallWriteObject
                           (nth i (Request.args inv) VUndefined)
                           (Env.classMap opts) (nth i types ""))
               (seq 0 (List.length types))
        ++ [mapping])%list st) /\
  (forallb plainArg (Request.args inv) = true ->
   exists desc types,
     getJavaArgsDesc (Request.args inv) = Ok desc /\
     desc2classArray desc = Ok types /\
     Forall2 (fun arg type => exists d, getJavaClassDesc arg = Ok d /\
                                        desc2classArray d = Ok [type])
             (Request.args inv) types /\
     Request.encodeBody cst D req opts st =
     Request.performAll D opts
       (strings ++ [Request.CallWriteUTF (VStr desc)]
        ++ map (fun tagged => Request.CallWriteObject (fst tagged)
                                (Env.classMap opts) (snd tagged))
               (combine (Request.args inv) types)
        ++ [mapping])%list st).
Proof.
  intros Hdata strings mapping. split.
  - intros desc types Hdesc Htypes.
    apply (encodeBody_invocation cst D req opts inv desc types st Hdata Hdesc Htypes).
  - intros Hplain.
    destruct (plainArgs_signatures _ Hplain) as (ds & ts & Hds & Hall & Heach).
    assert (Hdesc : getJavaArgsDesc (Request.args inv) = Ok (String.concat "" ds))
      by (unfold getJavaArgsDesc; now rewrite Hds).
    assert (Htypes : desc2classArray (String.concat "" ds) = Ok ts)
      by now apply desc2classArray_concat.
    exists (String.concat "" ds), ts.
    split; [exact Hdesc|]. split; [exact Htypes|]. split; [exact Heach|].
    rewrite (encodeBody_invocation cst D req opts inv _ ts st Hdata Hdesc Htypes).
    unfold strings, mapping. cbn [app].
    rewrite (map_seq_combine
               (fun arg type => Request.CallWriteObject arg (Env.classMap opts) type)
               VUndefined "" (Request.args inv) ts);
      [reflexivity|].
    symmetry. exact (Forall2_length Heach).
Qed.

Lemma encode_invocation_field_order_witness :
  getJavaArgsDesc [VStr "world"; VNum (NInt 2)] = Ok "Ljava/lang/String;I" /\
  desc2classArray "Ljava/lang/String;I" = Ok ["java.lang.String"; "int"] /\
  Request.encodeBody Example.constants Example.recorder Example.greeterTwice
    (Example.untyped "hessian2") []
  = Ok [ Request.CallWriteUTF (VStr "2.5.3");
         Request.CallWriteUTF (VStr "com.example.Greeter");
         Request.CallWriteUTF (VStr "0.0.0");
         Request.CallWriteUTF (VStr "sayHello");
         Request.CallWriteUTF (VStr "Ljava/lang/String;I");
         Request.CallWriteObject (VStr "world") VUndefined "java.lang.String";
         Request.CallWriteObject (VNum (NInt 2)) VUndefined "int";
         Request.CallWriteObject (VObject [("path", VStr "com.example.Greeter")])
           VUndefined "HashMap" ].
Proof.
  pose proof (encode_invocation_field_order Example.constants Example.recorder
                Example.greeterTwice (Example.untyped "hessian2")
                (Request.mkInvocation (VStr "sayHello") [VStr "world"; VNum (NInt 2)]
                   [("path", VStr "com.example.Greeter")])
                [] eq_refl) as H.
  cbv zeta in H. destruct H as [_ Hplain].
  destruct (Hplain eq_refl) as (desc & types & Hdesc & Htypes & _ & Hbody).
  cbv in Hdesc. injection Hdesc as <-.
  cbv in Htypes. injection Htypes as <-.
  split; [reflexivity|]. split; [reflexivity|].
  rewrite Hbody. reflexivity.
Defined.

(** C8, as the claim states it, fails for an argument whose class tag holds
    a [';']: the signature of the one argument reads back to two class
    names, and two objects are written for it, the argument under the first
    name and [undefined] under the second. *)
Lemma encode_writes_an_object_per_type_entry :
  getJavaArgsDesc [VObject [("$class", VStr "x;Ly")]] = Ok "Lx;Ly;" /\
  desc2classArray "Lx;Ly;" = Ok ["x"; "y"] /\
  Request.encodeBody Example.constants Example.recorder Example.greeterTagged
    (Example.untyped "hessian2") []
  = Ok [ Request.CallWriteUTF (VStr "2.5.3");
         Request.CallWriteUTF (VStr "com.example.Greeter");
         Request.CallWriteUTF (VStr "0.0.0");
         Request.CallWriteUTF (VStr "sayHello");
         Request.CallWriteUTF (VStr "Lx;Ly;");
         Request.CallWriteObject (VObject [("$class", VStr "x;Ly")]) VUndefined "x";
         Request.CallWriteObject VUndefined VUndefined "y";
         Request.CallWriteObject (VObject [("path", VStr "com.example.Greeter")])
           VUndefined "HashMap" ].
Proof. repeat split. Qed.

(* --------------------------------------------------------------------- *)
(** ** [decode]: the driver of a serialization id *)
(* --------------------------------------------------------------------- *)

Section Resolution.

Import Env.

Variable cst : Constants.
Variables hessian protobufJson protobuf : Driver.

(** An id that is none of the three keys of the table has no property. *)
Lemma getSerializationById_unregistered (id : Z) :
  id <> HESSIAN2_SERIALIZATION_ID cst ->
  id <> PROTOBUF_JSON_SERIALIZATION_ID cst ->
  id <> PROTOBUF_SERIALIZATION_ID cst ->
  Serialize.getSerializationById cst hessian protobufJson protobuf id = None.
Proof.
  intros H1 H2 H3.
  unfold Serialize.getSerializationById, Serialize.idToSerializations.
  cbn [Serialize.property].
  apply Z.eqb_neq in H1, H2, H3. now rewrite H1, H2, H3.
Qed.

End Resolution.

(** C5, as the code has it.  An id that is not a key of [idToSerializations]
    (the protostuff id among them, its entry being commented out) resolves
    to [undefined]: [getSerializationById] raises nothing, and no driver is
    put in its place.  [decode] then throws the engine's [TypeError] when
    it calls [deserialize] on [undefined], before any of the body is read. *)
Theorem decode_unregistered_id (rt : Env.Runtime) (cst : Env.Constants)
    (hessian protobufJson protobuf : Env.Driver) (id : Z) :
  id <> Env.HESSIAN2_SERIALIZATION_ID cst ->
  id <> Env.PROTOBUF_JSON_SERIALIZATION_ID cst ->
  id <> Env.PROTOBUF_SERIALIZATION_ID cst ->
  Serialize.getSerializationById cst hessian protobufJson protobuf id = None /\
  forall (buf : Bytes.Buffer) (opts : Env.Options) (p : Long.PacketId),
    Request.readPacketId buf = Ok p ->
    Request.serializationType (Request.flagByte buf) = id ->
    Request.decode rt cst
      (Serialize.getSerializationById cst hessian protobufJson protobuf)
      buf opts = Throw TypeError.
Proof.
  intros H1 H2 H3.
  pose proof (getSerializationById_unregistered cst hessian protobufJson
                protobuf id H1 H2 H3) as Hnone.
  split; [exact Hnone|].
  intros buf opts p Hid Hflag. unfold Request.decode.
  rewrite Hid. cbn [bind]. rewrite Hflag, Hnone. reflexivity.
Qed.

Lemma decode_unregistered_id_witness :
  Serialize.getSerializationById Example.constants
    (ProtobufJson.driver Example.runtime Example.constants Bytes.allocate)
    (ProtobufJson.driver Example.runtime Example.constants Bytes.allocate)
    (Protobuf.driver Example.runtime Example.constants) 12 = None /\
  forall (buf : Bytes.Buffer) (opts : Env.Options) (p : Long.PacketId),
    Request.readPacketId buf = Ok p ->
    Request.serializationType (Request.flagByte buf) = 12%Z ->
    Request.decode Example.runtime Example.constants
      (Serialize.getSerializationById Example.constants
         (ProtobufJson.driver Example.runtime Example.constants Bytes.allocate)
         (ProtobufJson.driver Example.runtime Example.constants Bytes.allocate)
         (Protobuf.driver Example.runtime Example.constants))
      buf opts = Throw TypeError.
Proof.
  apply (decode_unregistered_id Example.runtime Example.constants
           (ProtobufJson.driver Example.runtime Example.constants Bytes.allocate)
           (ProtobufJson.driver Example.runtime Example.constants Bytes.allocate)
           (Protobuf.driver Example.runtime Example.constants) 12);
    cbn; lia.
Defined.

(** C5, as the claim states it, fails on a packet with the protostuff id:
    the resolver returns [undefined] instead of raising, and what [decode]
    throws is a [TypeError], not an error named for the codec. *)
Lemma decode_protostuff_id_throws_TypeError :
  Serialize.getSerializationById Example.constants
    (ProtobufJson.driver Example.runtime Example.constants Bytes.allocate)
    (ProtobufJson.driver Example.runtime Example.constants Bytes.allocate)
    (Protobuf.driver Example.runtime Example.constants)
    (Env.PROTOSTUFF_SERIALIZATION_ID Example.constants) = None /\
  Request.decode Example.runtime Example.constants
    (Serialize.getSerializationById Example.constants
       (ProtobufJson.driver Example.runtime Example.constants Bytes.allocate)
       (ProtobufJson.driver Example.runtime Example.constants Bytes.allocate)
       (Protobuf.driver Example.runtime Example.constants))
    Example.protostuffHeader (Example.untyped "hessian2") = Throw TypeError /\
  errName TypeError <> "UnknownCodec".
Proof. repeat split; try reflexivity. discriminate. Qed.

(* --------------------------------------------------------------------- *)
(** ** [decode]: the body *)
(* --------------------------------------------------------------------- *)

Section EventBit.

Local Open Scope Z_scope.

(** [(flag & FLAG_EVENT) !== 0] tests bit 5. *)
Lemma event_test_is_bit_5 (flag : Z) :
  negb (Z.land flag Request.FLAG_EVENT =? 0) = Z.testbit flag 5.
Proof.
  unfold Request.FLAG_EVENT. change 32 with (2 ^ 5).
  destruct (Z.testbit flag 5) eqn:Hbit.
  - assert (H : Z.land flag (2 ^ 5) = 2 ^ 5).
    { apply Z.bits_inj'. intros n Hn. rewrite Z.land_spec, Z.pow2_bits_eqb by lia.
      destruct (Z.eqb_spec 5 n) as [<-|_]; [now rewrite Hbit | apply andb_false_r]. }
    now rewrite H.
  - assert (H : Z.land flag (2 ^ 5) = 0).
    { apply Z.bits_inj'. intros n Hn.
      rewrite Z.land_spec, Z.pow2_bits_eqb, Z.bits_0 by lia.
      destruct (Z.eqb_spec 5 n) as [<-|_]; [now rewrite Hbit | apply andb_false_r]. }
    now rewrite H.
Qed.

End EventBit.

(* --------------------------------------------------------------------- *)
(** ** Objects: assignment and lookup *)
(* --------------------------------------------------------------------- *)

Section Objects.

Lemma lookup_assign_same (k : string) (v : JsValue) (props : list (string * JsValue)) :
  lookup k (assign k v props) = Some v.
Proof.
  induction props as [|[k' v'] props IH]; cbn [assign lookup].
  - now rewrite String.eqb_refl.
  - destruct (String.eqb_spec k k') as [->|Hne]; cbn [lookup].
    + now rewrite String.eqb_refl.
    + apply String.eqb_neq in Hne. now rewrite Hne.
Qed.

Lemma lookup_assign_other (k k' : string) (v : JsValue)
    (props : list (string * JsValue)) :
  k <> k' -> lookup k (assign k' v props) = lookup k props.
Proof.
  intros Hne. induction props as [|[k0 v0] props IH]; cbn [assign lookup].
  - apply String.eqb_neq in Hne. now rewrite Hne.
  - destruct (String.eqb_spec k' k0) as [->|Hne0]; cbn [lookup].
    + apply String.eqb_neq in Hne. now rewrite Hne.
    + now rewrite IH.
Qed.

Lemma getProp_object (k : string) (props : list (string * JsValue)) :
  getProp (VObject props) k = Ok (prop k props).
Proof. unfold getProp, prop. now destruct (lookup k props). Qed.

Lemma prop_assign_other (k k' : string) (v : JsValue)
    (props : list (string * JsValue)) :
  k <> k' -> prop k (assign k' v props) = prop k props.
Proof. intros H. unfold prop. now rewrite lookup_assign_other. Qed.

Lemma lookup_absent (k : string) (props : list (string * JsValue)) :
  ~ In k (map fst props) -> lookup k props = None.
Proof.
  induction props as [|[k' v] props IH]; cbn [map fst In lookup]; [reflexivity|].
  intros Hnotin. destruct (String.eqb_spec k k') as [->|_].
  - exfalso. apply Hnotin. now left.
  - apply IH. intros Hin. apply Hnotin. now right.
Qed.

(** [Object.assign(target, source)], read by key: an own property of the
    source wins, any other key is the target's. *)
Lemma lookup_objectAssign (k : string) (source : JsValue)
    (target : list (string * JsValue)) :
  NoDup (map fst (ownProps source)) ->
  lookup k (objectAssign target source) =
  match lookup k (ownProps source) with
  | Some v => Some v
  | None => lookup k target
  end.
Proof.
  unfold objectAssign. generalize (ownProps source). intros entries.
  revert target. induction entries as [|[k0 v0] entries IH]; intros target Hnodup;
    cbn [fold_left fst snd lookup]; [reflexivity|].
  cbn [map fst] in Hnodup. inversion Hnodup as [|? ? Hfresh Hrest]; subst.
  rewrite (IH _ Hrest).
  destruct (String.eqb_spec k k0) as [->|Hne].
  - rewrite (lookup_absent _ _ Hfresh). apply lookup_assign_same.
  - destruct (lookup k entries); [reflexivity|].
    now apply lookup_assign_other.
Qed.

Variable rt : Env.Runtime.



End Objects.

(** C7, as the code has it.  What [decode] returns for a buffer it decodes.
    With the event bit of the flag octet set, the packet is a ['heartbeat']
    whose data is the value one [readObject] without a type tag returns.
    Otherwise the first field is read with [readObject] under ['AnyVal']: a
    string starts an invocation, read as path, version, method name,
    descriptor, one object per entry of the descriptor and the attachment
    mapping, which is merged over the two header entries; any other value
    is the packet's data as it was read.  The [serverSignature] of an
    invocation is built from [attachments.path] after the merge, which is
    the mapping's own [path] entry when it has one and the path field
    otherwise: it is that path when the version read is falsy (the empty
    string), and the text of the path, [':'] and the text of the version
    otherwise. *)
Theorem decode_body_branches (rt : Env.Runtime) (cst : Env.Constants)
    (byId : Z -> option Env.Driver) (buf : Bytes.Buffer) (opts : Env.Options)
    (pkt : Request.Packet) :
  Request.decode rt cst byId buf opts = Ok pkt ->
  exists (driver : Env.Driver) (st : Env.InSt (Env.input driver)),
    byId (Request.serializationType (Request.flagByte buf)) = Some driver /\
    Env.inSkip (Env.input driver) 16
      (Env.deserialize (Env.input driver) buf) = Ok st /\
    let opts' :=
      if (Request.serializationType (Request.flagByte buf) =? 21)%Z
      then Env.mkOptions (Some "protobuf") (Env.classMap opts)
             (Env.options opts) (Env.proto opts) (Env.channel opts)
      else opts in
    if Z.testbit (Request.flagByte buf) 5 then
      Request.packetType pkt = "heartbeat" /\
      exists r, Env.readObject (Env.input driver) opts' None st = Ok r /\
                Request.packetData pkt = Request.DValue (fst r)
    else
      Request.packetType pkt = "request" /\
      exists field,
        Env.readObject (Env.input driver) opts' (Some "AnyVal") st = Ok field /\
        match fst field with
        | VStr _ =>
            exists d path version name desc sigs read merged,
              Request.packetData pkt = Request.DInvocation d /\
              Env.readUTF (Env.input driver) opts' (snd field) = Ok path /\
              Env.readUTF (Env.input driver) opts' (snd path) = Ok version /\
              Env.readUTF (Env.input driver) opts' (snd version) = Ok name /\
              Env.readUTF (Env.input driver) opts' (snd name) = Ok desc /\
              Request.classArrayOf rt (fst desc) = Ok sigs /\
              Request.readArgs (Env.input driver) opts' sigs [] (snd desc)
                = Ok read /\
              Env.readObject (Env.input driver) opts' (Some "HashMap") (snd read)
                = Ok merged /\
              Request.dMethodName d = fst name /\
              Request.dArgs d = fst read /\
              Request.dMethodArgSigs d = sigs /\
              Request.dRequestProps d =
                objectAssign
                  (assign (Env.PATH_KEY cst) (fst path)
                     (assign (Env.DUBBO_VERSION_KEY cst) (fst field) []))
                  (fst merged) /\
              (Env.PATH_KEY cst = "path" ->
               NoDup (map fst (ownProps (fst merged))) ->
               Request.pathOf d =
                 match lookup "path" (ownProps (fst merged)) with
                 | Some own => own
                 | None => fst path
                 end) /\
              Request.dServerSignature d =
                (if truthy (fst version)
                 then VStr (Env.jsToString rt (Request.pathOf d) ++ ":"
                            ++ Env.jsToString rt (fst version))
                 else Request.pathOf d) /\
              (forall p v,
                 Request.pathOf d = VStr p -> fst version = VStr v ->
                 Request.dServerSignature d =
                   VStr (if String.eqb v "" then p else p ++ ":" ++ v))
        | other => Request.packetData pkt = Request.DValue other
        end.
Proof.
  unfold Request.decode. intros H.
  destruct (Request.readPacketId buf) as [packetId|]; [|discriminate].
  cbn [bind] in H.
  destruct (byId (Request.serializationType (Request.flagByte buf)))
    as [driver|] eqn:Hdriver; [|discriminate].
  set (I := Env.input driver) in *.
  set (opts' := if (Request.serializationType (Request.flagByte buf) =? 21)%Z
                then _ else opts) in *.
  destruct (Env.inSkip I 16 (Env.deserialize I buf)) as [st|] eqn:Hskip;
    [|discriminate].
  cbn [bind] in H.
  destruct (Request.readBody rt cst I (Request.flagByte buf) opts' st)
    as [body|] eqn:Hbody; [|discriminate].
  cbn [bind] in H. injection H as <-.
  exists driver, st. split; [reflexivity|]. split; [exact Hskip|].
  cbn [Request.packetType Request.packetData]. fold I. fold opts'. cbv zeta.
  unfold Request.readBody in Hbody. rewrite event_test_is_bit_5 in Hbody.
  destruct (Z.testbit (Request.flagByte buf) 5).
  - destruct (Env.readObject I opts' None st) as [r|]; [|discriminate].
    cbn [bind] in Hbody. injection Hbody as <-. cbn [fst snd]. eauto.
  - destruct (Env.readObject I opts' (Some "AnyVal") st) as [field|];
      [|discriminate].
    cbn [bind] in Hbody.
    destruct (fst field) as [ | | b | n | s | ms | bs | items | msg | props ] eqn:Hfield;
      cbn [isString] in Hbody;
      try (injection Hbody as <-; cbn [fst snd]; split; [reflexivity|];
           exists field; rewrite Hfield; split; reflexivity).
    destruct (Request.readInvocation rt cst I opts' (VStr s) (snd field))
      as [d|] eqn:Hinv; [|discriminate].
    cbn [bind] in Hbody. injection Hbody as <-. cbn [fst snd].
    split; [reflexivity|]. exists field. rewrite Hfield. split; [reflexivity|].
    unfold Request.readInvocation in Hinv.
    destruct (Env.readUTF I opts' (snd field)) as [path|] eqn:Hpath;
      [|discriminate].
    cbn [bind] in Hinv.
    destruct (Env.readUTF I opts' (snd path)) as [version|] eqn:Hversion;
      [|discriminate].
    cbn [bind] in Hinv.
    destruct (Env.readUTF I opts' (snd version)) as [name|] eqn:Hname;
      [|discriminate].
    cbn [bind] in Hinv.
    destruct (Env.readUTF I opts' (snd name)) as [desc|] eqn:Hdesc;
      [|discriminate].
    cbn [bind] in Hinv.
    destruct (Request.classArrayOf rt (fst desc)) as [sigs|] eqn:Hsigs;
      [|discriminate].
    cbn [bind] in Hinv.
    destruct (Request.readArgs I opts' sigs [] (snd desc)) as [read|] eqn:Hread;
      [|discriminate].
    cbn [bind] in Hinv.
    destruct (Env.readObject I opts' (Some "HashMap") (snd read)) as [merged|]
      eqn:Hmerged; [|discriminate].
    cbn [bind] in Hinv.
    set (attachments := objectAssign
                          (assign (Env.PATH_KEY cst) (fst path)
                             (assign (Env.DUBBO_VERSION_KEY cst) (VStr s) []))
                          (fst merged)) in *.
    injection Hinv as <-.
    eexists. exists path, version, name, desc, sigs, read, merged.
    split; [reflexivity|].
    unfold Request.pathOf.
    cbn [Request.dMethodName Request.dArgs Request.dMethodArgSigs
         Request.dRequestProps Request.dServerSignature].
    do 7 (split; [assumption || reflexivity|]).
    do 4 (split; [reflexivity|]).
    split; [|split].
    + intros Hkey Hnodup. unfold attachments.
      rewrite (lookup_objectAssign _ _ _ Hnodup).
      destruct (lookup "path" (ownProps (fst merged))); [reflexivity|].
      rewrite Hkey. now rewrite lookup_assign_same.
    + destruct (truthy (fst version)); [|reflexivity].
      unfold Env.jsConcat. cbn [Env.jsToString]. now rewrite append_assoc.
    + intros p v Hp Hv. rewrite Hp, Hv. cbn [truthy].
      destruct (String.eqb v ""); cbn [negb]; [reflexivity|].
      unfold Env.jsConcat. cbn [Env.jsToString]. now rewrite append_assoc.
Qed.

Lemma decode_body_branches_witness :
  Request.packetType Example.versionedPacket = "request" /\
  exists d,
    Request.packetData Example.versionedPacket = Request.DInvocation d /\
    Request.dMethodName d = VStr "sayHello" /\
    Request.dArgs d = [VStr "world"] /\
    Request.dMethodArgSigs d = ["java.lang.String"] /\
    Request.pathOf d = VStr "com.example.Other" /\
    Request.dServerSignature d = VStr "com.example.Other:1.0.0".
Proof.
  destruct (decode_body_branches Example.runtime Example.constants
              (fun _ : Z => Some Example.versionedDriver) Example.requestHeader
              (Example.untyped "hessian2") Example.versionedPacket eq_refl)
    as (driver & st & Hdriver & Hskip & Hbody).
  injection Hdriver as <-. injection Hskip as <-.
  destruct Hbody as (Htype & field & Hfield & Hinvocation).
  injection Hfield as <-.
  destruct Hinvocation
    as (d & path & version & name & desc & sigs & read & merged & Hdata & Hpath
        & Hversion & Hname & Hdesc & Hsigs & Hread & Hmerged & Hmethod & Hargs
        & Htags & _ & Hown & _ & Hsignature).
  injection Hpath as <-. injection Hversion as <-. injection Hname as <-.
  injection Hdesc as <-. injection Hsigs as <-. injection Hread as <-.
  injection Hmerged as <-.
  assert (Hnodup : NoDup (map fst [("path", VStr "com.example.Other");
                                   ("timeout", VStr "3000")])).
  { repeat constructor; cbn [In]; intuition discriminate. }
  specialize (Hown eq_refl Hnodup).
  split; [exact Htype|]. exists d.
  split; [exact Hdata|]. split; [exact Hmethod|]. split; [exact Hargs|].
  split; [exact Htags|]. split; [exact Hown|].
  exact (Hsignature "com.example.Other" "1.0.0" Hown eq_refl).
Defined.

(** C7, as the claim states it, fails when the attachment mapping of the
    body has a [path] entry of its own: the path field read is
    [com.example.Greeter], the version read is [1.0.0], the mapping's entry
    is [com.example.Other], and the [serverSignature] returned is
    [com.example.Other:1.0.0]. *)
Lemma decode_signature_takes_mapping_path :
  Request.decode Example.runtime Example.constants
    (fun _ : Z => Some Example.versionedDriver) Example.requestHeader
    (Example.untyped "hessian2") = Ok Example.versionedPacket /\
  Request.readInvocation Example.runtime Example.constants
    (Example.scripted Example.versionedScript) (Example.untyped "hessian2")
    (VStr "2.5.3")
    [ VStr "com.example.Greeter"; VStr "1.0.0"; VStr "sayHello";
      VStr "Ljava/lang/String;"; VStr "world";
      VObject [("path", VStr "com.example.Other"); ("timeout", VStr "3000")] ]
  = Ok (Request.mkInvocationData (VStr "sayHello")
          (VStr "com.example.Other:1.0.0") [VStr "world"] ["java.lang.String"]
          [("dubbo", VStr "2.5.3"); ("path", VStr "com.example.Other");
           ("timeout", VStr "3000")]) /\
  VStr "com.example.Other:1.0.0" <> VStr "com.example.Greeter:1.0.0".
Proof. repeat split. discriminate. Qed.

(* --------------------------------------------------------------------- *)
(** ** [writeObject] under ['HashMap']: what of the attachments is written *)
(* --------------------------------------------------------------------- *)





(** C10, as the code has it.  In the protobuf-json driver, its earlier
    revision and the earlier revision of the protobuf driver, the object
    written under ['HashMap'] takes its [interface] field from the
    attachment's [path] (or the empty string), so the two fields are equal,
    and the attachment's own [interface] has no effect on what any of the
    three writes. *)
Theorem hashmap_interface_is_path (rt : Env.Runtime)
    (props : list (string * JsValue)) (own : JsValue) (classMap : JsValue)
    (opts : Env.Options) :
  (exists group version,
     ProtobufJson.hashMapAttachments (VObject props)
     = Ok (VObject [ ("path", jsOr (prop "path" props) (VStr ""));
                     ("interface", jsOr (prop "path" props) (VStr ""));
                     ("group", group); ("version", version) ]) /\
     ProtobufOld.hashMapAttachments (VObject props)
     = Ok (VObject [ ("path", jsOr (prop "path" props) (VStr ""));
                     ("interface", jsOr (prop "path" props) (VStr ""));
                     ("group", group); ("version", version) ])) /\
  (forall encoder,
     ProtobufJson.writeObject rt (VObject (assign "interface" own props))
       classMap "HashMap" opts encoder
     = ProtobufJson.writeObject rt (VObject props) classMap "HashMap" opts encoder) /\
  (forall st,
     ProtobufJsonOld.writeObject rt (VObject (assign "interface" own props))
       classMap "HashMap" opts st
     = ProtobufJsonOld.writeObject rt (VObject props) classMap "HashMap" opts st) /\
  (forall st,
     ProtobufOld.writeObject (VObject (assign "interface" own props))
       classMap "HashMap" opts st
     = ProtobufOld.writeObject (VObject props) classMap "HashMap" opts st).
Proof.
  split.
  - exists (jsOr (prop "group" props) (VStr "")),
           (jsOr (prop "version" props) (VStr "")).
    unfold ProtobufJson.hashMapAttachments, ProtobufOld.hashMapAttachments.
    rewrite !getProp_object. split; reflexivity.
  - assert (Hsame : forall k, k <> "interface" ->
              getProp (VObject (assign "interface" own props)) k
              = getProp (VObject props) k).
    { intros k Hk. rewrite !getProp_object. now rewrite prop_assign_other. }
    assert (H4 : ProtobufJson.hashMapAttachments
                   (VObject (assign "interface" own props))
                 = ProtobufJson.hashMapAttachments (VObject props)).
    { unfold ProtobufJson.hashMapAttachments.
      now rewrite !Hsame by discriminate. }
    assert (H4' : ProtobufOld.hashMapAttachments
                    (VObject (assign "interface" own props))
                  = ProtobufOld.hashMapAttachments (VObject props)).
    { unfold ProtobufOld.hashMapAttachments.
      now rewrite !Hsame by discriminate. }
    repeat split; intros st.
    + unfold ProtobufJson.writeObject. cbn [truthy].
      now rewrite H4, !Hsame by discriminate.
    + unfold ProtobufJsonOld.writeObject. cbn [truthy].
      now rewrite H4', !Hsame by discriminate.
    + unfold ProtobufOld.writeObject. cbn [truthy].
      now rewrite H4', !Hsame by discriminate.
Qed.

(** C10, as the claim states it, fails on the current protobuf driver: the
    [interface] written is the attachment's own, and differs from the
    [path] written. *)
Lemma protobuf_writes_own_interface :
  Protobuf.hashMapAttachments Example.runtime
    (VObject [("path", VStr "p"); ("interface", VStr "i")])
  = Ok (VObject [("path", VStr "p"); ("interface", VStr "i")]) /\
  Protobuf.writeObject Example.runtime
    (VObject [("path", VStr "p"); ("interface", VStr "i")]) VUndefined "HashMap"
    (Example.typed (Example.rootOf Example.entryList))
    (Protobuf.mkSession Bytes.allocate Writer.create)
  = Ok (Protobuf.mkSession Bytes.allocate
          (Writer.mkWriter 19 (18%Z :: Bytes.octets "path=p;interface=i"))).
Proof. split; reflexivity. Qed.

(* --------------------------------------------------------------------- *)
(** ** [readObject]: direct decode and length-delimited decode *)
(* --------------------------------------------------------------------- *)

(** C9, as the code has it.  A [readObject] that has its octets and a
    resolved message type, be it the type of the tag or, without a tag, the
    response type of the call in [options.channel]:
    - in the current protobuf driver, and in the reply read of its earlier
      revision, the direct decode comes first, and when it succeeds its
      value is the result, whatever the length-delimited decoder of the type
      would give;
    - the typed read of the earlier revision of the protobuf driver, and
      both reads of the earlier protobuf-json driver, decode length-delimited
      only, behind one octet that holds the length modulo 256; the direct
      decoder has no part in their result. *)
Theorem readObject_direct_first (rt : Env.Runtime) (opts : Env.Options)
    (root : Env.Root) (decoder decoder' : Env.Reader) (buf : list Z) :
  Env.proto opts = Some root ->
  Env.Reader_bytes rt decoder = Ok (buf, decoder') ->
  (forall type Msg data,
     Env.tagged (Some type) = true ->
     Env.findType root (VStr (Protobuf.mapped type)) = Ok Msg ->
     Protobuf.unwrap root (Protobuf.mapped type) Msg (Env.msgDecode Msg buf)
       = Ok data ->
     Protobuf.readObject rt opts (Some type) decoder = Ok (data, decoder')) /\
  (forall type ch Msg message,
     Env.tagged type = false ->
     Env.channel opts = Some ch ->
     Env.responseType root (jsOr (Env.service ch) (Env.serverSignature ch))
       (Env.reqMethodName ch) = Ok (Some Msg) ->
     Env.msgDecode Msg buf = Ok message ->
     Protobuf.readObject rt opts type decoder
       = Ok (Env.msgToObject Msg message, decoder') /\
     ProtobufOld.readObject rt opts type decoder
       = Ok (Env.msgToJSON Msg message, decoder')) /\
  (forall type Msg,
     Env.tagged (Some type) = true ->
     Env.findType root (VStr type) = Ok Msg ->
     ProtobufOld.readObject rt opts (Some type) decoder =
       (message <- Env.msgDecodeDelimited Msg
                     (Bytes.toUint8 (Z.of_nat (List.length buf)) :: buf) ;;
        data <- getProp (Env.msgToJSON Msg message) "value" ;;
        Ok (data, decoder')) /\
     ProtobufJsonOld.readObject rt opts (Some type) decoder =
       (message <- Env.msgDecodeDelimited Msg
                     (Bytes.toUint8 (Z.of_nat (List.length buf)) :: buf) ;;
        data <- getProp (Env.msgToJSON Msg message)
                  (if String.eqb type "HashMap" then "attachments" else "value") ;;
        Ok (data, decoder'))) /\
  (forall type ch Msg,
     Env.tagged type = false ->
     Env.channel opts = Some ch ->
     Env.responseType root (jsOr (Env.service ch) (Env.serverSignature ch))
       (Env.reqMethodName ch) = Ok (Some Msg) ->
     ProtobufJsonOld.readObject rt opts type decoder =
       (message <- Env.msgDecodeDelimited Msg
                     (Bytes.toUint8 (Z.of_nat (List.length buf)) :: buf) ;;
        Ok (Env.msgToJSON Msg message, decoder'))).
Proof.
  intros Hproto Hbytes.
  assert (Hreply : forall type ch, Env.tagged type = false ->
            Env.channel opts = Some ch ->
            Protobuf.readObject rt opts type decoder
              = Protobuf.readReply rt root ch decoder /\
            ProtobufOld.readObject rt opts type decoder
              = ProtobufOld.readReply rt root ch decoder).
  { intros type ch Htag Hch.
    unfold Protobuf.readObject, ProtobufOld.readObject. rewrite Hproto, Hch.
    destruct type as [t|]; [rewrite Htag|]; split; reflexivity. }
  split; [|split; [|split]].
  - intros type Msg data Htag HMsg Hdirect. unfold Protobuf.readObject.
    rewrite Hproto, Htag, HMsg. cbn [bind]. rewrite Hbytes. cbn [bind fst snd].
    unfold Protobuf.decodeWithFallback. rewrite Hdirect. reflexivity.
  - intros type ch Msg message Htag Hch Hresponse Hdirect.
    destruct (Hreply type ch Htag Hch) as [-> ->].
    unfold Protobuf.readReply, ProtobufOld.readReply.
    rewrite Hresponse. cbn [bind]. rewrite Hbytes. cbn [bind fst snd].
    now rewrite Hdirect.
  - intros type Msg Htag HMsg.
    unfold ProtobufOld.readObject, ProtobufJsonOld.readObject.
    rewrite Hproto, Htag, HMsg. cbn [bind]. rewrite Hbytes. split; reflexivity.
  - intros type ch Msg Htag Hch Hresponse. unfold ProtobufJsonOld.readObject.
    rewrite Hproto, Hch, Hresponse.
    destruct type as [t|]; [rewrite Htag|]; cbn [bind]; rewrite Hbytes;
      reflexivity.
Qed.

Lemma readObject_direct_first_witness :
  Protobuf.readObject Example.runtime (Example.replyOptions Example.stringValue)
    (Some "java.lang.String") (Env.mkReader [3; 10; 1; 72]%Z 0)
  = Ok (VStr "H", Env.mkReader [3; 10; 1; 72]%Z 4) /\
  Protobuf.readObject Example.runtime (Example.replyOptions Example.stringValue)
    None (Env.mkReader [3; 10; 1; 72]%Z 0)
  = Ok (VObject [("value", VStr "H")], Env.mkReader [3; 10; 1; 72]%Z 4) /\
  ProtobufOld.readObject Example.runtime (Example.replyOptions Example.stringValue)
    None (Env.mkReader [3; 10; 1; 72]%Z 0)
  = Ok (VObject [("value", VStr "H")], Env.mkReader [3; 10; 1; 72]%Z 4) /\
  ProtobufOld.readObject Example.runtime (Example.replyOptions Example.stringValue)
    (Some "StringValue") (Env.mkReader [3; 10; 1; 72]%Z 0)
  = Ok (VStr "H", Env.mkReader [3; 10; 1; 72]%Z 4) /\
  ProtobufJsonOld.readObject Example.runtime
    (Example.replyOptions Example.stringValue)
    (Some "StringValue") (Env.mkReader [3; 10; 1; 72]%Z 0)
  = Ok (VStr "H", Env.mkReader [3; 10; 1; 72]%Z 4) /\
  ProtobufJsonOld.readObject Example.runtime
    (Example.replyOptions Example.stringValue)
    None (Env.mkReader [3; 10; 1; 72]%Z 0)
  = Ok (VObject [("value", VStr "H")], Env.mkReader [3; 10; 1; 72]%Z 4).
Proof.
  destruct (readObject_direct_first Example.runtime
              (Example.replyOptions Example.stringValue)
              (Example.replyRoot Example.stringValue)
              (Env.mkReader [3; 10; 1; 72]%Z 0) (Env.mkReader [3; 10; 1; 72]%Z 4)
              [10; 1; 72]%Z eq_refl eq_refl)
    as (Htyped & Hreply & Hold & Hjson).
  split; [|split; [|split; [|split; [|split]]]].
  - apply (Htyped "java.lang.String" Example.stringValue (VStr "H"));
      reflexivity.
  - apply (Hreply None Example.greeterChannel Example.stringValue
             (VObject [("value", VStr "H")])); reflexivity.
  - apply (Hreply None Example.greeterChannel Example.stringValue
             (VObject [("value", VStr "H")])); reflexivity.
  - rewrite (proj1 (Hold "StringValue" Example.stringValue eq_refl eq_refl)).
    reflexivity.
  - rewrite (proj2 (Hold "StringValue" Example.stringValue eq_refl eq_refl)).
    reflexivity.
  - rewrite (Hjson None Example.greeterChannel Example.stringValue
               eq_refl eq_refl eq_refl).
    reflexivity.
Defined.

(** C9, as the claim states it, fails on the earlier revision of the
    protobuf driver and on the earlier protobuf-json driver.  For a
    [StringValue] of 134 letters, 137 octets on the wire, the direct decode
    gives the text and the current driver returns it.  The earlier typed
    reads decode length-delimited at once, behind the single octet 137: the
    varint that starts there takes the message's first octet for its second
    group, the tag read next is of wire type 6, and the read throws. *)
Lemma protobuf_old_readObject_delimited_only :
  Example.longMessage = ([10; 134; 1] ++ repeat 97 134)%Z%list /\
  Example.longBody = ([137; 1] ++ Example.longMessage)%Z%list /\
  Env.msgDecode Example.stringValue Example.longMessage
    = Ok (VObject [("value", VStr (Example.letters 134))]) /\
  Protobuf.readObject Example.runtime
    (Example.typed (Example.rootOf Example.stringValue))
    (Some "StringValue") (Env.mkReader Example.longBody 0)
  = Ok (VStr (Example.letters 134), Env.mkReader Example.longBody 139) /\
  ProtobufOld.readObject Example.runtime
    (Example.typed (Example.rootOf Example.stringValue))
    (Some "StringValue") (Env.mkReader Example.longBody 0)
  = Throw (Error "invalid wire type 6 at offset 4") /\
  ProtobufJsonOld.readObject Example.runtime
    (Example.typed (Example.rootOf Example.stringValue))
    (Some "StringValue") (Env.mkReader Example.longBody 0)
  = Throw (Error "invalid wire type 6 at offset 4").
Proof. repeat split; vm_compute; reflexivity. Qed.

(** X30. What the handler of a failed direct decode comes to in the current
    protobuf driver and in the reply read of its earlier revision: it calls
    [utils.int2hex] before anything else, lib/utils.js has no such function,
    and the read throws a TypeError whatever the length-delimited decoder of
    the type would give. *)
Theorem readObject_handler_throws (rt : Env.Runtime) (opts : Env.Options)
    (root : Env.Root) (decoder decoder' : Env.Reader) (buf : list Z) :
  Env.proto opts = Some root ->
  Env.Reader_bytes rt decoder = Ok (buf, decoder') ->
  (forall type Msg e,
     Env.tagged (Some type) = true ->
     Env.findType root (VStr (Protobuf.mapped type)) = Ok Msg ->
     Protobuf.unwrap root (Protobuf.mapped type) Msg (Env.msgDecode Msg buf)
       = Throw e ->
     Protobuf.readObject rt opts (Some type) decoder = Throw TypeError) /\
  (forall type ch Msg e,
     Env.tagged type = false ->
     Env.channel opts = Some ch ->
     Env.responseType root (jsOr (Env.service ch) (Env.serverSignature ch))
       (Env.reqMethodName ch) = Ok (Some Msg) ->
     Env.msgDecode Msg buf = Throw e ->
     Protobuf.readObject rt opts type decoder = Throw TypeError /\
     ProtobufOld.readObject rt opts type decoder = Throw TypeError).
Proof.
  intros Hproto Hbytes. split.
  - intros type Msg e Htag HMsg Hdirect. unfold Protobuf.readObject.
    rewrite Hproto, Htag, HMsg. cbn [bind]. rewrite Hbytes. cbn [bind fst snd].
    unfold Protobuf.decodeWithFallback. rewrite Hdirect. reflexivity.
  - intros type ch Msg e Htag Hch Hresponse Hdirect.
    unfold Protobuf.readObject, ProtobufOld.readObject. rewrite Hproto, Hch.
    assert (Hnew : Protobuf.readReply rt root ch decoder = Throw TypeError).
    { unfold Protobuf.readReply. rewrite Hresponse. cbn [bind].
      rewrite Hbytes. cbn [bind fst snd]. now rewrite Hdirect. }
    assert (Hold : ProtobufOld.readReply rt root ch decoder = Throw TypeError).
    { unfold ProtobufOld.readReply. rewrite Hresponse. cbn [bind].
      rewrite Hbytes. cbn [bind fst snd]. now rewrite Hdirect. }
    destruct type as [t|]; [rewrite Htag|]; split; assumption.
Qed.

Lemma readObject_handler_throws_witness :
  Env.msgDecode Example.stringValue [10; 5; 72]%Z = Throw RangeError /\
  Protobuf.readObject Example.runtime (Example.replyOptions Example.stringValue)
    (Some "StringValue") (Env.mkReader [3; 10; 5; 72]%Z 0) = Throw TypeError /\
  Protobuf.readObject Example.runtime (Example.replyOptions Example.stringValue)
    None (Env.mkReader [3; 10; 5; 72]%Z 0) = Throw TypeError /\
  ProtobufOld.readObject Example.runtime (Example.replyOptions Example.stringValue)
    None (Env.mkReader [3; 10; 5; 72]%Z 0) = Throw TypeError.
Proof.
  destruct (readObject_handler_throws Example.runtime
              (Example.replyOptions Example.stringValue)
              (Example.replyRoot Example.stringValue)
              (Env.mkReader [3; 10; 5; 72]%Z 0) (Env.mkReader [3; 10; 5; 72]%Z 4)
              [10; 5; 72]%Z eq_refl eq_refl)
    as (Htyped & Hreply).
  split; [reflexivity|]. split.
  - apply (Htyped "StringValue" Example.stringValue RangeError); reflexivity.
  - apply (Hreply None Example.greeterChannel Example.stringValue RangeError);
      reflexivity.
Defined.

Lemma encoded_magic_and_length_witness :
  nth 0 [218; 187; 245; 0; 0; 0; 0; 0; 0; 0; 0; 1; 0; 0; 0; 17; 72]%Z 0%Z = 218%Z /\
  nth 1 [218; 187; 245; 0; 0; 0; 0; 0; 0; 0; 0; 1; 0; 0; 0; 17; 72]%Z 0%Z = 187%Z /\
  exists st,
    Request.encodeBody Example.constants
      (ProtobufJson.output Example.runtime Example.constants Bytes.allocate)
      (Request.mkRequest 1 true true (Request.PValue VNull))
      (Example.untyped "protobuf-json")
      (Env.onBytes (ProtobufJson.output Example.runtime Example.constants Bytes.allocate)
         (Request.putHeader
            (Env.contentTypeId
               (ProtobufJson.output Example.runtime Example.constants Bytes.allocate))
            (Request.mkRequest 1 true true (Request.PValue VNull)))
         (Env.serialize
            (ProtobufJson.output Example.runtime Example.constants Bytes.allocate))) = Ok st /\
    Bytes.readInt32BE 12
      [218; 187; 245; 0; 0; 0; 0; 0; 0; 0; 0; 1; 0; 0; 0; 17; 72]%Z
    = Ok (Bytes.toInt32
            (Request.bodyLen Example.constants
               (ProtobufJson.output Example.runtime Example.constants Bytes.allocate)
               (Example.untyped "protobuf-json") st)).
Proof.
  apply (encoded_magic_and_length Example.constants
           (ProtobufJson.output Example.runtime Example.constants Bytes.allocate)
           (Request.mkRequest 1 true true (Request.PValue VNull))
           (Example.untyped "protobuf-json")).
  - apply ProtobufJson_kept.
  - reflexivity.
Defined.

Lemma desc2classLoop_enough_witness :
  desc2classLoop 7 "[IJ" [] = desc2classLoop 3 "[IJ" [].
Proof.
  apply (desc2classLoop_enough 7 3 "[IJ" []); cbn; lia.
Defined.

(* --------------------------------------------------------------------- *)
(** ** lib/serialize/index.js: the two tables and the name of an id *)
(* --------------------------------------------------------------------- *)

Section RegistryNames.

Lemma NoDup_four (a b c d : Z) :
  NoDup [a; b; c; d] ->
  a <> b /\ a <> c /\ a <> d /\ b <> c /\ b <> d /\ c <> d.
Proof.
  intros H.
  inversion H as [|? ? Ha H1]; subst. inversion H1 as [|? ? Hb H2]; subst.
  inversion H2 as [|? ? Hc _]; subst. cbn [In] in *. intuition congruence.
Qed.

End RegistryNames.

(** X12. The name [getSerializationNameById] gives an id and the module
    [getSerializationById] gives it agree on the three registered ids:
    with four distinct ids, the name of a registered id resolves, through
    [getSerializationByName], to the module the id resolves to.  They
    disagree everywhere else: the protostuff id is named ["protostuff"],
    which no table entry carries, and every other unregistered id is named
    ["hessian2"], which resolves to the hessian module although the id
    itself resolves to nothing. *)
Theorem registry_name_of_id (cst : Env.Constants)
    (hessian protobufJson protobuf : Env.Driver) (id : Z) :
  NoDup [ Env.HESSIAN2_SERIALIZATION_ID cst; Env.PROTOSTUFF_SERIALIZATION_ID cst;
          Env.PROTOBUF_JSON_SERIALIZATION_ID cst;
          Env.PROTOBUF_SERIALIZATION_ID cst ] ->
  match Serialize.getSerializationById cst hessian protobufJson protobuf id with
  | Some driver =>
      Serialize.getSerializationByName hessian protobufJson protobuf
        (Serialize.getSerializationNameById cst id) = Some driver
  | None =>
      Serialize.getSerializationByName hessian protobufJson protobuf
        (Serialize.getSerializationNameById cst id)
      = if Z.eqb id (Env.PROTOSTUFF_SERIALIZATION_ID cst) then None
        else Some hessian
  end.
Proof.
  intros Hids. apply NoDup_four in Hids.
  destruct Hids as (Hab & Hac & Had & Hbc & Hbd & Hcd).
  unfold Serialize.getSerializationById, Serialize.idToSerializations,
    Serialize.getSerializationNameById, Serialize.getSerializationByName,
    Serialize.nameToSerializations.
  cbn [Serialize.property].
  destruct (Z.eqb_spec id (Env.PROTOBUF_SERIALIZATION_ID cst)) as [Epb|Npb];
    destruct (Z.eqb_spec id (Env.PROTOBUF_JSON_SERIALIZATION_ID cst)) as [Epj|Npj];
    destruct (Z.eqb_spec id (Env.HESSIAN2_SERIALIZATION_ID cst)) as [Eh|Nh];
    destruct (Z.eqb_spec id (Env.PROTOSTUFF_SERIALIZATION_ID cst)) as [Eps|Nps];
    try congruence; reflexivity.
Qed.

Lemma registry_name_of_id_witness :
  Serialize.getSerializationByName
    (ProtobufOld.driver Example.runtime Example.constants)
    (ProtobufJson.driver Example.runtime Example.constants Bytes.allocate)
    (Protobuf.driver Example.runtime Example.constants)
    (Serialize.getSerializationNameById Example.constants 21)
  = Some (ProtobufJson.driver Example.runtime Example.constants Bytes.allocate).
Proof.
  apply (registry_name_of_id Example.constants
           (ProtobufOld.driver Example.runtime Example.constants)
           (ProtobufJson.driver Example.runtime Example.constants Bytes.allocate)
           (Protobuf.driver Example.runtime Example.constants) 21).
  cbn. repeat constructor; cbn [In]; intuition discriminate.
Defined.

(* --------------------------------------------------------------------- *)
(** ** lib/utils.js: the id counter and [new Request()] *)
(* --------------------------------------------------------------------- *)

Section Counter.

Import Request RequestClass.

Local Open Scope Z_scope.

Lemma newId_below (counter : Z) :
  counter < UtilsRest.MAX_SAFE_INTEGER -> UtilsRest.newId counter = counter + 1.
Proof.
  intros H. unfold UtilsRest.newId.
  destruct (Z.ltb_spec counter UtilsRest.MAX_SAFE_INTEGER); [reflexivity | lia].
Qed.

Lemma constructMany_ids (n : nat) :
  forall counter,
    counter + Z.of_nat n <= UtilsRest.MAX_SAFE_INTEGER ->
    map id (fst (constructMany n counter))
    = map (fun k => counter + Z.of_nat k) (seq 1 n) /\
    snd (constructMany n counter) = counter + Z.of_nat n.
Proof.
  induction n as [|n IH]; intros counter Hroom.
  - cbn. split; [reflexivity | lia].
  - cbn [constructMany construct].
    rewrite newId_below by lia.
    destruct (constructMany n (counter + 1)) as [reqs final] eqn:Hrest.
    destruct (IH (counter + 1) ltac:(lia)) as [Hids Hfinal].
    rewrite Hrest in Hids, Hfinal. cbn [fst snd] in *.
    split; [|lia].
    cbn [map id seq]. f_equal.
    rewrite Hids, <- (seq_shift n 1), map_map.
    apply map_ext. intros k. lia.
Qed.

Lemma NoDup_map_injective {A B : Type} (f : A -> B) (l : list A) :
  (forall a b, f a = f b -> a = b) -> NoDup l -> NoDup (map f l).
Proof.
  intros Hinj Hl. induction Hl as [|a l Hnotin Hl IH]; cbn [map]; constructor.
  - intros Hin. apply in_map_iff in Hin. destruct Hin as (b & Hb & Hin).
    apply Hinj in Hb. now subst b.
  - exact IH.
Qed.

End Counter.

(** X7. Requests constructed without an id number themselves from the module
    counter: [n] constructions in a row, started with the counter at
    [counter], carry the ids [counter + 1, ..., counter + n], hence pairwise
    distinct ones, as long as the counter stays within [2^53 - 1]; each is a
    two-way request that is no event.  At [2^53 - 1] the counter wraps and
    the next request has id [0]. *)
Theorem construct_numbers_requests (n : nat) (counter : Z) :
  (counter + Z.of_nat n <= UtilsRest.MAX_SAFE_INTEGER)%Z ->
  map Request.id (fst (RequestClass.constructMany n counter))
  = map (fun k => (counter + Z.of_nat k)%Z) (seq 1 n) /\
  NoDup (map Request.id (fst (RequestClass.constructMany n counter))) /\
  snd (RequestClass.constructMany n counter) = (counter + Z.of_nat n)%Z /\
  Request.id (fst (RequestClass.construct None UtilsRest.MAX_SAFE_INTEGER)) = 0%Z.
Proof.
  intros Hroom. destruct (constructMany_ids n counter Hroom) as [Hids Hfinal].
  repeat split; try assumption.
  rewrite Hids. apply NoDup_map_injective; [|apply seq_NoDup].
  intros a b Hab. lia.
Qed.

Lemma construct_numbers_requests_witness :
  map Request.id (fst (RequestClass.constructMany 3 0))
  = map (fun k => (0 + Z.of_nat k)%Z) (seq 1 3) /\
  NoDup (map Request.id (fst (RequestClass.constructMany 3 0))) /\
  snd (RequestClass.constructMany 3 0) = (0 + Z.of_nat 3)%Z /\
  Request.id (fst (RequestClass.construct None UtilsRest.MAX_SAFE_INTEGER)) = 0%Z.
Proof.
  apply (construct_numbers_requests 3 0). vm_compute. discriminate.
Defined.

(* --------------------------------------------------------------------- *)
(** ** lib/utils.js: [concatBuffer] *)
(* --------------------------------------------------------------------- *)

Section Concat.

Import Bytes.

Lemma copy_whole_at (source target : Buffer) (at_ : nat) :
  at_ + List.length source <= List.length target ->
  UtilsRest.copy source target at_ 0 (List.length source)
  = (firstn at_ target ++ source ++ skipn (at_ + List.length source) target)%list.
Proof.
  intros Hfits. unfold UtilsRest.copy.
  rewrite Nat.sub_0_r. cbn [skipn]. rewrite firstn_all.
  rewrite (firstn_all2 (n := List.length target - at_) source) by lia.
  reflexivity.
Qed.

End Concat.

(** X8. [concatBuffer(buf_1, buf_2)] is the octets of [buf_1] followed by those
    of [buf_2], for buffers of any length, empty ones included: the two
    copies fill the fresh buffer exactly. *)
Theorem concatBuffer_app (buf_1 buf_2 : Bytes.Buffer) :
  UtilsRest.concatBuffer buf_1 buf_2 = (buf_1 ++ buf_2)%list.
Proof.
  unfold UtilsRest.concatBuffer, UtilsRest.alloc.
  assert (Hfirst :
    UtilsRest.copy buf_1 (repeat 0%Z (List.length buf_1 + List.length buf_2))
      0 0 (List.length buf_1)
    = (buf_1 ++ repeat 0%Z (List.length buf_2))%list).
  { rewrite copy_whole_at by (rewrite repeat_length; lia).
    cbn [firstn Nat.add app]. f_equal.
    rewrite repeat_app, skipn_app, repeat_length, Nat.sub_diag.
    rewrite skipn_all2 by (rewrite repeat_length; lia). reflexivity. }
  rewrite Hfirst.
  rewrite copy_whole_at by (rewrite length_app, repeat_length; lia).
  rewrite firstn_app, firstn_all, Nat.sub_diag. cbn [firstn].
  rewrite skipn_all2 by (rewrite length_app, repeat_length; lia).
  now rewrite !app_nil_r.
Qed.

(* --------------------------------------------------------------------- *)
(** ** lib/utils.js: class names through a descriptor and back *)
(* --------------------------------------------------------------------- *)

Section ClassNames.

Lemma replaceAll_back (s : string) :
  hasChar "/" s = false -> replaceAll "/" "." (replaceAll "." "/" s) = s.
Proof.
  induction s as [|c s IH]; cbn [replaceAll hasChar]; [reflexivity|].
  intros H. apply orb_false_iff in H. destruct H as [Hc Hs].
  rewrite (IH Hs). f_equal.
  destruct (Ascii.eqb_spec c ".") as [->|Hdot]; [reflexivity|].
  now rewrite Hc.
Qed.

Lemma replaceAll_app (from to : ascii) (s t : string) :
  replaceAll from to (s ++ t) = replaceAll from to s ++ replaceAll from to t.
Proof. induction s as [|c s IH]; cbn [append replaceAll]; now rewrite ?IH. Qed.

(** A class name that meets the end of the text before a [';']. *)
Lemma scanClass_open (x : string) :
  hasChar ";" x = false -> scanClass x = (x ++ "undefined", "").
Proof.
  induction x as [|a x IH]; cbn [scanClass hasChar append]; [reflexivity|].
  intros H. apply orb_false_iff in H. destruct H as [Ha Hx].
  now rewrite Ha, (IH Hx).
Qed.

Lemma desc2classArray_single (d t : string) :
  single d t -> desc2classArray d = Ok [t].
Proof.
  intros Hone. pose proof Hone as [Hne _]. unfold desc2classArray.
  destruct (String.eqb_spec d "") as [->|_]; [contradiction|].
  rewrite <- (append_nil_r d) at 2.
  rewrite (desc2classLoop_single d t "" _ [] Hone)
    by (rewrite append_nil_r; lia).
  apply desc2classLoop_nil.
Qed.

Lemma array_name_split (cls : string) :
  cls = (if isArray cls then "[" else "") ++ getComponentType cls.
Proof.
  destruct cls as [|c rest]; [reflexivity|].
  destruct c as [[] [] [] [] [] [] [] []]; reflexivity.
Qed.

Lemma primitiveMap_name (name code : string) :
  primitiveMap name = Some code -> hasChar "/" name = false.
Proof.
  unfold primitiveMap.
  repeat match goal with
  | |- context [String.eqb name ?k] =>
      destruct (String.eqb_spec name k) as [->|_]; [reflexivity|]
  end. discriminate.
Qed.

(** The descriptor written for a class tag, and what it reads back as. *)
Lemma tagged_descriptor_reads_back (cls : string) :
  plainClassName cls = true ->
  hasChar "/" cls = false ->
  exists desc,
    (let '(ret, component) := stripArrays "" cls in
     match primitiveMap component with
     | Some code => Ok (ret ++ code)
     | None =>
         match objectPrototypeText component with
         | Some text => Ok (ret ++ text)
         | None => Ok (ret ++ "L" ++ replaceAll "." "/" component ++ ";")
         end
     end) = Ok desc /\
    desc2classArray desc = Ok [cls].
Proof.
  intros Hplain Hslash. unfold plainClassName in Hplain.
  apply andb_true_iff in Hplain. destruct Hplain as [Hplain Hproto].
  apply andb_true_iff in Hplain. destruct Hplain as [Hcomp Hsemi].
  apply negb_true_iff in Hcomp, Hsemi.
  assert (Hstrip : stripArrays "" cls
                   = (if isArray cls then "[" else "", getComponentType cls)).
  { rewrite stripArrays_unfold. destruct (isArray cls) eqn:Harr.
    - now rewrite (stripArrays_plain _ _ Hcomp).
    - destruct cls as [|c rest]; [reflexivity|].
      destruct c as [[] [] [] [] [] [] [] []]; try reflexivity. discriminate. }
  rewrite Hstrip. clear Hstrip.
  assert (Hcompslash : hasChar "/" (getComponentType cls) = false).
  { destruct cls as [|c rest]; [reflexivity|].
    destruct c as [[] [] [] [] [] [] [] []]; exact Hslash. }
  replace (Ok [cls])
    with (Ok [(if isArray cls then "[" else "") ++ getComponentType cls])
    by (now rewrite <- array_name_split).
  set (component := getComponentType cls) in *.
  destruct (primitiveMap component) as [code|] eqn:Hprim.
  - destruct (primitiveMap_single _ _ Hprim) as [Hone Harray].
    eexists. split; [reflexivity|].
    destruct (isArray cls); apply desc2classArray_single; assumption.
  - destruct (objectPrototypeText component); [discriminate|].
    assert (Hsemi' : hasChar ";" (replaceAll "." "/" component) = false)
      by (apply hasChar_replaceAll; [discriminate | exact Hsemi]).
    eexists. split; [reflexivity|].
    rewrite <- (replaceAll_back component Hcompslash) at 2.
    destruct (isArray cls); apply desc2classArray_single;
      [ apply (single_array_reference _ Hsemi')
      | apply (single_reference _ Hsemi') ].
Qed.

End ClassNames.

(** X3. A class tag survives the trip through its descriptor: for a value
    tagged with a class name ([$abstractClass] when truthy, [$class]
    otherwise) that has at most one leading ['['], no [';'] and no ['/'], and
    whose component is no member of Object.prototype, [desc2classArray] reads
    the signature [getJavaClassDesc] writes back as that one name, primitive
    names and one-dimensional arrays included. *)
Theorem class_name_round_trip (props : list (string * JsValue)) (cls : string) :
  has (VObject props) "$class" = true ->
  jsOr (prop "$abstractClass" props) (prop "$class" props) = VStr cls ->
  plainClassName cls = true ->
  hasChar "/" cls = false ->
  exists desc,
    getJavaClassDesc (VObject props) = Ok desc /\
    desc2classArray desc = Ok [cls].
Proof.
  intros Hhas Hcls Hplain Hslash.
  cbn [getJavaClassDesc]. rewrite Hhas. cbn [negb getProp].
  unfold prop in Hcls.
  destruct (lookup "$abstractClass" props) as [abstract|];
    destruct (lookup "$class" props) as [concrete|]; cbn [bind];
    rewrite Hcls; now apply tagged_descriptor_reads_back.
Qed.

Lemma class_name_round_trip_witness :
  exists desc,
    getJavaClassDesc
      (VObject [("$class", VStr "[com.example.User"); ("$", VArray [])]) = Ok desc /\
    desc2classArray desc = Ok ["[com.example.User"].
Proof.
  apply (class_name_round_trip
           [("$class", VStr "[com.example.User"); ("$", VArray [])]
           "[com.example.User"); reflexivity.
Defined.

(** X4. A reference descriptor that ends before its [';'] is not rejected: the
    scan runs one read past the end of the text, and [desc2classArray]
    returns one class name, the text with its ['/'] turned into ['.'] and
    the word [undefined] appended. *)
Theorem desc2classArray_unterminated (x : string) :
  hasChar ";" x = false ->
  desc2classArray ("L" ++ x) = Ok [replaceAll "/" "." x ++ "undefined"].
Proof.
  intros Hsemi. unfold desc2classArray.
  cbn [append String.eqb Ascii.eqb Bool.eqb String.length desc2classLoop
       desc2classStep].
  unfold classOfCode. cbn [Ascii.eqb Bool.eqb].
  rewrite (scanClass_open x Hsemi). cbn [bind fst snd app].
  rewrite replaceAll_app. apply desc2classLoop_nil.
Qed.

Lemma desc2classArray_unterminated_witness :
  desc2classArray ("L" ++ "java/lang/String")
  = Ok [replaceAll "/" "." "java/lang/String" ++ "undefined"].
Proof. apply (desc2classArray_unterminated "java/lang/String"). reflexivity. Defined.

(* --------------------------------------------------------------------- *)
(** ** lib/utils.js: [getJavaClassname] *)
(* --------------------------------------------------------------------- *)

(** X5. [getJavaClassname] returns a name exactly for the values without a
    truthy [$class]: every value that carries one, for which the function
    is documented to return the tag, makes it throw the engine's
    [ReferenceError], the identifier [has] being defined nowhere in the
    module. *)
Theorem getJavaClassname_tagged_throws (val : JsValue) :
  UtilsRest.getJavaClassname val = UtilsRest.HasIsNotDefined <->
  exists props, val = VObject props /\ truthy (prop "$class" props) = true.
Proof.
  split.
  - destruct val as [ | | b | n | s | ms | octets | items | message | props ];
      cbn [UtilsRest.getJavaClassname truthy]; try discriminate.
    + destruct n as [z| |]; cbn [truthy]; try discriminate.
      destruct (is_long (NInt z)), (is_int (NInt z)); discriminate.
    + destruct (truthy (prop "$class" props)) eqn:Htag; [|discriminate].
      intros _. now exists props.
  - intros (props & -> & Htag). cbn [UtilsRest.getJavaClassname].
    now rewrite Htag.
Qed.

(** X6. For a boolean, a string, a number other than NaN, a date, an array and
    an object without a [$class] property, the name [getJavaClassname]
    detects is the class the descriptor of the value reads back as: both
    paths of the library name these values alike.  ([null], NaN, buffers and
    errors are named differently by the two.) *)
Theorem getJavaClassname_matches_descriptor (val : JsValue) (name : string) :
  match val with
  | VUndefined | VNull | VNum NNaN | VBuffer _ | VError _ => False
  | _ => True
  end ->
  has val "$class" = false ->
  UtilsRest.getJavaClassname val = UtilsRest.Named name ->
  exists desc, getJavaClassDesc val = Ok desc /\ desc2classArray desc = Ok [name].
Proof.
  destruct val as [ | | b | n | s | ms | octets | items | message | props ];
    intros Hkind Hhas Hname; try contradiction;
    cbn [UtilsRest.getJavaClassname truthy] in Hname.
  - injection Hname as <-. now exists "Z".
  - destruct n as [z| |]; [| contradiction |].
    + cbn [getJavaClassDesc].
      destruct (is_long (NInt z)); [injection Hname as <-; now exists "J"|].
      destruct (is_int (NInt z)); injection Hname as <-;
        [now exists "I" | now exists "D"].
    + cbn in Hname. injection Hname as <-. now exists "D".
  - injection Hname as <-. now exists "Ljava/lang/String;".
  - injection Hname as <-. now exists "Ljava/util/Date;".
  - injection Hname as <-. now exists "Ljava/util/ArrayList;".
  - cbn [getJavaClassDesc]. rewrite Hhas. cbn [negb].
    destruct (truthy (prop "$class" props)); [discriminate|].
    injection Hname as <-. now exists "Ljava/util/HashMap;".
Qed.

Lemma getJavaClassname_matches_descriptor_witness :
  exists desc,
    getJavaClassDesc (VNum (NInt 4294967296)) = Ok desc /\
    desc2classArray desc = Ok ["long"].
Proof.
  apply (getJavaClassname_matches_descriptor (VNum (NInt 4294967296)) "long");
    [exact I | reflexivity | reflexivity].
Defined.

(* --------------------------------------------------------------------- *)
(** ** [decode]: what is read of a buffer without a registry *)
(* --------------------------------------------------------------------- *)

Section DecodeHeader.

Import Bytes Env Request.

Lemma readInt32BE_short (offset : nat) (buf : Buffer) :
  List.length buf < offset + 4 -> readInt32BE offset buf = Throw RangeError.
Proof.
  intros Hlen. unfold readInt32BE.
  assert (Hskip : List.length (skipn offset buf) < 4)
    by (rewrite length_skipn; lia).
  destruct (skipn offset buf) as [|b0 [|b1 [|b2 [|b3 rest]]]];
    cbn [List.length] in Hskip; try lia; reflexivity.
Qed.

(** The id of a header that carries the two words of [i]. *)
Lemma readPacketId_of_words (buf : Buffer) (i : Z) :
  12 <= List.length buf ->
  (forall k, k < 4 -> nth (4 + k) buf 0%Z = nth k (int32BE (Z.shiftr i 32)) 0%Z) ->
  (forall k, k < 4 -> nth (8 + k) buf 0%Z = nth k (int32BE i) 0%Z) ->
  (- 2 ^ 63 <= i < 2 ^ 63)%Z ->
  exists p, readPacketId buf = Ok p /\ Long.idValue p = i.
Proof.
  intros Hlen Hhi Hlo Hi. unfold readPacketId.
  rewrite !Bytes_readInt32BE_at by lia.
  pose proof (Hhi 0 ltac:(lia)) as E0. pose proof (Hhi 1 ltac:(lia)) as E1.
  pose proof (Hhi 2 ltac:(lia)) as E2. pose proof (Hhi 3 ltac:(lia)) as E3.
  pose proof (Hlo 0 ltac:(lia)) as F0. pose proof (Hlo 1 ltac:(lia)) as F1.
  pose proof (Hlo 2 ltac:(lia)) as F2. pose proof (Hlo 3 ltac:(lia)) as F3.
  cbn [Nat.add nth int32BE] in *.
  rewrite E0, E1, E2, E3, F0, F1, F2, F3, !int32BE_value. cbn [bind].
  eexists. split; [reflexivity|].
  rewrite idValue_handleLong. now apply long_of_words.
Qed.

Lemma readPacketId_total (buf : Buffer) :
  12 <= List.length buf -> exists p, readPacketId buf = Ok p.
Proof.
  intros Hlen. unfold readPacketId.
  rewrite !Bytes_readInt32BE_at by lia. cbn [bind]. now eexists.
Qed.

(** The fields [decode] takes from the flag octet [encode] wrote. *)
Lemma flagOf_fields (c : Z) (req : Request) :
  (0 <= c < 32)%Z ->
  serializationType (toUint8 (flagOf c req)) = c /\
  negb (Z.eqb (Z.land (toUint8 (flagOf c req)) FLAG_EVENT) 0) = isEvent req.
Proof.
  unfold serializationType, SERIALIZATION_MASK, flagOf. revert c.
  apply below_32. intros n Hn.
  destruct (isTwoWay req), (isEvent req);
    do 32 (destruct n as [|n]; [split; reflexivity|]); lia.
Qed.

Variable rt : Runtime.
Variable cst : Constants.

(** [decode] through the protobuf-json driver when the options carry no
    registry: nothing of the body is read. *)
Lemma decode_protobuf_json_no_registry (rt' : Runtime) (cst' : Constants)
    (previous : ByteBuffer) (byId : Z -> option Driver) (buf : Buffer)
    (opts : Options) (p : Long.PacketId) :
  readPacketId buf = Ok p ->
  byId (serializationType (flagByte buf))
    = Some (ProtobufJson.driver rt' cst' previous) ->
  proto opts = None ->
  decode rt cst byId buf opts
  = Ok (mkPacket p
          (if negb (Z.eqb (Z.land (flagByte buf) FLAG_EVENT) 0)
           then "heartbeat" else "request")
          (DValue VUndefined) "dubbo"
          (match (if Z.eqb (serializationType (flagByte buf)) 21
                  then Some "protobuf" else codecType opts) with
           | Some name => if String.eqb name "" then "hessian2" else name
           | None => "hessian2"
           end)
          (classMap opts)).
Proof.
  intros Hid Hdriver Hproto. unfold decode.
  rewrite Hid. cbn [bind]. rewrite Hdriver.
  cbn [input ProtobufJson.driver ProtobufJson.input inSkip deserialize bind].
  unfold readBody.
  cbn [readObject ProtobufJson.input ProtobufJson.driver input].
  unfold ProtobufJson.readObject.
  destruct (Z.eqb (serializationType (flagByte buf)) 21);
    cbn [proto classMap codecType]; rewrite Hproto; cbn [bind fst snd isString];
    destruct (negb (Z.eqb (Z.land (flagByte buf) FLAG_EVENT) 0)); reflexivity.
Qed.

(** The same through the binary driver, whose [skip] needs the sixteen
    octets to be there. *)
Lemma decode_protobuf_no_registry (rt' : Runtime) (cst' : Constants)
    (byId : Z -> option Driver) (buf : Buffer) (opts : Options)
    (p : Long.PacketId) :
  readPacketId buf = Ok p ->
  16 <= List.length buf ->
  byId (serializationType (flagByte buf)) = Some (Protobuf.driver rt' cst') ->
  proto opts = None ->
  decode rt cst byId buf opts
  = Ok (mkPacket p
          (if negb (Z.eqb (Z.land (flagByte buf) FLAG_EVENT) 0)
           then "heartbeat" else "request")
          (DValue VUndefined) "dubbo"
          (match (if Z.eqb (serializationType (flagByte buf)) 21
                  then Some "protobuf" else codecType opts) with
           | Some name => if String.eqb name "" then "hessian2" else name
           | None => "hessian2"
           end)
          (classMap opts)).
Proof.
  intros Hid Hlen Hdriver Hproto. unfold decode.
  rewrite Hid. cbn [bind]. rewrite Hdriver.
  cbn [input Protobuf.driver Protobuf.input inSkip deserialize].
  unfold Protobuf.skip. cbn [rbuf rpos Nat.add].
  destruct (Nat.ltb_spec (List.length buf) 16) as [Hshort|_]; [lia|].
  cbn [bind]. unfold readBody.
  cbn [readObject Protobuf.input Protobuf.driver input].
  unfold Protobuf.readObject.
  destruct (Z.eqb (serializationType (flagByte buf)) 21);
    cbn [proto classMap codecType]; rewrite Hproto; cbn [bind fst snd isString];
    destruct (negb (Z.eqb (Z.land (flagByte buf) FLAG_EVENT) 0)); reflexivity.
Qed.

End DecodeHeader.

(** X14. [decode] reads the packet id before anything else, and without a
    bounds check of its own: on a buffer of fewer than twelve octets the
    read at offset 8 runs past the end and [decode] throws Node's
    [RangeError], whatever the flag octet, the driver table and the options
    are. *)
Theorem decode_truncated_header (rt : Env.Runtime) (cst : Env.Constants)
    (byId : Z -> option Env.Driver) (buf : Bytes.Buffer) (opts : Env.Options) :
  List.length buf < 12 ->
  Request.decode rt cst byId buf opts = Throw RangeError.
Proof.
  intros Hlen. unfold Request.decode, Request.readPacketId.
  rewrite readInt32BE_short by lia. reflexivity.
Qed.

Lemma decode_truncated_header_witness :
  Request.decode Example.runtime Example.constants
    (Serialize.getSerializationById Example.constants Example.greeterDriver
       (ProtobufJson.driver Example.runtime Example.constants Bytes.allocate)
       (Protobuf.driver Example.runtime Example.constants))
    [218; 187; 213; 0; 0; 0; 0; 0; 0; 0; 1]%Z (Example.untyped "protobuf-json")
  = Throw RangeError.
Proof.
  apply (decode_truncated_header Example.runtime Example.constants).
  cbn. lia.
Defined.

(** X15. When the options carry no registry ([options.proto] is not set),
    [decode] through either driver of the sources reads the header only: for every
    buffer of sixteen octets or more whose flag octet selects the driver, it
    returns a packet with the id of the two words at offsets 4 and 8, the
    type given by bit 5 of the flag octet, and [undefined] as data.  The
    magic octets, the status octet, the length field and the body are not
    looked at. *)
Theorem decode_without_registry (rt rt' : Env.Runtime) (cst cst' : Env.Constants)
    (previous : Bytes.ByteBuffer) (byId : Z -> option Env.Driver)
    (driver : Env.Driver) (buf : Bytes.Buffer) (opts : Env.Options) :
  16 <= List.length buf ->
  byId (Request.serializationType (Request.flagByte buf)) = Some driver ->
  driver = ProtobufJson.driver rt' cst' previous \/
  driver = Protobuf.driver rt' cst' ->
  Env.proto opts = None ->
  exists pkt,
    Request.decode rt cst byId buf opts = Ok pkt /\
    Request.readPacketId buf = Ok (Request.packetId pkt) /\
    Request.packetType pkt
    = (if Z.testbit (Request.flagByte buf) 5 then "heartbeat" else "request") /\
    Request.packetData pkt = Request.DValue VUndefined.
Proof.
  intros Hlen Hdriver Hwhich Hproto.
  destruct (readPacketId_total buf ltac:(lia)) as [p Hid].
  rewrite <- event_test_is_bit_5.
  destruct Hwhich as [-> | ->]; eexists; (split; [|split; [|split]]).
  - apply (decode_protobuf_json_no_registry rt cst rt' cst' previous byId buf opts p);
      assumption.
  - exact Hid.
  - reflexivity.
  - reflexivity.
  - apply (decode_protobuf_no_registry rt cst rt' cst' byId buf opts p);
      assumption.
  - exact Hid.
  - reflexivity.
  - reflexivity.
Qed.

Lemma decode_without_registry_witness :
  exists pkt,
    Request.decode Example.runtime Example.constants
      (Serialize.getSerializationById Example.constants Example.greeterDriver
         (ProtobufJson.driver Example.runtime Example.constants Bytes.allocate)
         (Protobuf.driver Example.runtime Example.constants))
      [0; 0; 54; 9; 0; 0; 0; 0; 0; 0; 0; 7; 0; 0; 0; 0; 1; 2; 3]%Z
      (Example.untyped "protobuf") = Ok pkt /\
    Request.readPacketId
      [0; 0; 54; 9; 0; 0; 0; 0; 0; 0; 0; 7; 0; 0; 0; 0; 1; 2; 3]%Z
    = Ok (Request.packetId pkt) /\
    Request.packetType pkt
    = (if Z.testbit (Request.flagByte
          [0; 0; 54; 9; 0; 0; 0; 0; 0; 0; 0; 7; 0; 0; 0; 0; 1; 2; 3]%Z) 5
       then "heartbeat" else "request") /\
    Request.packetData pkt = Request.DValue VUndefined.
Proof.
  apply (decode_without_registry Example.runtime Example.runtime
           Example.constants Example.constants Bytes.allocate
           (Serialize.getSerializationById Example.constants Example.greeterDriver
              (ProtobufJson.driver Example.runtime Example.constants Bytes.allocate)
              (Protobuf.driver Example.runtime Example.constants))
           (Protobuf.driver Example.runtime Example.constants)).
  - cbn. lia.
  - reflexivity.
  - right. reflexivity.
  - reflexivity.
Defined.

(* --------------------------------------------------------------------- *)
(** ** [encode] then [decode] *)
(* --------------------------------------------------------------------- *)

Section RoundTrip.

Import Bytes Env Request.

Variable rt : Runtime.
Variable cst : Constants.
Variables hessian protobufJson protobuf : Driver.

Lemma getSerializationById_protobuf :
  Serialize.getSerializationById cst hessian protobufJson protobuf
    (PROTOBUF_SERIALIZATION_ID cst) = Some protobuf.
Proof.
  unfold Serialize.getSerializationById, Serialize.idToSerializations.
  cbn [Serialize.property]. now rewrite Z.eqb_refl.
Qed.

Lemma getSerializationById_protobuf_json :
  PROTOBUF_JSON_SERIALIZATION_ID cst <> PROTOBUF_SERIALIZATION_ID cst ->
  Serialize.getSerializationById cst hessian protobufJson protobuf
    (PROTOBUF_JSON_SERIALIZATION_ID cst) = Some protobufJson.
Proof.
  intros Hne. apply Z.eqb_neq in Hne.
  unfold Serialize.getSerializationById, Serialize.idToSerializations.
  cbn [Serialize.property]. now rewrite Hne, Z.eqb_refl.
Qed.

(** The header fields [decode] reads from a packet [encodeWith] returned. *)
Lemma encoded_header_read_back (D : OutputDriver) (req : Request)
    (opts : Options) (buf : Buffer) :
  HeaderKept D ->
  (0 <= contentTypeId D < 32)%Z ->
  (- 2 ^ 63 <= id req < 2 ^ 63)%Z ->
  encodeWith cst D req opts = Ok buf ->
  16 <= List.length buf /\
  (exists p, readPacketId buf = Ok p /\ Long.idValue p = id req) /\
  serializationType (flagByte buf) = contentTypeId D /\
  negb (Z.eqb (Z.land (flagByte buf) FLAG_EVENT) 0) = isEvent req.
Proof.
  intros kept Hc Hid Hencode.
  destruct (encodeWith_header cst D kept req opts buf Hencode)
    as (st & _ & Hlen & _ & _ & Hflag & Hhi & Hlo & _).
  unfold HEADER_LENGTH in Hlen. split; [exact Hlen|].
  split; [apply readPacketId_of_words; try assumption; lia|].
  unfold flagByte. rewrite Hflag. now apply flagOf_fields.
Qed.

End RoundTrip.

(** X17. A request encoded under the name ["protobuf-json"] or ["protobuf"] and
    decoded again, both through the tables of lib/serialize and with options
    that carry no registry for the reader: [decode] resolves the module that
    wrote the packet and returns the id of the request, for every signed
    64-bit id, and the type ['heartbeat'] for an event and ['request']
    otherwise.  The data is [undefined], and the codec is reported as
    ["protobuf"] whenever the id on the wire is 21, whichever module that id
    belongs to.  The two ids are distinct five-bit tags. *)
Theorem request_round_trip_without_registry (rt : Env.Runtime)
    (cst : Env.Constants) (hessian : Env.Driver) (previous : Bytes.ByteBuffer)
    (req : Request.Request) (opts : Env.Options) (name : string)
    (buf : Bytes.Buffer) :
  (0 <= Env.PROTOBUF_JSON_SERIALIZATION_ID cst < 32)%Z ->
  (0 <= Env.PROTOBUF_SERIALIZATION_ID cst < 32)%Z ->
  Env.PROTOBUF_JSON_SERIALIZATION_ID cst <> Env.PROTOBUF_SERIALIZATION_ID cst ->
  (- 2 ^ 63 <= Request.id req < 2 ^ 63)%Z ->
  Env.codecType opts = Some name ->
  name = "protobuf-json" \/ name = "protobuf" ->
  Env.proto opts = None ->
  Request.encode cst
    (Serialize.getSerializationByName hessian
       (ProtobufJson.driver rt cst previous) (Protobuf.driver rt cst))
    req opts = Ok buf ->
  exists pkt,
    Request.decode rt cst
      (Serialize.getSerializationById cst hessian
         (ProtobufJson.driver rt cst previous) (Protobuf.driver rt cst))
      buf opts = Ok pkt /\
    Long.idValue (Request.packetId pkt) = Request.id req /\
    Request.packetType pkt
    = (if Request.isEvent req then "heartbeat" else "request") /\
    Request.packetData pkt = Request.DValue VUndefined /\
    Request.packetCodecType pkt
    = (if Z.eqb (Request.serializationType (Request.flagByte buf)) 21
       then "protobuf" else name).
Proof.
  intros Hpj Hpb Hne Hid Hcodec Hname Hproto Hencode.
  unfold Request.encode in Hencode. rewrite Hcodec in Hencode.
  destruct Hname as [-> | ->].
  - cbn in Hencode.
    destruct (encoded_header_read_back cst _ req opts buf
                (ProtobufJson_kept rt cst previous) Hpj Hid Hencode)
      as (Hlen & (p & Hp & Hvalue) & Htype & Hevent).
    cbn [Env.contentTypeId ProtobufJson.output] in Htype.
    eexists. split.
    + apply (decode_protobuf_json_no_registry rt cst rt cst previous _ buf opts p);
        [exact Hp | | exact Hproto].
      rewrite Htype. now apply getSerializationById_protobuf_json.
    + cbn [Request.packetId Request.packetType Request.packetData
           Request.packetCodecType].
      rewrite Hevent, Hcodec. repeat split; try assumption.
      now destruct (Z.eqb _ 21).
  - cbn in Hencode.
    destruct (encoded_header_read_back cst _ req opts buf
                (Protobuf_kept rt cst) Hpb Hid Hencode)
      as (Hlen & (p & Hp & Hvalue) & Htype & Hevent).
    cbn [Env.contentTypeId Protobuf.output] in Htype.
    eexists. split.
    + apply (decode_protobuf_no_registry rt cst rt cst _ buf opts p);
        [exact Hp | exact Hlen | | exact Hproto].
      rewrite Htype. apply getSerializationById_protobuf.
    + cbn [Request.packetId Request.packetType Request.packetData
           Request.packetCodecType].
      rewrite Hevent, Hcodec. repeat split; try assumption.
      now destruct (Z.eqb _ 21).
Qed.

Lemma request_round_trip_without_registry_witness :
  exists pkt,
    Request.decode Example.runtime Example.constants
      (Serialize.getSerializationById Example.constants Example.greeterDriver
         (ProtobufJson.driver Example.runtime Example.constants Bytes.allocate)
         (Protobuf.driver Example.runtime Example.constants))
      [218; 187; 245; 0; 0; 0; 0; 0; 0; 0; 0; 1; 0; 0; 0; 17; 72]%Z
      (Example.untyped "protobuf-json") = Ok pkt /\
    Long.idValue (Request.packetId pkt) = 1%Z /\
    Request.packetType pkt = "heartbeat" /\
    Request.packetData pkt = Request.DValue VUndefined /\
    Request.packetCodecType pkt = "protobuf".
Proof.
  apply (request_round_trip_without_registry Example.runtime Example.constants
           Example.greeterDriver Bytes.allocate
           (Request.mkRequest 1 true true (Request.PValue VNull))
           (Example.untyped "protobuf-json") "protobuf-json").
  - cbn. lia.
  - cbn. lia.
  - discriminate.
  - cbn. lia.
  - reflexivity.
  - left. reflexivity.
  - reflexivity.
  - reflexivity.
Defined.

(* --------------------------------------------------------------------- *)
(** ** [encode]: the length field against the length of the packet *)
(* --------------------------------------------------------------------- *)

Section LengthField.

Import Bytes Env Request.

Variable cst : Constants.

(** The steps of a call of [encodeWith] that returned. *)
Lemma encodeWith_inv (D : OutputDriver) (req : Request) (opts : Options)
    (buf : Buffer) :
  encodeWith cst D req opts = Ok buf ->
  exists st storage,
    encodeBody cst D req opts
      (onBytes D (putHeader (contentTypeId D) req) (serialize D)) = Ok st /\
    (- 2 ^ 31 <= bodyLen cst D opts st < 2 ^ 31)%Z /\
    storage = storeAll 12 (int32BE (bodyLen cst D opts st)) (_bytes (outBytes D st)) /\
    buf = outGet D (onBytes D (fun bytes => mkByteBuffer storage (_offset bytes)) st).
Proof.
  unfold encodeWith. intros H.
  destruct (encodeBody cst D req opts _) as [st|] eqn:Hbody; [|discriminate].
  cbn [bind] in H.
  destruct (writeInt32BE (bodyLen cst D opts st) 12 (_bytes (outBytes D st)))
    as [storage|] eqn:Hwrite; [|discriminate].
  cbn [bind] in H. exists st, storage. split; [reflexivity|].
  unfold writeInt32BE in Hwrite.
  destruct (Z.leb_spec (- 2 ^ 31) (bodyLen cst D opts st));
    destruct (Z.ltb_spec (bodyLen cst D opts st) (2 ^ 31));
    cbn [andb] in Hwrite; try discriminate.
  repeat split; try assumption; congruence.
Qed.

(** The length field of a packet [encodeWith] returned, read as [decode]'s
    peers read it. *)
Lemma encoded_length_field (D : OutputDriver) (req : Request) (opts : Options)
    (buf : Buffer) :
  HeaderKept D ->
  encodeWith cst D req opts = Ok buf ->
  exists st,
    encodeBody cst D req opts
      (onBytes D (putHeader (contentTypeId D) req) (serialize D)) = Ok st /\
    readInt32BE 12 buf = Ok (bodyLen cst D opts st) /\
    buf = outGet D (onBytes D (fun bytes =>
            mkByteBuffer (storeAll 12 (int32BE (bodyLen cst D opts st))
                                   (_bytes (outBytes D st)))
                         (_offset bytes)) st).
Proof.
  intros kept Hencode.
  destruct (encodeWith_inv D req opts buf Hencode)
    as (st & storage & Hbody & Hrange & -> & Hbuf).
  destruct (encodeWith_header cst D kept req opts buf Hencode)
    as (st' & Hbody' & Hlen & _ & _ & _ & _ & _ & Hbl).
  assert (st' = st) by congruence. subst st'.
  exists st. split; [exact Hbody|]. split; [|exact Hbuf].
  unfold HEADER_LENGTH in Hlen.
  rewrite Bytes_readInt32BE_at by lia.
  pose proof (Hbl 0 ltac:(lia)) as E0. pose proof (Hbl 1 ltac:(lia)) as E1.
  pose proof (Hbl 2 ltac:(lia)) as E2. pose proof (Hbl 3 ltac:(lia)) as E3.
  cbn [Nat.add nth int32BE] in *. rewrite E0, E1, E2, E3, int32BE_value.
  f_equal. unfold toInt32.
  change (2 ^ 31)%Z with 2147483648%Z in *.
  change (2 ^ 32)%Z with 4294967296%Z. Z.div_mod_to_equations. lia.
Qed.

End LengthField.

(** X19. The length field of a packet written through the protobuf-json driver:
    under any codec name other than the default one it is the length of the
    whole packet, the sixteen octets of the header included, so sixteen more
    than the length of the body behind the header; under the default name it
    is the length of the body.  This holds for every request and in both
    modes of the writers. *)
Theorem protobuf_json_length_field (rt : Env.Runtime) (cst : Env.Constants)
    (previous : Bytes.ByteBuffer) (req : Request.Request) (opts : Env.Options)
    (buf : Bytes.Buffer) :
  Request.encodeWith cst (ProtobufJson.output rt cst previous) req opts = Ok buf ->
  16 <= List.length buf /\
  Bytes.readInt32BE 12 buf
  = Ok (if Request.notDefaultCodec cst opts
        then Z.of_nat (List.length buf)
        else Z.of_nat (List.length (skipn 16 buf))).
Proof.
  intros Hencode.
  destruct (encoded_length_field cst _ req opts buf
              (ProtobufJson_kept rt cst previous) Hencode)
    as (st & Hbody & Hfield & Hbuf).
  destruct (encodeWith_header cst _ (ProtobufJson_kept rt cst previous)
              req opts buf Hencode) as (_ & _ & Hlen & _).
  unfold Request.HEADER_LENGTH in Hlen. split; [exact Hlen|].
  rewrite Hfield. f_equal.
  assert (Hsize : List.length buf = Bytes._offset st).
  { rewrite Hbuf.
    cbn [Env.outGet Env.onBytes ProtobufJson.output Env.outBytes].
    unfold Bytes.written. cbn [Bytes._offset Bytes._bytes].
    apply length_prefix. }
  unfold Request.bodyLen.
  cbn [Env.outLen ProtobufJson.output Env.outBytes]. unfold Bytes.position.
  destruct (Request.notDefaultCodec cst opts).
  - now rewrite Hsize.
  - rewrite length_skipn, Hsize. unfold Request.HEADER_LENGTH. lia.
Qed.

Lemma protobuf_json_length_field_witness :
  16 <= List.length
          [218; 187; 245; 0; 0; 0; 0; 0; 0; 0; 0; 1; 0; 0; 0; 17; 72]%Z /\
  Bytes.readInt32BE 12
    [218; 187; 245; 0; 0; 0; 0; 0; 0; 0; 0; 1; 0; 0; 0; 17; 72]%Z
  = Ok (if Request.notDefaultCodec Example.constants
             (Example.untyped "protobuf-json")
        then Z.of_nat (List.length
               [218; 187; 245; 0; 0; 0; 0; 0; 0; 0; 0; 1; 0; 0; 0; 17; 72]%Z)
        else Z.of_nat (List.length (skipn 16
               [218; 187; 245; 0; 0; 0; 0; 0; 0; 0; 0; 1; 0; 0; 0; 17; 72]%Z))).
Proof.
  apply (protobuf_json_length_field Example.runtime Example.constants
           Bytes.allocate
           (Request.mkRequest 1 true true (Request.PValue VNull))
           (Example.untyped "protobuf-json")).
  reflexivity.
Defined.

Section BinaryWriters.

Import Bytes Env Request.

Variable rt : Runtime.
Variable cst : Constants.

Lemma Writer_bytes_len (value : list Z) (w : Writer.Writer) :
  Writer.len w = List.length (Writer.content w) ->
  Writer.len (Writer.bytes value w)
  = List.length (Writer.content (Writer.bytes value w)).
Proof.
  intros H. unfold Writer.bytes. cbn [Writer.len Writer.content].
  rewrite !length_app. lia.
Qed.

Lemma Writer_finish_exact (w : Writer.Writer) :
  Writer.len w = List.length (Writer.content w) ->
  Writer.finish w = Writer.content w.
Proof.
  intros H. unfold Writer.finish, prefix. rewrite H, Nat.sub_diag.
  cbn [repeat]. now rewrite app_nil_r, firstn_all.
Qed.

(** A call that leaves [output.bytes] alone and keeps the [len] of the
    payload writer equal to the number of octets it holds. *)
Ltac payload_only H :=
  repeat match type of H with
  | Ok _ = Ok _ =>
      injection H as <-; cbn [Protobuf.bytes Protobuf.encoder];
      split; [reflexivity | intros Hlen; try apply Writer_bytes_len; exact Hlen]
  | Throw _ = Ok _ => discriminate H
  | context [match ?x with _ => _ end] => destruct x eqn:?; cbn [bind] in H
  | context [bind ?x _] => destruct x eqn:?; cbn [bind] in H
  end.

Lemma Protobuf_writeObject_payload v classMap type opts (st st' : Protobuf.Session) :
  Protobuf.writeObject rt v classMap type opts st = Ok st' ->
  Protobuf.bytes st' = Protobuf.bytes st /\
  (Writer.len (Protobuf.encoder st)
     = List.length (Writer.content (Protobuf.encoder st)) ->
   Writer.len (Protobuf.encoder st')
     = List.length (Writer.content (Protobuf.encoder st'))).
Proof. intros H. unfold Protobuf.writeObject in H. payload_only H. Qed.

Lemma ProtobufOld_writeObject_payload v classMap type opts
    (st st' : Protobuf.Session) :
  ProtobufOld.writeObject v classMap type opts st = Ok st' ->
  Protobuf.bytes st' = Protobuf.bytes st /\
  (Writer.len (Protobuf.encoder st)
     = List.length (Writer.content (Protobuf.encoder st)) ->
   Writer.len (Protobuf.encoder st')
     = List.length (Writer.content (Protobuf.encoder st'))).
Proof. intros H. unfold ProtobufOld.writeObject in H. payload_only H. Qed.

Lemma ProtobufJsonOld_writeObject_payload v classMap type opts
    (st st' : Protobuf.Session) :
  ProtobufJsonOld.writeObject rt v classMap type opts st = Ok st' ->
  Protobuf.bytes st' = Protobuf.bytes st /\
  (Writer.len (Protobuf.encoder st)
     = List.length (Writer.content (Protobuf.encoder st)) ->
   Writer.len (Protobuf.encoder st')
     = List.length (Writer.content (Protobuf.encoder st'))).
Proof. intros H. unfold ProtobufJsonOld.writeObject in H. payload_only H. Qed.

(** A property every call of a body keeps holds after the body. *)
Lemma performAll_invariant (D : OutputDriver) (opts : Options)
    (P : OutSt D -> Prop) :
  (forall c st st', P st -> perform D opts c st = Ok st' -> P st') ->
  forall calls st st', P st -> performAll D opts calls st = Ok st' -> P st'.
Proof.
  intros Hstep. induction calls as [|c calls IH]; intros st st' HP H;
    cbn [performAll] in H.
  - now injection H as <-.
  - destruct (perform D opts c st) as [st1|] eqn:Hc; [|discriminate].
    cbn [bind] in H. exact (IH _ _ (Hstep _ _ _ HP Hc) H).
Qed.

Lemma encodeBody_invariant (D : OutputDriver) (opts : Options) (req : Request)
    (P : OutSt D -> Prop) :
  (forall c st st', P st -> perform D opts c st = Ok st' -> P st') ->
  forall st st', P st -> encodeBody cst D req opts st = Ok st' -> P st'.
Proof.
  intros Hstep st st' HP H.
  destruct (encodeBody_calls _ _ _ _ _ _ H) as [calls Hcalls].
  exact (performAll_invariant D opts P Hstep calls st st' HP Hcalls).
Qed.

End BinaryWriters.

Section TypedLength.

Import Bytes Env Request.

Variable rt : Runtime.
Variable cst : Constants.

(** The packet [get()] assembles from a header of sixteen octets and a
    payload writer whose [len] is exact. *)
Lemma header_then_payload (storage : Buffer) (w : Writer.Writer) (n : Z) :
  Writer.len w = List.length (Writer.content w) ->
  n = Z.of_nat (Writer.len w) ->
  forall buf,
    buf = (written (mkByteBuffer storage 16) ++ Writer.content w)%list ->
    readInt32BE 12 buf = Ok n ->
    16 <= List.length buf /\
    readInt32BE 12 buf = Ok (Z.of_nat (List.length (skipn 16 buf))).
Proof.
  intros Hexact -> buf -> Hfield.
  assert (Hhead : List.length (written (mkByteBuffer storage 16)) = 16)
    by (unfold written; apply length_prefix).
  split; [rewrite length_app; lia|].
  rewrite Hfield. do 2 f_equal.
  rewrite length_skipn, length_app, Hhead. lia.
Qed.

Ltac typed_packet kept payload Hopt Hnd Hencode :=
  match type of Hencode with
  | encodeWith _ ?D ?req ?opts = Ok ?buf =>
      let st := fresh "st" in
      let Hbody := fresh "Hbody" in
      let Hfield := fresh "Hfield" in
      let Hbuf := fresh "Hbuf" in
      destruct (encoded_length_field cst D req opts buf kept Hencode)
        as (st & Hbody & Hfield & Hbuf);
      assert (Hinv :
        Protobuf.bytes st = putHeader (contentTypeId D) req allocate /\
        Writer.len (Protobuf.encoder st)
        = List.length (Writer.content (Protobuf.encoder st)));
      [ refine (encodeBody_invariant cst D opts req
                  (fun s => Protobuf.bytes s = putHeader (contentTypeId D) req allocate
                            /\ Writer.len (Protobuf.encoder s)
                               = List.length (Writer.content (Protobuf.encoder s)))
                  _ _ st _ Hbody);
        [ intros c s s' [Hb Hl] Hc;
          destruct c; cbn [perform writeUTF writeObject Protobuf.output
                           ProtobufOld.output ProtobufJsonOld.output] in Hc;
          [ unfold Protobuf.writeUTF, ProtobufOld.writeUTF,
              ProtobufJsonOld.writeUTF in Hc; rewrite Hopt in Hc |];
          destruct (payload _ _ _ _ _ _ Hc) as [Hb' Hl'];
          (split; [congruence | auto])
        | split; reflexivity ]
      | destruct Hinv as [Hbytes Hexact];
        unfold bodyLen in Hfield, Hbuf; rewrite Hnd in Hfield, Hbuf;
        cbn [outLen outGet onBytes outBytes Protobuf.output ProtobufOld.output
             ProtobufJsonOld.output] in Hfield, Hbuf;
        unfold Protobuf.get, ProtobufJsonOld.get in Hbuf;
        cbn [Protobuf.bytes Protobuf.encoder _offset] in Hbuf;
        rewrite Hbytes in Hbuf;
        change (_offset (putHeader (contentTypeId D) req allocate)) with 16 in Hbuf;
        cbn [Nat.ltb Nat.leb] in Hbuf;
        rewrite (Writer_finish_exact _ Hexact) in Hbuf;
        rewrite ?Hexact, ?firstn_all in Hbuf;
        exact (header_then_payload _ _ _ Hexact eq_refl buf Hbuf Hfield) ]
  end.

Lemma Protobuf_typed_length (req : Request) (opts : Options) (root : option Root)
    (buf : Buffer) :
  options opts = Some root ->
  notDefaultCodec cst opts = true ->
  encodeWith cst (Protobuf.output rt cst) req opts = Ok buf ->
  16 <= List.length buf /\
  readInt32BE 12 buf = Ok (Z.of_nat (List.length (skipn 16 buf))).
Proof.
  intros Hopt Hnd Hencode.
  typed_packet (Protobuf_kept rt cst) (Protobuf_writeObject_payload rt)
               Hopt Hnd Hencode.
Qed.

Lemma ProtobufOld_typed_length (req : Request) (opts : Options)
    (root : option Root) (buf : Buffer) :
  options opts = Some root ->
  notDefaultCodec cst opts = true ->
  encodeWith cst (ProtobufOld.output rt cst) req opts = Ok buf ->
  16 <= List.length buf /\
  readInt32BE 12 buf = Ok (Z.of_nat (List.length (skipn 16 buf))).
Proof.
  intros Hopt Hnd Hencode.
  typed_packet (ProtobufOld_kept rt cst) ProtobufOld_writeObject_payload
               Hopt Hnd Hencode.
Qed.

Lemma ProtobufJsonOld_typed_length (req : Request) (opts : Options)
    (root : option Root) (buf : Buffer) :
  options opts = Some root ->
  notDefaultCodec cst opts = true ->
  encodeWith cst (ProtobufJsonOld.output rt cst) req opts = Ok buf ->
  16 <= List.length buf /\
  readInt32BE 12 buf = Ok (Z.of_nat (List.length (skipn 16 buf))).
Proof.
  intros Hopt Hnd Hencode.
  typed_packet (ProtobufJsonOld_kept rt cst) (ProtobufJsonOld_writeObject_payload rt)
               Hopt Hnd Hencode.
Qed.

End TypedLength.

(** X20. In typed mode ([options.options] set) and under a codec name other than
    the default one, a packet written through a binary driver of the sources
    (the protobuf driver, its earlier revision, and the earlier revision of
    the protobuf-json driver) carries in its length field exactly the number
    of octets that follow the header: the writers put every payload into
    the protobufjs [Writer], whose [len] is the length [get()] appends. *)
Theorem typed_length_field_is_body_length (rt : Env.Runtime)
    (cst : Env.Constants) (D : Env.OutputDriver) (req : Request.Request)
    (opts : Env.Options) (root : option Env.Root) (buf : Bytes.Buffer) :
  D = Protobuf.output rt cst \/ D = ProtobufOld.output rt cst \/
  D = ProtobufJsonOld.output rt cst ->
  Env.options opts = Some root ->
  Request.notDefaultCodec cst opts = true ->
  Request.encodeWith cst D req opts = Ok buf ->
  16 <= List.length buf /\
  Bytes.readInt32BE 12 buf = Ok (Z.of_nat (List.length (skipn 16 buf))).
Proof.
  intros [-> | [-> | ->]] Hopt Hnd Hencode.
  - exact (Protobuf_typed_length rt cst req opts root buf Hopt Hnd Hencode).
  - exact (ProtobufOld_typed_length rt cst req opts root buf Hopt Hnd Hencode).
  - exact (ProtobufJsonOld_typed_length rt cst req opts root buf Hopt Hnd Hencode).
Qed.

Section RawLength.

Import Bytes Env Request.

Variable rt : Runtime.
Variable cst : Constants.

Lemma Protobuf_writeArgs_raw (opts : Options) (args : list JsValue)
    (types : list string) :
  options opts = None ->
  forall i st, writeArgs (Protobuf.output rt cst) opts args types i st = Ok st.
Proof.
  intros Hopt. induction types as [|type types IH]; intros i st; [reflexivity|].
  cbn [writeArgs writeObject Protobuf.output]. unfold Protobuf.writeObject.
  rewrite Hopt. cbn [bind]. apply IH.
Qed.

Lemma ProtobufOld_writeArgs_raw (opts : Options) (args : list JsValue)
    (types : list string) :
  options opts = None ->
  forall i st, writeArgs (ProtobufOld.output rt cst) opts args types i st = Ok st.
Proof.
  intros Hopt. induction types as [|type types IH]; intros i st; [reflexivity|].
  cbn [writeArgs writeObject ProtobufOld.output]. unfold ProtobufOld.writeObject.
  rewrite Hopt. destruct (truthy _); cbn [bind]; apply IH.
Qed.

(** The [len] of the payload writer after a body written in raw mode: four
    for every string. *)
Lemma Protobuf_raw_len (req : Request) (opts : Options)
    (st st' : Protobuf.Session) :
  options opts = None ->
  encodeBody cst (Protobuf.output rt cst) req opts st = Ok st' ->
  Writer.len (Protobuf.encoder st')
  = Writer.len (Protobuf.encoder st)
    + match data req with
      | PInvocation _ => 20
      | PValue _ => if isEvent req then 4 else 0
      end.
Proof.
  intros Hopt H. unfold encodeBody in H.
  cbn [writeUTF writeObject Protobuf.output] in H.
  unfold Protobuf.writeUTF, Protobuf.writeObject in H. rewrite !Hopt in H.
  destruct (data req) as [inv|v].
  - cbn [bind Protobuf.bytes Protobuf.encoder] in H.
    destruct (getJavaArgsDesc (args inv)) as [desc|]; [|discriminate].
    cbn [bind Protobuf.bytes Protobuf.encoder] in H.
    destruct (desc2classArray desc) as [types|]; [|discriminate].
    cbn [bind] in H. rewrite (Protobuf_writeArgs_raw _ _ _ Hopt) in H.
    cbn [bind] in H. injection H as <-.
    cbn [Protobuf.encoder Writer.addLen Writer.len]. lia.
  - destruct (isEvent req); injection H as <-;
      cbn [Protobuf.encoder Writer.addLen Writer.len]; lia.
Qed.

Lemma ProtobufOld_raw_len (req : Request) (opts : Options)
    (st st' : Protobuf.Session) :
  options opts = None ->
  encodeBody cst (ProtobufOld.output rt cst) req opts st = Ok st' ->
  Writer.len (Protobuf.encoder st')
  = Writer.len (Protobuf.encoder st)
    + match data req with
      | PInvocation _ => 20
      | PValue _ => if isEvent req then 4 else 0
      end.
Proof.
  intros Hopt H. unfold encodeBody in H.
  cbn [writeUTF writeObject ProtobufOld.output] in H.
  unfold ProtobufOld.writeUTF, ProtobufOld.writeObject in H. rewrite !Hopt in H.
  destruct (data req) as [inv|v].
  - cbn [bind Protobuf.bytes Protobuf.encoder] in H.
    destruct (getJavaArgsDesc (args inv)) as [desc|]; [|discriminate].
    cbn [bind Protobuf.bytes Protobuf.encoder] in H.
    destruct (desc2classArray desc) as [types|]; [|discriminate].
    cbn [bind] in H. rewrite (ProtobufOld_writeArgs_raw _ _ _ Hopt) in H.
    cbn [bind] in H.
    destruct (truthy _); injection H as <-;
      cbn [Protobuf.encoder Writer.addLen Writer.len]; lia.
  - destruct (isEvent req); [|destruct (truthy v)]; injection H as <-;
      cbn [Protobuf.encoder Writer.addLen Writer.len]; lia.
Qed.

End RawLength.

(** X21. In raw mode (no [options.options]) and under a codec name other
    than the default one, the length field of a packet written through the protobuf
    driver, in either revision, does not depend on what was written: every
    [writeUTF] adds 4 to the writer's [len] whatever the length of its
    string, and nothing else adds to it, so the field is 20 for every
    invocation, 4 for every event and 0 for any other payload. *)
Theorem raw_length_field_counts_strings (rt : Env.Runtime) (cst : Env.Constants)
    (D : Env.OutputDriver) (req : Request.Request) (opts : Env.Options)
    (buf : Bytes.Buffer) :
  D = Protobuf.output rt cst \/ D = ProtobufOld.output rt cst ->
  Env.options opts = None ->
  Request.notDefaultCodec cst opts = true ->
  Request.encodeWith cst D req opts = Ok buf ->
  Bytes.readInt32BE 12 buf
  = Ok (match Request.data req with
        | Request.PInvocation _ => 20%Z
        | Request.PValue _ => if Request.isEvent req then 4%Z else 0%Z
        end).
Proof.
  intros [-> | ->] Hopt Hnd Hencode.
  - destruct (encoded_length_field cst _ req opts buf (Protobuf_kept rt cst) Hencode)
      as (st & Hbody & Hfield & _).
    rewrite Hfield. unfold Request.bodyLen. rewrite Hnd.
    cbn [Env.outLen Protobuf.output].
    rewrite (Protobuf_raw_len rt cst req opts _ st Hopt Hbody).
    cbn [Env.onBytes Env.serialize Protobuf.output Protobuf.encoder
         Writer.create Writer.len].
    now destruct (Request.data req); [|destruct (Request.isEvent req)].
  - destruct (encoded_length_field cst _ req opts buf (ProtobufOld_kept rt cst)
                Hencode) as (st & Hbody & Hfield & _).
    rewrite Hfield. unfold Request.bodyLen. rewrite Hnd.
    cbn [Env.outLen ProtobufOld.output].
    rewrite (ProtobufOld_raw_len rt cst req opts _ st Hopt Hbody).
    cbn [Env.onBytes Env.serialize ProtobufOld.output Protobuf.encoder
         Writer.create Writer.len].
    now destruct (Request.data req); [|destruct (Request.isEvent req)].
Qed.

Lemma raw_length_field_counts_strings_witness :
  Bytes.readInt32BE 12
    [218; 187; 246; 0; 0; 0; 0; 0; 0; 0; 0; 1; 0; 0; 0; 4; 3; 10; 1; 72]%Z
  = Ok 4%Z.
Proof.
  apply (raw_length_field_counts_strings Example.runtime Example.constants
           (Protobuf.output Example.runtime Example.constants)
           (Request.mkRequest 1 true true (Request.PValue VNull))
           (Example.untyped "protobuf")).
  - left. reflexivity.
  - reflexivity.
  - reflexivity.
  - reflexivity.
Defined.

Lemma typed_length_field_is_body_length_witness :
  16 <= List.length
          [218; 187; 213; 0; 0; 0; 0; 0; 0; 0; 0; 1; 0; 0; 0; 6;
           5; 34; 104; 105; 34; 10]%Z /\
  Bytes.readInt32BE 12
    [218; 187; 213; 0; 0; 0; 0; 0; 0; 0; 0; 1; 0; 0; 0; 6;
     5; 34; 104; 105; 34; 10]%Z
  = Ok (Z.of_nat (List.length (skipn 16
          [218; 187; 213; 0; 0; 0; 0; 0; 0; 0; 0; 1; 0; 0; 0; 6;
           5; 34; 104; 105; 34; 10]%Z))).
Proof.
  apply (typed_length_field_is_body_length Example.runtime Example.constants
           (ProtobufJsonOld.output Example.runtime Example.constants)
           (Request.mkRequest 1 true false (Request.PValue (VStr "hi")))
           Example.typedOptions (Some (Example.rootOf Example.entryList))).
  - right. right. reflexivity.
  - reflexivity.
  - reflexivity.
  - reflexivity.
Defined.

(* --------------------------------------------------------------------- *)
(** ** The protobuf-json driver: a line written and read back *)
(* --------------------------------------------------------------------- *)

Section Lines.

Import Bytes Env.

(** The octets written so far, after one more run of octets. *)
Lemma written_putBuffer (vs : list Z) (bb : ByteBuffer) :
  written (putBuffer vs bb) = (written bb ++ vs)%list.
Proof.
  unfold written, putBuffer. cbn [_offset _bytes].
  apply (nth_ext _ _ 0%Z 0%Z).
  - rewrite length_app, !length_prefix. reflexivity.
  - intros k Hk. rewrite length_prefix in Hk.
    rewrite nth_prefix by lia. rewrite nth_storeAll.
    destruct (Nat.leb_spec (_offset bb) k) as [Hge|Hlt].
    + destruct (Nat.ltb_spec k (_offset bb + List.length vs)); [|lia].
      cbn [andb]. rewrite app_nth2 by (rewrite length_prefix; lia).
      now rewrite length_prefix.
    + cbn [andb]. rewrite app_nth1 by (rewrite length_prefix; lia).
      now rewrite nth_prefix by lia.
Qed.

Lemma indexFrom_passed (value : Z) (body rest : list Z) :
  ~ In value body ->
  forall from at_,
    from <= at_ ->
    ProtobufJson.indexFrom value from at_ (body ++ value :: rest)%list
    = Some (at_ + List.length body).
Proof.
  intros Hbody. induction body as [|b body IH]; intros from at_ Hfrom;
    cbn [app ProtobufJson.indexFrom List.length].
  - destruct (Nat.leb_spec from at_); [|lia]. rewrite Z.eqb_refl. cbn [andb].
    f_equal. lia.
  - destruct (Z.eqb_spec b value) as [->|_]; [exfalso; apply Hbody; now left|].
    rewrite andb_false_r. rewrite IH; [f_equal; lia | | lia].
    intros Hin. apply Hbody. now right.
Qed.

Lemma indexFrom_found (value : Z) (pre body rest : list Z) :
  ~ In value body ->
  forall at_,
    ProtobufJson.indexFrom value (at_ + List.length pre) at_
      (pre ++ body ++ value :: rest)%list
    = Some (at_ + List.length pre + List.length body).
Proof.
  intros Hbody. induction pre as [|a pre IH]; intros at_;
    cbn [app List.length].
  - rewrite Nat.add_0_r. now apply indexFrom_passed.
  - cbn [ProtobufJson.indexFrom].
    destruct (Nat.leb_spec (at_ + S (List.length pre)) at_); [lia|].
    cbn [andb]. replace (at_ + S (List.length pre)) with (S at_ + List.length pre)
      by lia.
    apply IH.
Qed.

Lemma textOf_app (a b : list Z) :
  ProtobufJson.textOf (a ++ b)%list
  = ProtobufJson.textOf a ++ ProtobufJson.textOf b.
Proof. induction a as [|x a IH]; cbn [app ProtobufJson.textOf append]; now rewrite ?IH. Qed.

Lemma textOf_octets (s : string) : ProtobufJson.textOf (octets s) = s.
Proof.
  induction s as [|c s IH]; cbn [octets ProtobufJson.textOf]; [reflexivity|].
  now rewrite Nat2Z.id, ascii_nat_embedding, IH.
Qed.

Lemma octets_app (s t : string) : octets (s ++ t) = (octets s ++ octets t)%list.
Proof. induction s as [|c s IH]; cbn [append octets app]; now rewrite ?IH. Qed.

(** [readLine] on a decoder whose position is at the start of a line. *)
Lemma readLine_line (pre rest : list Z) (line : string) :
  ~ In 10%Z (octets line) ->
  ProtobufJson.readLine
    (mkByteBuffer (pre ++ octets (line ++ String "010" "") ++ rest)%list
                  (List.length pre))
  = (line ++ String "010" "",
     mkByteBuffer (pre ++ octets (line ++ String "010" "") ++ rest)%list
                  (List.length pre + List.length (octets (line ++ String "010" "")))).
Proof.
  intros Hline. unfold ProtobufJson.readLine, position. cbn [_offset _bytes].
  rewrite octets_app. cbn [octets]. change (Z.of_nat (nat_of_ascii "010")) with 10%Z.
  rewrite <- app_assoc. cbn [app].
  pose proof (indexFrom_found 10 pre (octets line) rest Hline 0) as Hidx.
  cbn [Nat.add] in Hidx. rewrite Hidx. clear Hidx.
  replace (List.length pre + List.length (octets line) - List.length pre + 1)
    with (List.length (octets line ++ [10%Z])%list)
    by (rewrite length_app; cbn [List.length]; lia).
  rewrite skipn_app, skipn_all, Nat.sub_diag. cbn [skipn app].
  change (octets line ++ 10%Z :: rest)%list
    with (octets line ++ [10%Z] ++ rest)%list.
  rewrite app_assoc, firstn_app, firstn_all, Nat.sub_diag. cbn [firstn].
  rewrite app_nil_r, textOf_app, textOf_octets.
  cbn [ProtobufJson.textOf]. f_equal. f_equal.
  rewrite length_app. cbn [List.length]. lia.
Qed.

End Lines.

(** X22. What the typed writer of the protobuf-json driver puts on the wire, the
    typed reader takes off it.  For a truthy value under a type tag other
    than ['HashMap'], [writeObject] appends one line, the JSON text of the
    value (of its [$] when the value carries a truthy [$class] and a truthy
    [$]) and a line feed; [readObject] under the same tag, started where the
    writer started and whatever follows the line, hands exactly that line to
    [JSON.parse] and stops where the writer stopped.  The JSON text holds no
    line feed. *)
Theorem protobuf_json_line_round_trip (rt : Env.Runtime)
    (v classMap payload : JsValue) (type : string) (opts : Env.Options)
    (root root' : Env.Root) (encoder : Bytes.ByteBuffer) (rest : list Z) :
  truthy v = true ->
  Env.options opts = Some (Some root) ->
  Env.proto opts = Some root' ->
  Env.tagged (Some type) = true ->
  Env.isTag "HashMap" (Some type) = false ->
  payload = match v with
            | VObject props =>
                if (truthy (prop "$class" props) && truthy (prop "$" props))%bool
                then prop "$" props else v
            | _ => v
            end ->
  ~ In 10%Z (Bytes.octets (Env.JSON_stringify rt payload)) ->
  exists encoder',
    ProtobufJson.writeObject rt v classMap type opts encoder = Ok encoder' /\
    Bytes.written encoder'
    = (Bytes.written encoder
       ++ Bytes.octets (Env.JSON_stringify rt payload ++ String "010" ""))%list /\
    ProtobufJson.readObject rt opts (Some type)
      (Bytes.mkByteBuffer (Bytes.written encoder' ++ rest)%list
                          (Bytes._offset encoder))
    = (json <- Env.JSON_parse rt (Env.JSON_stringify rt payload ++ String "010" "") ;;
       Ok (json, Bytes.mkByteBuffer (Bytes.written encoder' ++ rest)%list
                                    (Bytes._offset encoder'))).
Proof.
  intros Htruthy Hopt Hproto Htag Hmap Hpayload Hline.
  exists (Bytes.putBuffer
            (Bytes.octets (Env.JSON_stringify rt payload ++ String "010" ""))
            encoder).
  assert (Hwrite :
    ProtobufJson.writeObject rt v classMap type opts encoder
    = Ok (Bytes.putBuffer
            (Bytes.octets (Env.JSON_stringify rt payload ++ String "010" ""))
            encoder)).
  { unfold ProtobufJson.writeObject. rewrite Htruthy, Hopt.
    assert (Hnot : String.eqb type "HashMap" = false) by exact Hmap.
    destruct v as [ | | b | n | s | ms | octets | items | message | props ];
      try discriminate Htruthy; cbn [getProp bind truthy andb];
      rewrite ?Htag, ?Hnot; cbn [bind ProtobufJson.putRawString];
      try (subst payload; reflexivity).
    unfold prop in Hpayload.
    destruct (lookup "$class" props) as [cls|];
      destruct (lookup "$" props) as [val|]; cbn [bind truthy andb] in *;
      try destruct (truthy cls && truthy val)%bool;
      try destruct (truthy cls);
      rewrite ?Htag, ?Hnot; cbn [bind ProtobufJson.putRawString];
      subst payload; reflexivity. }
  split; [exact Hwrite|]. split; [apply written_putBuffer|].
  rewrite written_putBuffer, <- app_assoc.
  unfold ProtobufJson.readObject. rewrite Hproto, Htag, Hmap.
  replace (Bytes._offset encoder) with (List.length (Bytes.written encoder))
    at 1 by (unfold Bytes.written; apply length_prefix).
  rewrite (readLine_line _ rest _ Hline).
  unfold Bytes.putBuffer. cbn [Bytes._offset].
  replace (List.length (Bytes.written encoder)) with (Bytes._offset encoder)
    by (unfold Bytes.written; symmetry; apply length_prefix).
  destruct (Env.JSON_parse rt _); reflexivity.
Qed.

Lemma protobuf_json_line_round_trip_witness :
  exists encoder',
    ProtobufJson.writeObject Example.runtime (VStr "hi") VNull "StringValue"
      Example.typedOptions Bytes.allocate = Ok encoder' /\
    Bytes.written encoder'
    = (Bytes.written Bytes.allocate
       ++ Bytes.octets (Env.JSON_stringify Example.runtime (VStr "hi")
                        ++ String "010" ""))%list /\
    ProtobufJson.readObject Example.runtime Example.typedOptions
      (Some "StringValue")
      (Bytes.mkByteBuffer (Bytes.written encoder' ++ [123; 125; 10]%Z)%list
                          (Bytes._offset Bytes.allocate))
    = (json <- Env.JSON_parse Example.runtime
                 (Env.JSON_stringify Example.runtime (VStr "hi")
                  ++ String "010" "") ;;
       Ok (json, Bytes.mkByteBuffer (Bytes.written encoder' ++ [123; 125; 10]%Z)%list
                                    (Bytes._offset encoder'))).
Proof.
  apply (protobuf_json_line_round_trip Example.runtime (VStr "hi") VNull
           (VStr "hi") "StringValue" Example.typedOptions
           (Example.rootOf Example.entryList) (Example.rootOf Example.entryList)
           Bytes.allocate [123; 125; 10]%Z).
  - reflexivity.
  - reflexivity.
  - reflexivity.
  - reflexivity.
  - reflexivity.
  - reflexivity.
  - cbn. intros [H|[H|[H|[H|H]]]]; try discriminate H. exact H.
Defined.

(* --------------------------------------------------------------------- *)
(** ** lib/protocol/request.js: events *)
(* --------------------------------------------------------------------- *)

(** X18. The value of an event never reaches the wire.  Setting [event] to any
    value that is no [Invocation] gives, through every driver and under all
    options, the packet of the heartbeat (the event [null]): the event bit
    and the one string ['H'].  [isHeartbeat] tells the two requests apart;
    their packets are the same. *)
Theorem event_value_not_encoded (cst : Env.Constants) (D : Env.OutputDriver)
    (req : Request.Request) (opts : Env.Options) (v : JsValue) :
  Request.encodeWith cst D (RequestClass.setEvent (Request.PValue v) req) opts
  = Request.encodeWith cst D (RequestClass.setEvent (Request.PValue VNull) req) opts /\
  RequestClass.isHeartbeat (RequestClass.setEvent (Request.PValue v) req)
  = match v with VNull => true | _ => false end.
Proof. split; reflexivity. Qed.

(* --------------------------------------------------------------------- *)
(** ** [decode]: the shape of what it returns *)
(* --------------------------------------------------------------------- *)

Section DecodedShape.

Import Bytes Env Request.

Variable rt : Runtime.
Variable cst : Constants.
Variable I : InputDriver.

Lemma readArgs_length (opts : Options) (sigs : list string) :
  forall args st read,
    readArgs I opts sigs args st = Ok read ->
    List.length (fst read) = List.length args + List.length sigs.
Proof.
  induction sigs as [|sig sigs IH]; intros args st read H; cbn [readArgs] in H.
  - injection H as <-. cbn [fst List.length]. lia.
  - destruct (readObject I opts (Some sig) st) as [r|]; [|discriminate].
    cbn [bind] in H. rewrite (IH _ _ _ H), length_app. cbn [List.length]. lia.
Qed.

Lemma lookup_assign_kept (k k' : string) (v : JsValue)
    (props : list (string * JsValue)) :
  lookup k props <> None -> lookup k (assign k' v props) <> None.
Proof.
  induction props as [|[k0 v0] props IH]; cbn [lookup assign]; [congruence|].
  destruct (String.eqb_spec k' k0) as [->|Hne]; cbn [lookup].
  - now destruct (String.eqb k k0).
  - destruct (String.eqb k k0); [discriminate | exact IH].
Qed.

Lemma lookup_objectAssign_kept (k : string) (source : JsValue)
    (target : list (string * JsValue)) :
  lookup k target <> None -> lookup k (objectAssign target source) <> None.
Proof.
  unfold objectAssign. generalize (ownProps source). intros entries.
  revert target. induction entries as [|[k' v] entries IH]; intros target H;
    cbn [fold_left fst snd]; [exact H|].
  apply IH. now apply lookup_assign_kept.
Qed.


Lemma readInvocation_shape (opts : Options) (field : JsValue) (st : InSt I)
    (d : InvocationData) :
  readInvocation rt cst I opts field st = Ok d ->
  List.length (dArgs d) = List.length (dMethodArgSigs d) /\
  lookup (DUBBO_VERSION_KEY cst) (dRequestProps d) <> None /\
  lookup (PATH_KEY cst) (dRequestProps d) <> None.
Proof.
  unfold readInvocation. intros H.
  destruct (readUTF I opts st) as [path|]; [|discriminate]. cbn [bind] in H.
  destruct (readUTF I opts (snd path)) as [version|]; [|discriminate].
  cbn [bind] in H.
  destruct (readUTF I opts (snd version)) as [name|]; [|discriminate].
  cbn [bind] in H.
  destruct (readUTF I opts (snd name)) as [desc|]; [|discriminate].
  cbn [bind] in H.
  destruct (classArrayOf rt (fst desc)) as [sigs|]; [|discriminate].
  cbn [bind] in H.
  destruct (readArgs I opts sigs [] (snd desc)) as [read|] eqn:Hread;
    [|discriminate].
  cbn [bind] in H.
  destruct (readObject I opts (Some "HashMap") (snd read)) as [merged|];
    [|discriminate].
  cbn [bind] in H. injection H as <-.
  cbn [dArgs dMethodArgSigs dRequestProps].
  split; [exact (readArgs_length _ _ _ _ _ Hread)|].
  split; apply lookup_objectAssign_kept;
    destruct (String.eqb_spec (PATH_KEY cst) (DUBBO_VERSION_KEY cst)) as [E|N];
    cbn [lookup]; rewrite ?E, ?String.eqb_refl; try discriminate.
  destruct (String.eqb _ _); discriminate.
Qed.

End DecodedShape.

(** X16. Every packet [decode] returns is well formed: its type is
    ['request'] or ['heartbeat'] and its protocol ['dubbo']; a heartbeat never carries an
    invocation; and a decoded invocation has exactly one argument per entry
    of its signature list, and request properties that hold both header
    keys, the protocol version and the path, whatever the attachment mapping
    read from the wire added or replaced. *)
Theorem decoded_packet_shape (rt : Env.Runtime) (cst : Env.Constants)
    (byId : Z -> option Env.Driver) (buf : Bytes.Buffer) (opts : Env.Options)
    (pkt : Request.Packet) :
  Request.decode rt cst byId buf opts = Ok pkt ->
  Request.protocolType pkt = "dubbo" /\
  (Request.packetType pkt = "request" \/ Request.packetType pkt = "heartbeat") /\
  match Request.packetData pkt with
  | Request.DValue _ => True
  | Request.DInvocation d =>
      Request.packetType pkt = "request" /\
      List.length (Request.dArgs d) = List.length (Request.dMethodArgSigs d) /\
      lookup (Env.DUBBO_VERSION_KEY cst) (Request.dRequestProps d) <> None /\
      lookup (Env.PATH_KEY cst) (Request.dRequestProps d) <> None
  end.
Proof.
  unfold Request.decode. intros H.
  destruct (Request.readPacketId buf) as [p|]; [|discriminate]. cbn [bind] in H.
  destruct (byId _) as [driver|]; [|discriminate].
  destruct (Env.inSkip _ _ _) as [st|]; [|discriminate]. cbn [bind] in H.
  match type of H with
  | context [Request.readBody ?r ?c ?i ?f ?o ?s] =>
      destruct (Request.readBody r c i f o s) as [body|] eqn:Hbody; [|discriminate]
  end.
  cbn [bind] in H. injection H as <-.
  cbn [Request.protocolType Request.packetType Request.packetData].
  split; [reflexivity|].
  unfold Request.readBody in Hbody.
  destruct (negb _).
  - destruct (Env.readObject _ _ None st) as [r|]; [|discriminate].
    cbn [bind] in Hbody. injection Hbody as <-. cbn [fst snd]. auto.
  - destruct (Env.readObject _ _ (Some "AnyVal") st) as [field|]; [|discriminate].
    cbn [bind] in Hbody. destruct (isString (fst field)).
    + match type of Hbody with
      | context [Request.readInvocation ?r ?c ?i ?o ?f ?s] =>
          destruct (Request.readInvocation r c i o f s) as [d|] eqn:Hd;
            [|discriminate]
      end.
      cbn [bind] in Hbody. injection Hbody as <-. cbn [fst snd].
      split; [now left|]. split; [reflexivity|].
      exact (readInvocation_shape _ _ _ _ _ _ _ Hd).
    + injection Hbody as <-. cbn [fst snd]. auto.
Qed.

Lemma decoded_packet_shape_witness :
  Request.protocolType Example.greeterPacket = "dubbo" /\
  (Request.packetType Example.greeterPacket = "request" \/
   Request.packetType Example.greeterPacket = "heartbeat") /\
  match Request.packetData Example.greeterPacket with
  | Request.DValue _ => True
  | Request.DInvocation d =>
      Request.packetType Example.greeterPacket = "request" /\
      List.length (Request.dArgs d) = List.length (Request.dMethodArgSigs d) /\
      lookup (Env.DUBBO_VERSION_KEY Example.constants) (Request.dRequestProps d)
        <> None /\
      lookup (Env.PATH_KEY Example.constants) (Request.dRequestProps d) <> None
  end.
Proof.
  apply (decoded_packet_shape Example.runtime Example.constants
           (fun _ => Some Example.greeterDriver) Example.requestHeader
           (Example.untyped "hessian2")).
  reflexivity.
Defined.

(* --------------------------------------------------------------------- *)
(** ** lib/utils.js: [treeCopyTo] and [flatCopyTo] *)
(* --------------------------------------------------------------------- *)

Section Copies.

Import UtilsRest.

Lemma prefix_app (p k : string) : String.prefix p (p ++ k) = true.
Proof.
  induction p as [|c p IH]; cbn [append String.prefix]; [now destruct k|].
  destruct (ascii_dec c c); [exact IH | contradiction].
Qed.



Lemma prefix_app_l (p x key : string) :
  String.prefix (p ++ x) key = true -> String.prefix p key = true.
Proof.
  revert key. induction p as [|c p IH]; intros key H; [now destruct key|].
  destruct key as [|b key]; cbn [append String.prefix] in *; [discriminate|].
  destruct (ascii_dec c b); [now apply IH | discriminate].
Qed.








End Copies.



Section FlatCopy.

Import Env UtilsRest.

(** Induction on a value with the hypothesis for every element of an array
    and every property value of an object. *)
Lemma JsValue_nested_ind (P : JsValue -> Prop) :
  P VUndefined -> P VNull -> (forall b, P (VBool b)) -> (forall n, P (VNum n)) ->
  (forall s, P (VStr s)) -> (forall ms, P (VDate ms)) ->
  (forall bs, P (VBuffer bs)) ->
  (forall items, Forall P items -> P (VArray items)) ->
  (forall message, P (VError message)) ->
  (forall props, Forall (fun kv => P (snd kv)) props -> P (VObject props)) ->
  forall v, P v.
Proof.
  intros Hu Hn Hb Hnum Hs Hd Hbuf Harr Herr Hobj.
  fix IH 1. intros [ | | b | n | s | ms | bs | items | message | props ];
    [ exact Hu | exact Hn | apply Hb | apply Hnum | apply Hs | apply Hd
    | apply Hbuf | | apply Herr | ].
  - apply Harr. induction items as [|x items IHitems]; constructor;
      [apply IH | exact IHitems].
  - apply Hobj. induction props as [|[k x] props IHprops]; constructor;
      [apply IH | exact IHprops].
Qed.

Variable rt : Runtime.

Lemma lookup_assign_outside (p x key : string) (v : JsValue)
    (dist : list (string * JsValue)) :
  String.prefix p key = false ->
  lookup key (assign (p ++ x) v dist) = lookup key dist.
Proof.
  intros Hout. apply lookup_assign_other. intros ->.
  now rewrite prefix_app in Hout.
Qed.

Lemma prefix_outside (p x key : string) :
  String.prefix p key = false -> String.prefix (p ++ x) key = false.
Proof.
  intros Hout. destruct (String.prefix (p ++ x) key) eqn:E; [|reflexivity].
  apply prefix_app_l in E. congruence.
Qed.

Lemma flatCopyTo_outside (sourceMap : JsValue) :
  forall p dist dist',
    flatCopyTo rt p sourceMap dist = Some dist' ->
    forall key, String.prefix p key = false -> lookup key dist' = lookup key dist.
Proof.
  induction sourceMap as [ | | b | n | s | ms | bs | items IHitems | message
                           | props IHprops ] using JsValue_nested_ind;
    intros p dist dist' H key Hout; cbn [flatCopyTo] in H;
    try (injection H as <-; reflexivity); try discriminate.
  - injection H as <-. generalize 0 at 1. revert dist.
    induction (characters s) as [|c cs IHcs]; intros dist i;
      cbn [indexed fold_left fst snd]; [reflexivity|].
    rewrite IHcs. now apply lookup_assign_outside.
  - revert dist H. generalize 0.
    induction IHitems as [|val items Hval _ IHrest]; intros i dist H.
    + now injection H as <-.
    + match type of H with
      | match ?step with _ => _ end = _ => destruct step as [dist1|] eqn:Hstep
      end; [|discriminate].
      rewrite (IHrest _ _ H).
      destruct val; try (injection Hstep as <-; reflexivity);
        try (injection Hstep as <-; now apply lookup_assign_outside);
        try (refine (Hval _ _ _ Hstep key _);
             rewrite append_assoc; now apply prefix_outside).
  - revert dist H.
    induction IHprops as [|[k val] props Hval _ IHrest]; intros dist H.
    + now injection H as <-.
    + cbn [snd] in Hval.
      match type of H with
      | match ?step with _ => _ end = _ => destruct step as [dist1|] eqn:Hstep
      end; [|discriminate].
      rewrite (IHrest _ H).
      destruct val; try (injection Hstep as <-; reflexivity);
        try (injection Hstep as <-; now apply lookup_assign_outside);
        try (refine (Hval _ _ _ Hstep key _);
             rewrite append_assoc; now apply prefix_outside).
Qed.

End FlatCopy.

Section FlatRoundTrip.

Import Env UtilsRest.

Variable rt : Runtime.



End FlatRoundTrip.

(** X10. [flatCopyTo] writes inside its namespace only: whatever the source,
    nested to any depth, every key of the destination that does not start
    with the prefix holds after the call what it held before. *)
Theorem flatCopyTo_stays_in_namespace (rt : Env.Runtime) (prefix : string)
    (sourceMap : JsValue) (distMap distMap' : list (string * JsValue))
    (key : string) :
  UtilsRest.flatCopyTo rt prefix sourceMap distMap = Some distMap' ->
  String.prefix prefix key = false ->
  lookup key distMap' = lookup key distMap.
Proof.
  intros H Hout. exact (flatCopyTo_outside rt sourceMap _ _ _ H key Hout).
Qed.

Lemma flatCopyTo_stays_in_namespace_witness :
  lookup "timeout"
    [("timeout", VStr "3000"); ("a.retries", VStr "2"); ("a.tags.0", VStr "x")]
  = lookup "timeout" [("timeout", VStr "3000")].
Proof.
  apply (flatCopyTo_stays_in_namespace Example.runtime "a."
           (VObject [("retries", VStr "2"); ("tags", VArray [VStr "x"]);
                     ("on", VBool true)])
           [("timeout", VStr "3000")]
           [("timeout", VStr "3000"); ("a.retries", VStr "2");
            ("a.tags.0", VStr "x")]
           "timeout"); reflexivity.
Defined.



(* --------------------------------------------------------------------- *)
(** ** The protobuf-json driver: values that are not written *)
(* --------------------------------------------------------------------- *)

(** X23. A request whose data is falsy ([false], [0], NaN, the empty string,
    [null] or [undefined]) and that is no event is encoded through the
    protobuf-json driver without a body: [writeObject] skips the value in
    both modes, and the packet is the sixteen octets of the header. *)
Theorem protobuf_json_falsy_data_has_no_body (rt : Env.Runtime)
    (cst : Env.Constants) (previous : Bytes.ByteBuffer) (req : Request.Request)
    (opts : Env.Options) (v : JsValue) :
  Request.data req = Request.PValue v ->
  Request.isEvent req = false ->
  truthy v = false ->
  exists buf,
    Request.encodeWith cst (ProtobufJson.output rt cst previous) req opts = Ok buf /\
    List.length buf = 16.
Proof.
  intros Hdata Hevent Hfalsy. unfold Request.encodeWith, Request.encodeBody.
  rewrite Hdata, Hevent.
  cbn [Env.writeObject ProtobufJson.output]. unfold ProtobufJson.writeObject.
  rewrite Hfalsy. cbn [bind].
  assert (Hpos : Bytes._offset
            (Env.onBytes (ProtobufJson.output rt cst previous)
               (Request.putHeader
                  (Env.contentTypeId (ProtobufJson.output rt cst previous)) req)
               (Env.serialize (ProtobufJson.output rt cst previous))) = 16)
    by reflexivity.
  set (st := Env.onBytes _ _ _) in *.
  assert (Hlen : Request.bodyLen cst (ProtobufJson.output rt cst previous) opts st
                 = 16%Z \/
                 Request.bodyLen cst (ProtobufJson.output rt cst previous) opts st
                 = 0%Z).
  { unfold Request.bodyLen.
    cbn [Env.outLen Env.outBytes ProtobufJson.output]. unfold Bytes.position.
    rewrite Hpos. destruct (Request.notDefaultCodec cst opts); [now left | now right]. }
  unfold Bytes.writeInt32BE.
  destruct Hlen as [-> | ->]; cbn [Z.leb Z.ltb Z.compare andb bind];
    (eexists; split; [reflexivity|]);
    cbn [Env.outGet Env.onBytes ProtobufJson.output]; unfold Bytes.written;
    rewrite length_prefix; exact Hpos.
Qed.

Lemma protobuf_json_falsy_data_has_no_body_witness :
  exists buf,
    Request.encodeWith Example.constants
      (ProtobufJson.output Example.runtime Example.constants Bytes.allocate)
      (Request.mkRequest 9 true false (Request.PValue (VNum (NInt 0))))
      Example.typedOptions = Ok buf /\
    List.length buf = 16.
Proof.
  apply (protobuf_json_falsy_data_has_no_body Example.runtime Example.constants
           Bytes.allocate
           (Request.mkRequest 9 true false (Request.PValue (VNum (NInt 0))))
           Example.typedOptions (VNum (NInt 0))); reflexivity.
Defined.

(* --------------------------------------------------------------------- *)
(** ** The protobuf-json driver: an invocation written and read back *)
(* --------------------------------------------------------------------- *)

Section JsonInvocation.

Import Bytes Env Request JsonLines.

Variable rt : Runtime.
Variable cst : Constants.
Variable previous : ByteBuffer.
Variable opts : Options.
Variables root root' : Root.
Hypothesis Hopt : options opts = Some (Some root).
Hypothesis Hproto : proto opts = Some root'.

Lemma putBuffer_app (a b : list Z) (bb : ByteBuffer) :
  putBuffer (a ++ b) bb = putBuffer b (putBuffer a bb).
Proof.
  unfold putBuffer. cbn [_bytes _offset]. rewrite length_app, Nat.add_assoc.
  f_equal. generalize (_offset bb) (_bytes bb). clear.
  induction a as [|x a IH]; intros o s; cbn [app storeAll List.length].
  - now rewrite Nat.add_0_r.
  - rewrite IH. f_equal. lia.
Qed.

Lemma putBuffer_nil (bb : ByteBuffer) : putBuffer [] bb = bb.
Proof.
  destruct bb as [s o]. unfold putBuffer. cbn [_bytes _offset storeAll List.length].
  now rewrite Nat.add_0_r.
Qed.

(** The typed writer under a tag other than ['HashMap']: one line. *)
Lemma writeObject_line (v classMap : JsValue) (type : string) (st : ByteBuffer) :
  truthy v = true ->
  tagged (Some type) = true ->
  isTag "HashMap" (Some type) = false ->
  ProtobufJson.writeObject rt v classMap type opts st
  = Ok (putBuffer (line rt (payloadOf v)) st).
Proof.
  intros Htruthy Htag Hmap. unfold ProtobufJson.writeObject, line, payloadOf.
  rewrite Htruthy, Hopt.
  assert (Hnot : String.eqb type "HashMap" = false) by exact Hmap.
  destruct v as [ | | b | n | s | ms | octets | items | message | props ];
    try discriminate Htruthy; cbn [getProp bind truthy andb];
    rewrite ?Htag, ?Hnot; cbn [bind ProtobufJson.putRawString];
    try reflexivity.
  unfold prop.
  destruct (lookup "$class" props) as [cls|];
    destruct (lookup "$" props) as [val|]; cbn [bind truthy andb] in *;
    try destruct (truthy cls && truthy val)%bool;
    try destruct (truthy cls);
    rewrite ?Htag, ?Hnot; cbn [bind ProtobufJson.putRawString];
    reflexivity.
Qed.

Lemma writeUTF_line (s : string) (st : ByteBuffer) :
  s <> "" ->
  ProtobufJson.writeUTF rt (VStr s) opts st = Ok (putBuffer (line rt (VStr s)) st).
Proof.
  intros Hs. unfold ProtobufJson.writeUTF. rewrite Hopt.
  rewrite writeObject_line; try reflexivity.
  cbn [truthy]. apply String.eqb_neq in Hs. now rewrite Hs.
Qed.

(** The typed writer under ['HashMap'], for a mapping that carries no
    truthy [$class] with a truthy [$]: the line of the four keys. *)
Lemma writeObject_attachments (atts : list (string * JsValue))
    (classMap : JsValue) (st : ByteBuffer) :
  (truthy (prop "$class" atts) && truthy (prop "$" atts))%bool = false ->
  ProtobufJson.writeObject rt (VObject atts) classMap "HashMap" opts st
  = Ok (putBuffer (line rt (VObject [("attachments", attachmentsOf atts)])) st).
Proof.
  unfold ProtobufJson.writeObject, ProtobufJson.hashMapAttachments, line,
    attachmentsOf, prop.
  rewrite Hopt. cbn [truthy getProp].
  destruct (lookup "$class" atts) as [cls|];
    destruct (lookup "$" atts) as [val|]; cbn [bind truthy andb];
    intros Htag; rewrite ?Htag; cbn [tagged String.eqb Ascii.eqb Bool.eqb negb bind];
    destruct (lookup "path" atts), (lookup "group" atts), (lookup "version" atts);
    reflexivity.
Qed.

Lemma nth_skipn_head {A : Type} (i : nat) (l : list A) (a d : A) (rest : list A) :
  skipn i l = a :: rest -> nth i l d = a /\ skipn (S i) l = rest.
Proof.
  revert l. induction i as [|i IH]; intros [|x l] H; cbn [skipn] in H;
    try discriminate.
  - injection H as -> ->. now split.
  - exact (IH l H).
Qed.

(** The argument loop in typed mode: one line per argument. *)
Lemma writeArgs_lines (args : list JsValue) (types : list string) :
  forall (remaining : list JsValue) (i : nat) (st : ByteBuffer),
    skipn i args = remaining ->
    List.length remaining = List.length types ->
    Forall (fun a => truthy a = true) remaining ->
    Forall (fun t => tagged (Some t) = true /\ isTag "HashMap" (Some t) = false)
           types ->
    writeArgs (ProtobufJson.output rt cst previous) opts args types i st
    = Ok (putBuffer (List.concat (map (fun a => line rt (payloadOf a)) remaining)) st).
Proof.
  induction types as [|type types IH];
    intros remaining i st Hskip Hlen Htruthy Htypes.
  - destruct remaining; [|discriminate]. cbn [writeArgs map List.concat].
    now rewrite putBuffer_nil.
  - destruct remaining as [|a remaining]; [discriminate|].
    destruct (nth_skipn_head i args a VUndefined remaining Hskip) as [Hnth Hrest].
    apply Forall_cons_iff in Htruthy. destruct Htruthy as [Ha Hrem].
    apply Forall_cons_iff in Htypes. destruct Htypes as [[Htag Hmap] Hts].
    cbn [writeArgs writeObject ProtobufJson.output]. rewrite Hnth.
    rewrite (writeObject_line _ _ _ _ Ha Htag Hmap). cbn [bind].
    cbn [List.length] in Hlen.
    rewrite (IH remaining (S i) _ Hrest) by (auto; lia).
    cbn [map List.concat]. now rewrite putBuffer_app.
Qed.

Lemma jsOr_string_nonempty (a : JsValue) (fallback s : string) :
  fallback <> "" -> jsOr a (VStr fallback) = VStr s -> s <> "".
Proof.
  unfold jsOr. intros Hfallback H. destruct (truthy a) eqn:Ha.
  - subst a. intros ->. cbn in Ha. discriminate Ha.
  - injection H as <-. exact Hfallback.
Qed.

(** The body of an invocation in typed mode. *)
Lemma encodeBody_lines (req : Request) (inv : Invocation)
    (dv path sv name desc : string) (types : list string) (st : ByteBuffer) :
  data req = PInvocation inv ->
  jsOr (attachment inv (DUBBO_VERSION_KEY cst)) (VStr DUBBO_VERSION) = VStr dv ->
  attachment inv (PATH_KEY cst) = VStr path -> path <> "" ->
  jsOr (attachment inv (VERSION_KEY cst)) (VStr "0.0.0") = VStr sv ->
  methodName inv = VStr name -> name <> "" ->
  getJavaArgsDesc (args inv) = Ok desc -> desc <> "" ->
  desc2classArray desc = Ok types ->
  List.length (args inv) = List.length types ->
  Forall (fun a => truthy a = true) (args inv) ->
  Forall (fun t => tagged (Some t) = true /\ isTag "HashMap" (Some t) = false)
         types ->
  (truthy (prop "$class" (attachments inv))
   && truthy (prop "$" (attachments inv)))%bool = false ->
  encodeBody cst (ProtobufJson.output rt cst previous) req opts st
  = Ok (putBuffer
          (invocationLines rt [dv; path; sv; name; desc] (args inv)
                           (attachments inv)) st).
Proof.
  intros Hdata Hdv Hpath Hpathne Hsv Hname Hnamene Hdesc Hdescne Htypes Hlen
         Htruthy Hgood Hplain.
  assert (Hdvne : dv <> "").
  { refine (jsOr_string_nonempty _ DUBBO_VERSION dv _ Hdv). discriminate. }
  assert (Hsvne : sv <> "").
  { refine (jsOr_string_nonempty _ "0.0.0" sv _ Hsv). discriminate. }
  unfold encodeBody. rewrite Hdata, Hdv, Hpath, Hsv, Hname.
  cbn [writeUTF writeObject ProtobufJson.output].
  rewrite (writeUTF_line dv st Hdvne). cbn [bind].
  rewrite (writeUTF_line path _ Hpathne). cbn [bind].
  rewrite (writeUTF_line sv _ Hsvne). cbn [bind].
  rewrite (writeUTF_line name _ Hnamene). cbn [bind].
  rewrite Hdesc. cbn [bind].
  rewrite (writeUTF_line desc _ Hdescne). cbn [bind].
  rewrite Htypes. cbn [bind].
  rewrite (writeArgs_lines (args inv) types (args inv) 0 _ eq_refl Hlen Htruthy Hgood).
  cbn [bind]. rewrite (writeObject_attachments _ _ _ Hplain).
  unfold invocationLines. cbn [map List.concat].
  now rewrite !putBuffer_app, putBuffer_nil.
Qed.

End JsonInvocation.

Section JsonReader.

Import Bytes Env Request JsonLines.

Variable rt : Runtime.
Variable opts : Options.
Variable root' : Root.
Hypothesis Hproto : proto opts = Some root'.

(** The typed reader on a decoder that stands at the start of a line. *)
Lemma readObject_line (buf pre rest : list Z) (v : JsValue) (type : string)
    (pos : nat) :
  buf = (pre ++ line rt v ++ rest)%list ->
  pos = List.length pre ->
  tagged (Some type) = true ->
  isTag "HashMap" (Some type) = false ->
  echoed rt v ->
  ProtobufJson.readObject rt opts (Some type) (mkByteBuffer buf pos)
  = Ok (v, mkByteBuffer buf (pos + List.length (line rt v))).
Proof.
  intros -> -> Htag Hmap [Hecho Hline]. unfold ProtobufJson.readObject, line.
  rewrite Hproto, Htag, Hmap. rewrite (readLine_line pre rest _ Hline).
  rewrite Hecho. reflexivity.
Qed.

Lemma readObject_attachments (buf pre rest : list Z) (json merged : JsValue)
    (pos : nat) :
  buf = (pre ++ line rt json ++ rest)%list ->
  pos = List.length pre ->
  echoed rt json ->
  getProp json "attachments" = Ok merged ->
  ProtobufJson.readObject rt opts (Some "HashMap") (mkByteBuffer buf pos)
  = Ok (merged, mkByteBuffer buf (pos + List.length (line rt json))).
Proof.
  intros -> -> [Hecho Hline] Hmerged. unfold ProtobufJson.readObject, line.
  rewrite Hproto. cbn [tagged isTag String.eqb Ascii.eqb Bool.eqb negb].
  rewrite (readLine_line pre rest _ Hline).
  rewrite Hecho. cbn [bind]. rewrite Hmerged. reflexivity.
Qed.

(** The argument loop of [decode] on a decoder that stands at the first of
    as many lines as there are signatures. *)
Lemma readArgs_lines (values : list JsValue) :
  forall (sigs : list string) (buf pre rest : list Z) (read : list JsValue)
         (pos : nat),
    buf = (pre ++ List.concat (map (line rt) values) ++ rest)%list ->
    pos = List.length pre ->
    List.length sigs = List.length values ->
    Forall (fun t => tagged (Some t) = true /\ isTag "HashMap" (Some t) = false)
           sigs ->
    Forall (echoed rt) values ->
    readArgs (ProtobufJson.input rt) opts sigs read (mkByteBuffer buf pos)
    = Ok ((read ++ values)%list,
          mkByteBuffer buf (pos + List.length (List.concat (map (line rt) values)))).
Proof.
  induction values as [|v values IH];
    intros sigs buf pre rest read pos Hbuf Hpos Hlen Hgood Hecho.
  - destruct sigs; [|discriminate]. cbn [readArgs map List.concat List.length].
    now rewrite app_nil_r, Nat.add_0_r.
  - destruct sigs as [|sig sigs]; [discriminate|].
    apply Forall_cons_iff in Hgood. destruct Hgood as [[Htag Hmap] Hgood].
    apply Forall_cons_iff in Hecho. destruct Hecho as [Hv Hecho].
    cbn [readArgs readObject ProtobufJson.input].
    cbn [map List.concat] in Hbuf. rewrite <- app_assoc in Hbuf.
    rewrite (readObject_line buf pre _ v sig pos Hbuf Hpos Htag Hmap Hv).
    cbn [bind fst snd].
    rewrite (IH sigs buf (pre ++ line rt v)%list rest (read ++ [v])%list
                (pos + List.length (line rt v))).
    + rewrite <- app_assoc. cbn [app map List.concat].
      rewrite length_app, Nat.add_assoc. reflexivity.
    + rewrite Hbuf, <- app_assoc. reflexivity.
    + rewrite length_app. lia.
    + cbn [List.length] in Hlen. lia.
    + exact Hgood.
    + exact Hecho.
Qed.

End JsonReader.

Section JsonDecode.

Import Bytes Env Request JsonLines.

Variable rt : Runtime.
Variable cst : Constants.

(** [decode] through the protobuf-json driver on a packet whose body is the
    lines of an invocation. *)
Lemma decode_invocation_lines (cst' : Constants) (previous : ByteBuffer)
    (byId : Z -> option Driver) (buf hdr : list Z) (opts : Options)
    (root' : Root) (p : Long.PacketId) (dv path sv name desc : string)
    (sigs : list string) (values : list JsValue) (json merged : JsValue) :
  readPacketId buf = Ok p ->
  byId (serializationType (flagByte buf))
    = Some (ProtobufJson.driver rt cst' previous) ->
  negb (Z.eqb (Z.land (flagByte buf) FLAG_EVENT) 0) = false ->
  proto opts = Some root' ->
  buf = (hdr ++ List.concat (map (fun s => line rt (VStr s))
                                 [dv; path; sv; name; desc])
             ++ List.concat (map (line rt) values) ++ line rt json)%list ->
  List.length hdr = 16 ->
  Forall (fun s => echoed rt (VStr s)) [dv; path; sv; name; desc] ->
  Forall (echoed rt) values ->
  echoed rt json ->
  sv <> "" ->
  desc2classArray desc = Ok sigs ->
  List.length sigs = List.length values ->
  Forall (fun t => tagged (Some t) = true /\ isTag "HashMap" (Some t) = false)
         sigs ->
  getProp json "attachments" = Ok merged ->
  exists pkt d,
    decode rt cst byId buf opts = Ok pkt /\
    packetId pkt = p /\
    packetType pkt = "request" /\
    packetData pkt = DInvocation d /\
    dMethodName d = VStr name /\
    dArgs d = values /\
    dMethodArgSigs d = sigs /\
    dRequestProps d
    = objectAssign (assign (PATH_KEY cst) (VStr path)
                      (assign (DUBBO_VERSION_KEY cst) (VStr dv) [])) merged /\
    dServerSignature d
    = jsConcat rt (jsConcat rt (pathOf d) (VStr ":")) (VStr sv).
Proof.
  intros Hid Hdriver Hevent Hproto Hbuf Hhdr Hstrings Hvalues Hjson Hsv Hsigs
         Hlen Hgood Hmerged.
  cbn [map List.concat] in Hbuf. rewrite app_nil_r in Hbuf.
  repeat rewrite <- app_assoc in Hbuf.
  apply Forall_cons_iff in Hstrings. destruct Hstrings as [Edv Hstrings].
  apply Forall_cons_iff in Hstrings. destruct Hstrings as [Epath Hstrings].
  apply Forall_cons_iff in Hstrings. destruct Hstrings as [Esv Hstrings].
  apply Forall_cons_iff in Hstrings. destruct Hstrings as [Ename Hstrings].
  apply Forall_cons_iff in Hstrings. destruct Hstrings as [Edesc _].
  unfold decode. rewrite Hid. cbn [bind]. rewrite Hdriver.
  cbn [input ProtobufJson.driver ProtobufJson.input inSkip deserialize bind].
  unfold skip. cbn [_bytes _offset Nat.add].
  match goal with
  | |- context [readBody rt cst _ _ ?o _] => set (opts' := o)
  end.
  assert (Hproto' : proto opts' = Some root')
    by (unfold opts'; destruct (Z.eqb _ 21); exact Hproto).
  unfold readBody. rewrite Hevent.
  cbn [readObject readUTF ProtobufJson.input].
  rewrite (readObject_line rt opts' root' Hproto' buf hdr _ (VStr dv) "AnyVal" 16
             Hbuf (eq_sym Hhdr) eq_refl eq_refl Edv).
  cbn [bind fst snd isString]. unfold readInvocation.
  cbn [readObject readUTF ProtobufJson.input].
  rewrite (readObject_line rt opts' root' Hproto' buf (hdr ++ line rt (VStr dv))
             _ (VStr path) "StringValue" _
             ltac:(rewrite Hbuf, <- ?app_assoc; reflexivity)
             ltac:(rewrite length_app, Hhdr; reflexivity) eq_refl eq_refl Epath).
  cbn [bind fst snd].
  rewrite (readObject_line rt opts' root' Hproto' buf
             ((hdr ++ line rt (VStr dv)) ++ line rt (VStr path))
             _ (VStr sv) "StringValue" _
             ltac:(rewrite Hbuf, <- ?app_assoc; reflexivity)
             ltac:(rewrite !length_app, Hhdr; reflexivity) eq_refl eq_refl Esv).
  cbn [bind fst snd].
  rewrite (readObject_line rt opts' root' Hproto' buf
             (((hdr ++ line rt (VStr dv)) ++ line rt (VStr path))
              ++ line rt (VStr sv))
             _ (VStr name) "StringValue" _
             ltac:(rewrite Hbuf, <- ?app_assoc; reflexivity)
             ltac:(rewrite !length_app, Hhdr; reflexivity) eq_refl eq_refl Ename).
  cbn [bind fst snd].
  rewrite (readObject_line rt opts' root' Hproto' buf
             ((((hdr ++ line rt (VStr dv)) ++ line rt (VStr path))
               ++ line rt (VStr sv)) ++ line rt (VStr name))
             _ (VStr desc) "StringValue" _
             ltac:(rewrite Hbuf, <- ?app_assoc; reflexivity)
             ltac:(rewrite !length_app, Hhdr; reflexivity) eq_refl eq_refl Edesc).
  cbn [bind fst snd classArrayOf]. rewrite Hsigs. cbn [bind].
  rewrite (readArgs_lines rt opts' root' Hproto' values sigs buf
             (((((hdr ++ line rt (VStr dv)) ++ line rt (VStr path))
                ++ line rt (VStr sv)) ++ line rt (VStr name))
              ++ line rt (VStr desc))
             (line rt json) [] _
             ltac:(rewrite Hbuf, <- ?app_assoc; reflexivity)
             ltac:(rewrite !length_app, Hhdr; reflexivity) Hlen Hgood Hvalues).
  cbn [bind fst snd app].
  rewrite (readObject_attachments rt opts' root' Hproto' buf
             ((((((hdr ++ line rt (VStr dv)) ++ line rt (VStr path))
                 ++ line rt (VStr sv)) ++ line rt (VStr name))
               ++ line rt (VStr desc)) ++ List.concat (map (line rt) values))
             [] json merged _
             ltac:(rewrite Hbuf, <- ?app_assoc, app_nil_r; reflexivity)
             ltac:(rewrite !length_app, Hhdr; reflexivity) Hjson Hmerged).
  cbn [bind fst snd truthy].
  apply String.eqb_neq in Hsv. rewrite Hsv. cbn [negb].
  eexists. eexists. split; [reflexivity|].
  cbn [packetId packetType packetData dMethodName dArgs dMethodArgSigs
       dRequestProps dServerSignature].
  repeat split; reflexivity.
Qed.

End JsonDecode.

Section JsonPacket.

Import Bytes Env Request JsonLines.

(** The packet [get()] returns once the length field is patched into a
    storage that holds a header of sixteen octets and a body behind it. *)
Lemma patched_packet (storage field body : list Z) :
  List.length field = 4 ->
  prefix (16 + List.length body) (storeAll 12 field (storeAll 16 body storage))
  = (prefix 16 (storeAll 12 field storage) ++ body)%list.
Proof.
  intros Hfield. apply (nth_ext _ _ 0%Z 0%Z).
  - rewrite length_app, !length_prefix. reflexivity.
  - intros k Hk. rewrite length_prefix in Hk.
    rewrite nth_prefix by lia. rewrite !nth_storeAll, Hfield.
    destruct (Nat.leb_spec 12 k), (Nat.ltb_spec k (12 + 4)),
      (Nat.leb_spec 16 k), (Nat.ltb_spec k (16 + List.length body));
      cbn [andb]; try lia.
    + rewrite app_nth1 by (rewrite length_prefix; lia).
      rewrite nth_prefix by lia. rewrite nth_storeAll, Hfield.
      destruct (Nat.leb_spec 12 k), (Nat.ltb_spec k (12 + 4)); cbn [andb];
        try lia; reflexivity.
    + rewrite app_nth2 by (rewrite length_prefix; lia).
      now rewrite length_prefix.
    + rewrite app_nth1 by (rewrite length_prefix; lia).
      rewrite nth_prefix by lia. rewrite nth_storeAll, Hfield.
      destruct (Nat.leb_spec 12 k), (Nat.ltb_spec k (12 + 4)); cbn [andb];
        try lia; reflexivity.
Qed.

Variable rt : Runtime.
Variable cst : Constants.
Variable previous : ByteBuffer.

(** A packet of the protobuf-json driver is sixteen octets and the body the
    writers put behind them. *)
Lemma protobuf_json_packet (req : Request) (opts : Options) (body buf : list Z) :
  encodeBody cst (ProtobufJson.output rt cst previous) req opts
    (onBytes (ProtobufJson.output rt cst previous)
       (putHeader (contentTypeId (ProtobufJson.output rt cst previous)) req)
       (serialize (ProtobufJson.output rt cst previous)))
  = Ok (putBuffer body
          (putHeader (contentTypeId (ProtobufJson.output rt cst previous)) req
                     (reset previous))) ->
  encodeWith cst (ProtobufJson.output rt cst previous) req opts = Ok buf ->
  exists hdr, List.length hdr = 16 /\ buf = (hdr ++ body)%list.
Proof.
  intros Hbody Hencode.
  destruct (encodeWith_inv cst _ req opts buf Hencode)
    as (st & storage & Hbody' & _ & -> & ->).
  rewrite Hbody in Hbody'. injection Hbody' as <-.
  cbn [outGet onBytes outBytes ProtobufJson.output]. unfold written.
  cbn [_bytes _offset putBuffer].
  change (_offset (putHeader (PROTOBUF_JSON_SERIALIZATION_ID cst) req
                             (reset previous))) with 16.
  eexists. split; [|apply patched_packet; reflexivity].
  apply length_prefix.
Qed.

End JsonPacket.

(** X25. An invocation survives the trip through the protobuf-json codec in
    typed mode.  The request is encoded under the name ["protobuf-json"]
    and decoded again, both through the tables of lib/serialize and with a
    registry in the options.  Its path and method name are non-empty
    strings, it has at least one argument, every argument is truthy and has
    a non-empty type name other than ['HashMap'] in the list its descriptor
    reads back as, and the attachment mapping carries no truthy [$class]
    with a truthy [$].  Every value put on the wire is one [JSON.parse]
    gives back from its JSON text, and that text holds no line feed.  Then
    [decode] returns a request packet with the id of the request, its method
    name, one argument per argument of the call in order (the [$] of an
    argument tagged with [$class]), the type list of the descriptor, and as
    request properties the protocol version and the path overlaid with the
    four keys of the attachment line. *)
Theorem protobuf_json_invocation_round_trip (rt : Env.Runtime)
    (cst : Env.Constants) (hessian protobuf : Env.Driver)
    (previous : Bytes.ByteBuffer) (req : Request.Request)
    (inv : Request.Invocation) (opts : Env.Options) (root root' : Env.Root)
    (dv path sv name desc : string) (types : list string) (buf : Bytes.Buffer) :
  (0 <= Env.PROTOBUF_JSON_SERIALIZATION_ID cst < 32)%Z ->
  Env.PROTOBUF_JSON_SERIALIZATION_ID cst <> Env.PROTOBUF_SERIALIZATION_ID cst ->
  (- 2 ^ 63 <= Request.id req < 2 ^ 63)%Z ->
  Request.isEvent req = false ->
  Env.codecType opts = Some "protobuf-json" ->
  Env.options opts = Some (Some root) ->
  Env.proto opts = Some root' ->
  Request.data req = Request.PInvocation inv ->
  jsOr (Request.attachment inv (Env.DUBBO_VERSION_KEY cst)) (VStr "2.5.3")
  = VStr dv ->
  Request.attachment inv (Env.PATH_KEY cst) = VStr path -> path <> "" ->
  jsOr (Request.attachment inv (Env.VERSION_KEY cst)) (VStr "0.0.0") = VStr sv ->
  Request.methodName inv = VStr name -> name <> "" ->
  getJavaArgsDesc (Request.args inv) = Ok desc -> desc <> "" ->
  desc2classArray desc = Ok types ->
  List.length (Request.args inv) = List.length types ->
  Forall (fun a => truthy a = true) (Request.args inv) ->
  Forall (fun t => Env.tagged (Some t) = true /\
                   Env.isTag "HashMap" (Some t) = false) types ->
  (truthy (prop "$class" (Request.attachments inv))
   && truthy (prop "$" (Request.attachments inv)))%bool = false ->
  Forall (JsonLines.echoed rt)
    (map VStr [dv; path; sv; name; desc]
     ++ map JsonLines.payloadOf (Request.args inv)
     ++ [VObject [("attachments",
                   JsonLines.attachmentsOf (Request.attachments inv))]])%list ->
  Request.encode cst
    (Serialize.getSerializationByName hessian
       (ProtobufJson.driver rt cst previous) protobuf)
    req opts = Ok buf ->
  exists pkt d,
    Request.decode rt cst
      (Serialize.getSerializationById cst hessian
         (ProtobufJson.driver rt cst previous) protobuf)
      buf opts = Ok pkt /\
    Long.idValue (Request.packetId pkt) = Request.id req /\
    Request.packetType pkt = "request" /\
    Request.packetData pkt = Request.DInvocation d /\
    Request.dMethodName d = Request.methodName inv /\
    Request.dArgs d = map JsonLines.payloadOf (Request.args inv) /\
    Request.dMethodArgSigs d = types /\
    Request.dRequestProps d
    = objectAssign
        (assign (Env.PATH_KEY cst) (VStr path)
           (assign (Env.DUBBO_VERSION_KEY cst) (VStr dv) []))
        (JsonLines.attachmentsOf (Request.attachments inv)) /\
    Request.dServerSignature d
    = Env.jsConcat rt (Env.jsConcat rt (Request.pathOf d) (VStr ":")) (VStr sv).
Proof.
  intros Hpj Hne Hid Hevent Hcodec Hopt Hproto Hdata Hdv Hpath Hpathne Hsv Hname
         Hnamene Hdesc Hdescne Htypes Hlen Htruthy Hgood Hplain Hecho Hencode.
  unfold Request.encode in Hencode. rewrite Hcodec in Hencode. cbn in Hencode.
  pose proof (encodeBody_lines rt cst previous opts root Hopt req inv dv path sv
                name desc types
                (Request.putHeader (Env.PROTOBUF_JSON_SERIALIZATION_ID cst) req
                   (Bytes.reset previous))
                Hdata Hdv Hpath Hpathne Hsv Hname Hnamene Hdesc Hdescne Htypes
                Hlen Htruthy Hgood Hplain) as Hbody.
  destruct (protobuf_json_packet rt cst previous req opts _ buf Hbody Hencode)
    as (hdr & Hhdr & Hbuf).
  destruct (encoded_header_read_back cst _ req opts buf
              (ProtobufJson_kept rt cst previous) Hpj Hid Hencode)
    as (_ & (p & Hp & Hvalue) & Htype & Hbit).
  cbn [Env.contentTypeId ProtobufJson.output] in Htype.
  apply Forall_app in Hecho. destruct Hecho as [Hstrings Hecho].
  apply Forall_app in Hecho. destruct Hecho as [Hvalues Hjson].
  apply Forall_cons_iff in Hjson. destruct Hjson as [Hjson _].
  assert (Hsvne : sv <> "").
  { refine (jsOr_string_nonempty _ "0.0.0" sv _ Hsv). discriminate. }
  destruct (decode_invocation_lines rt cst cst previous
              (Serialize.getSerializationById cst hessian
                 (ProtobufJson.driver rt cst previous) protobuf)
              buf hdr opts root' p dv path sv name desc types
              (map JsonLines.payloadOf (Request.args inv))
              (VObject [("attachments",
                         JsonLines.attachmentsOf (Request.attachments inv))])
              (JsonLines.attachmentsOf (Request.attachments inv)))
    as (pkt & d & Hdecode & Hpid & Hptype & Hpdata & Hdname & Hdargs & Hdsigs
        & Hdprops & Hdsig); try assumption.
  - rewrite Htype. now apply getSerializationById_protobuf_json.
  - rewrite Hbit. exact Hevent.
  - rewrite Hbuf. unfold JsonLines.invocationLines. now rewrite map_map.
  - apply Forall_map. exact Hstrings.
  - rewrite length_map. now symmetry.
  - reflexivity.
  - exists pkt, d. rewrite Hpid, Hname. repeat split; assumption.
Qed.

Lemma protobuf_json_invocation_round_trip_witness :
  exists pkt d,
    Request.decode Sample.runtime Example.constants
      (Serialize.getSerializationById Example.constants Example.greeterDriver
         (ProtobufJson.driver Sample.runtime Example.constants Bytes.allocate)
         (Protobuf.driver Example.runtime Example.constants))
      [218; 187; 213; 0; 0; 0; 0; 0; 0; 0; 0; 7; 0; 0; 0; 97;
       34; 50; 46; 53; 46; 51; 34; 10;
       34; 99; 111; 109; 46; 101; 120; 97; 109; 112; 108; 101; 46;
       71; 114; 101; 101; 116; 101; 114; 34; 10;
       34; 48; 46; 48; 46; 48; 34; 10;
       34; 115; 97; 121; 72; 101; 108; 108; 111; 34; 10;
       34; 76; 106; 97; 118; 97; 47; 108; 97; 110; 103; 47;
       83; 116; 114; 105; 110; 103; 59; 34; 10;
       34; 119; 111; 114; 108; 100; 34; 10;
       123; 125; 10]%Z
      Sample.typedJson = Ok pkt /\
    Long.idValue (Request.packetId pkt) = 7%Z /\
    Request.packetType pkt = "request" /\
    Request.packetData pkt = Request.DInvocation d /\
    Request.dMethodName d = VStr "sayHello" /\
    Request.dArgs d = [VStr "world"] /\
    Request.dMethodArgSigs d = ["java.lang.String"] /\
    Request.dRequestProps d
    = [("dubbo", VStr "2.5.3"); ("path", VStr "com.example.Greeter");
       ("interface", VStr "com.example.Greeter"); ("group", VStr "");
       ("version", VStr "")] /\
    Request.dServerSignature d
    = Env.jsConcat Sample.runtime
        (Env.jsConcat Sample.runtime (Request.pathOf d) (VStr ":"))
        (VStr "0.0.0").
Proof.
  apply (protobuf_json_invocation_round_trip Sample.runtime Example.constants
           Example.greeterDriver
           (Protobuf.driver Example.runtime Example.constants)
           Bytes.allocate Example.greeter
           (Request.mkInvocation (VStr "sayHello") [VStr "world"]
              [("path", VStr "com.example.Greeter")])
           Sample.typedJson
           (Example.rootOf Example.entryList) (Example.rootOf Example.entryList)
           "2.5.3" "com.example.Greeter" "0.0.0" "sayHello"
           "Ljava/lang/String;" ["java.lang.String"]);
    try reflexivity; try discriminate; try (cbn; lia).
  - repeat constructor.
  - repeat constructor.
  - repeat (apply Forall_cons; [split; [reflexivity|] |]);
      try apply Forall_nil;
      cbn; intros H;
      repeat (destruct H as [H|H]; [discriminate H|]); exact H.
Defined.

(** X24. The wire format of an invocation in typed mode of the protobuf-json
    driver.  Behind the sixteen octets of the header the packet holds, as
    JSON texts each closed by a line feed and in this order: the protocol
    version, the path, the service version, the method name, the descriptor
    of the arguments, one line per argument (the [$] of an argument tagged
    with [$class]) and the line of the attachments, an object with the one
    key [attachments] over the keys path, interface, group and version.
    Nothing separates or follows the lines. *)
Theorem protobuf_json_invocation_wire_format (rt : Env.Runtime)
    (cst : Env.Constants) (previous : Bytes.ByteBuffer) (req : Request.Request)
    (inv : Request.Invocation) (opts : Env.Options) (root : Env.Root)
    (dv path sv name desc : string) (types : list string) (buf : Bytes.Buffer) :
  Env.options opts = Some (Some root) ->
  Request.data req = Request.PInvocation inv ->
  jsOr (Request.attachment inv (Env.DUBBO_VERSION_KEY cst)) (VStr "2.5.3")
  = VStr dv ->
  Request.attachment inv (Env.PATH_KEY cst) = VStr path -> path <> "" ->
  jsOr (Request.attachment inv (Env.VERSION_KEY cst)) (VStr "0.0.0") = VStr sv ->
  Request.methodName inv = VStr name -> name <> "" ->
  getJavaArgsDesc (Request.args inv) = Ok desc -> desc <> "" ->
  desc2classArray desc = Ok types ->
  List.length (Request.args inv) = List.length types ->
  Forall (fun a => truthy a = true) (Request.args inv) ->
  Forall (fun t => Env.tagged (Some t) = true /\
                   Env.isTag "HashMap" (Some t) = false) types ->
  (truthy (prop "$class" (Request.attachments inv))
   && truthy (prop "$" (Request.attachments inv)))%bool = false ->
  Request.encodeWith cst (ProtobufJson.output rt cst previous) req opts = Ok buf ->
  List.length (firstn 16 buf) = 16 /\
  skipn 16 buf
  = JsonLines.invocationLines rt [dv; path; sv; name; desc] (Request.args inv)
      (Request.attachments inv).
Proof.
  intros Hopt Hdata Hdv Hpath Hpathne Hsv Hname Hnamene Hdesc Hdescne Htypes
         Hlen Htruthy Hgood Hplain Hencode.
  pose proof (encodeBody_lines rt cst previous opts root Hopt req inv dv path sv
                name desc types
                (Request.putHeader (Env.PROTOBUF_JSON_SERIALIZATION_ID cst) req
                   (Bytes.reset previous))
                Hdata Hdv Hpath Hpathne Hsv Hname Hnamene Hdesc Hdescne Htypes
                Hlen Htruthy Hgood Hplain) as Hbody.
  destruct (protobuf_json_packet rt cst previous req opts _ buf Hbody Hencode)
    as (hdr & Hhdr & ->).
  rewrite firstn_app, skipn_app, Hhdr, Nat.sub_diag, firstn_O, skipn_O, app_nil_r.
  rewrite firstn_all2, skipn_all2 by lia. split; [exact Hhdr | reflexivity].
Qed.

Lemma protobuf_json_invocation_wire_format_witness :
  List.length (firstn 16
    [218; 187; 213; 0; 0; 0; 0; 0; 0; 0; 0; 7; 0; 0; 0; 97;
     34; 50; 46; 53; 46; 51; 34; 10;
     34; 99; 111; 109; 46; 101; 120; 97; 109; 112; 108; 101; 46;
     71; 114; 101; 101; 116; 101; 114; 34; 10;
     34; 48; 46; 48; 46; 48; 34; 10;
     34; 115; 97; 121; 72; 101; 108; 108; 111; 34; 10;
     34; 76; 106; 97; 118; 97; 47; 108; 97; 110; 103; 47;
     83; 116; 114; 105; 110; 103; 59; 34; 10;
     34; 119; 111; 114; 108; 100; 34; 10;
     123; 125; 10]%Z) = 16 /\
  skipn 16
    [218; 187; 213; 0; 0; 0; 0; 0; 0; 0; 0; 7; 0; 0; 0; 97;
     34; 50; 46; 53; 46; 51; 34; 10;
     34; 99; 111; 109; 46; 101; 120; 97; 109; 112; 108; 101; 46;
     71; 114; 101; 101; 116; 101; 114; 34; 10;
     34; 48; 46; 48; 46; 48; 34; 10;
     34; 115; 97; 121; 72; 101; 108; 108; 111; 34; 10;
     34; 76; 106; 97; 118; 97; 47; 108; 97; 110; 103; 47;
     83; 116; 114; 105; 110; 103; 59; 34; 10;
     34; 119; 111; 114; 108; 100; 34; 10;
     123; 125; 10]%Z
  = JsonLines.invocationLines Example.runtime
      ["2.5.3"; "com.example.Greeter"; "0.0.0"; "sayHello"; "Ljava/lang/String;"]
      [VStr "world"] [("path", VStr "com.example.Greeter")].
Proof.
  apply (protobuf_json_invocation_wire_format Example.runtime Example.constants
           Bytes.allocate Example.greeter
           (Request.mkInvocation (VStr "sayHello") [VStr "world"]
              [("path", VStr "com.example.Greeter")])
           Sample.typedJson (Example.rootOf Example.entryList)
           "2.5.3" "com.example.Greeter" "0.0.0" "sayHello"
           "Ljava/lang/String;" ["java.lang.String"]);
    try reflexivity; try discriminate; repeat constructor.
Defined.

(* --------------------------------------------------------------------- *)
(** ** [encode]: codec names without a module *)
(* --------------------------------------------------------------------- *)

(** X13. [encode] under a codec name that is no key of [nameToSerializations]
    (["protostuff"], whose entry is commented out, among them) throws the
    engine's [TypeError]: [getSerializationByName] returns no module, and
    the call of [serialize] on it fails before anything is written.  An
    empty name stands for the default one and is not concerned. *)
Theorem encode_unknown_codec (cst : Env.Constants)
    (hessian protobufJson protobuf : Env.Driver) (req : Request.Request)
    (opts : Env.Options) (name : string) :
  Env.codecType opts = Some name ->
  name <> "" -> name <> "hessian2" -> name <> "protobuf-json" ->
  name <> "protobuf" ->
  Request.encode cst
    (Serialize.getSerializationByName hessian protobufJson protobuf) req opts
  = Throw TypeError.
Proof.
  intros Hcodec Hempty Hh Hpj Hpb. unfold Request.encode. rewrite Hcodec.
  apply String.eqb_neq in Hempty, Hh, Hpj, Hpb. rewrite Hempty.
  unfold Serialize.getSerializationByName, Serialize.nameToSerializations.
  cbn [Serialize.property]. now rewrite Hpb, Hpj, Hh.
Qed.

Lemma encode_unknown_codec_witness :
  Request.encode Example.constants
    (Serialize.getSerializationByName Example.greeterDriver
       (ProtobufJson.driver Example.runtime Example.constants Bytes.allocate)
       (Protobuf.driver Example.runtime Example.constants))
    Example.greeter (Example.untyped "protostuff")
  = Throw TypeError.
Proof.
  apply (encode_unknown_codec Example.constants Example.greeterDriver
           (ProtobufJson.driver Example.runtime Example.constants Bytes.allocate)
           (Protobuf.driver Example.runtime Example.constants)
           Example.greeter (Example.untyped "protostuff") "protostuff");
    [reflexivity | discriminate | discriminate | discriminate | discriminate].
Defined.

(** X26. The earlier revision of the protobuf-json driver cannot write a string
    in raw mode: without [options.options] its [writeUTF] calls a method
    [string] that the [output] object does not have, so encoding an event or
    an invocation throws the engine's [TypeError]; only a request that is
    neither gets through, with an empty body. *)
Theorem protobuf_json_old_raw_mode_throws (rt : Env.Runtime)
    (cst : Env.Constants) (req : Request.Request) (opts : Env.Options) :
  Env.options opts = None ->
  match Request.data req with
  | Request.PInvocation _ => True
  | Request.PValue _ => Request.isEvent req = true
  end ->
  Request.encodeWith cst (ProtobufJsonOld.output rt cst) req opts
  = Throw TypeError.
Proof.
  intros Hopt Hkind. unfold Request.encodeWith, Request.encodeBody.
  cbn [Env.writeUTF ProtobufJsonOld.output]. unfold ProtobufJsonOld.writeUTF.
  rewrite Hopt. destruct (Request.data req); [reflexivity|].
  now rewrite Hkind.
Qed.

Lemma protobuf_json_old_raw_mode_throws_witness :
  Request.encodeWith Example.constants
    (ProtobufJsonOld.output Example.runtime Example.constants)
    Example.greeter (Example.untyped "protobuf-json")
  = Throw TypeError.
Proof.
  apply (protobuf_json_old_raw_mode_throws Example.runtime Example.constants
           Example.greeter (Example.untyped "protobuf-json"));
    [reflexivity | exact I].
Defined.

(* --------------------------------------------------------------------- *)
(** ** lib/utils.js: the memo table of [findType] *)
(* --------------------------------------------------------------------- *)

(** X27. The memo table of [findType] is transparent for one registry: when
    every entry of the table was found in the registry at hand, the call
    returns, or throws, what the lookup in the registry alone gives, and the
    table it leaves has that property again. *)
Theorem findType_memo_transparent (typeMap : list (string * Env.Msg))
    (root : Env.Root) (path : string) :
  (forall p m, UtilsRest.typeMapGet p typeMap = Some m ->
               Env.lookupType root p = Some m) ->
  fst (UtilsRest.findTypeMemo typeMap root path) = Env.findType root (VStr path) /\
  forall p m,
    UtilsRest.typeMapGet p (snd (UtilsRest.findTypeMemo typeMap root path)) = Some m ->
    Env.lookupType root p = Some m.
Proof.
  intros Hmemo. unfold UtilsRest.findTypeMemo, Env.findType.
  destruct (UtilsRest.typeMapGet path typeMap) as [target|] eqn:Hget.
  - rewrite (Hmemo _ _ Hget). split; [reflexivity | exact Hmemo].
  - destruct (Env.lookupType root path) as [target|] eqn:Hlookup;
      (split; [reflexivity|]); cbn [snd]; [|exact Hmemo].
    intros p m. unfold UtilsRest.typeMapGet. cbn [find fst snd].
    destruct (String.eqb_spec p path) as [->|_].
    + intros H. injection H as <-. exact Hlookup.
    + apply Hmemo.
Qed.

Lemma findType_memo_transparent_witness :
  fst (UtilsRest.findTypeMemo [] (Example.rootOf Example.stringValue) "StringValue")
  = Env.findType (Example.rootOf Example.stringValue) (VStr "StringValue") /\
  forall p m,
    UtilsRest.typeMapGet p
      (snd (UtilsRest.findTypeMemo [] (Example.rootOf Example.stringValue)
              "StringValue")) = Some m ->
    Env.lookupType (Example.rootOf Example.stringValue) p = Some m.
Proof.
  apply (findType_memo_transparent [] (Example.rootOf Example.stringValue)
           "StringValue").
  intros p m H. discriminate H.
Defined.

(** X28. The memo table of [findType] is keyed by the path alone: once a
    path was found in one registry, every later call with that path returns
    the same type and leaves the table as it is, whatever registry it is
    given, one that lacks the path or holds another type under it
    included. *)
Theorem findType_memo_keyed_by_path (typeMap typeMap' : list (string * Env.Msg))
    (root root' : Env.Root) (path : string) (target : Env.Msg) :
  UtilsRest.findTypeMemo typeMap root path = (Ok target, typeMap') ->
  UtilsRest.findTypeMemo typeMap' root' path = (Ok target, typeMap').
Proof.
  unfold UtilsRest.findTypeMemo.
  destruct (UtilsRest.typeMapGet path typeMap) as [found|] eqn:Hget.
  - intros H. injection H as <- <-. now rewrite Hget.
  - destruct (Env.lookupType root path) as [found|]; [|discriminate].
    intros H. injection H as <- <-.
    unfold UtilsRest.typeMapGet. cbn [find fst snd].
    now rewrite String.eqb_refl.
Qed.

Lemma findType_memo_keyed_by_path_witness :
  UtilsRest.findTypeMemo [("StringValue", Example.stringValue)]
    (Example.rootOf Example.entryList) "StringValue"
  = (Ok Example.stringValue, [("StringValue", Example.stringValue)]).
Proof.
  apply (findType_memo_keyed_by_path [] [("StringValue", Example.stringValue)]
           (Example.rootOf Example.stringValue)
           (Example.rootOf Example.entryList) "StringValue"
           Example.stringValue).
  reflexivity.
Defined.

(* --------------------------------------------------------------------- *)
(** ** The protobuf-json driver: the buffer shared by all sessions *)
(* --------------------------------------------------------------------- *)

Section SharedBuffer.

Import Bytes Env Request JsonLines.

Lemma appends_ret : appends (fun bb => Ok bb).
Proof. exists (Ok []). intros bb. cbn [bind]. now rewrite putBuffer_nil. Qed.

Lemma appends_throw (e : JsError) : appends (fun _ => Throw e).
Proof. exists (Throw e). reflexivity. Qed.

Lemma appends_put (vs : list Z) : appends (fun bb => Ok (putBuffer vs bb)).
Proof. exists (Ok vs). reflexivity. Qed.

Lemma appends_bind (f g : ByteBuffer -> result ByteBuffer) :
  appends f -> appends g -> appends (fun bb => st <- f bb ;; g st).
Proof.
  intros [rf Hf] [rg Hg].
  exists (a <- rf ;; b <- rg ;; Ok (a ++ b)%list). intros bb. rewrite Hf.
  destruct rf as [a|e]; cbn [bind]; [|reflexivity]. rewrite Hg.
  destruct rg as [b|e]; cbn [bind]; [|reflexivity]. now rewrite putBuffer_app.
Qed.

Lemma appends_ext (f g : ByteBuffer -> result ByteBuffer) :
  (forall bb, f bb = g bb) -> appends g -> appends f.
Proof. intros Hfg [r Hg]. exists r. intros bb. now rewrite Hfg. Qed.

Variable rt : Runtime.
Variable cst : Constants.
Variable previous : ByteBuffer.

Lemma putRawString_appends (v : JsValue) :
  appends (ProtobufJson.putRawString rt v).
Proof.
  unfold ProtobufJson.putRawString.
  destruct v; try (destruct (rawOctets rt _); cbn [bind];
                   [apply appends_put | apply appends_throw]).
  apply appends_put.
Qed.

Lemma writeObject_appends (v classMap : JsValue) (type : string) (opts : Options) :
  appends (ProtobufJson.writeObject rt v classMap type opts).
Proof.
  unfold ProtobufJson.writeObject.
  destruct (truthy v); [|apply appends_ret].
  destruct (options opts) as [optsProto|]; [|apply appends_ret].
  destruct (getProp v "$class") as [cls|]; cbn [bind]; [|apply appends_throw].
  destruct (getProp v "$") as [val|]; cbn [bind]; [|apply appends_throw].
  destruct optsProto; [|apply appends_ret].
  destruct (truthy cls && truthy val)%bool; [apply putRawString_appends|].
  destruct (tagged (Some type)); [|apply appends_ret].
  destruct (String.eqb type "HashMap").
  - destruct (ProtobufJson.hashMapAttachments v); cbn [bind];
      [apply putRawString_appends | apply appends_throw].
  - cbn [bind]. apply putRawString_appends.
Qed.

Lemma writeUTF_appends (v : JsValue) (opts : Options) :
  appends (ProtobufJson.writeUTF rt v opts).
Proof.
  unfold ProtobufJson.writeUTF.
  destruct (options opts); [apply writeObject_appends | apply putRawString_appends].
Qed.

Lemma performAll_appends (opts : Options) (calls : list Call) :
  appends (performAll (ProtobufJson.output rt cst previous) opts calls).
Proof.
  induction calls as [|c calls IH]; [apply appends_ret|].
  cbn [performAll].
  apply (appends_bind (perform (ProtobufJson.output rt cst previous) opts c)
                      (performAll (ProtobufJson.output rt cst previous) opts calls));
    [|exact IH].
  destruct c; cbn [perform writeUTF writeObject ProtobufJson.output];
    [apply writeUTF_appends | apply writeObject_appends].
Qed.

(** Whatever the request, the body is appended. *)
Lemma encodeBody_appends (req : Request) (opts : Options) :
  appends (encodeBody cst (ProtobufJson.output rt cst previous) req opts).
Proof.
  destruct (data req) as [inv|v] eqn:Hdata.
  - destruct (getJavaArgsDesc (args inv)) as [desc|e] eqn:Hdesc.
    + destruct (desc2classArray desc) as [types|e] eqn:Htypes.
      * eapply appends_ext;
          [ intros bb;
            apply (encodeBody_invocation cst (ProtobufJson.output rt cst previous)
                     req opts inv desc types bb Hdata Hdesc Htypes)
          | apply performAll_appends ].
      * apply (appends_ext _
                 (fun bb =>
                    st <- performAll (ProtobufJson.output rt cst previous) opts
                            [ CallWriteUTF
                                (jsOr (attachment inv (DUBBO_VERSION_KEY cst))
                                      (VStr DUBBO_VERSION));
                              CallWriteUTF (attachment inv (PATH_KEY cst));
                              CallWriteUTF
                                (jsOr (attachment inv (VERSION_KEY cst))
                                      (VStr "0.0.0"));
                              CallWriteUTF (methodName inv);
                              CallWriteUTF (VStr desc) ] bb ;;
                    Throw e)).
        -- intros bb. unfold encodeBody. rewrite Hdata.
           cbn [performAll perform].
           do 4 (match goal with
                 | |- context [writeUTF ?D ?v opts ?s] =>
                     destruct (writeUTF D v opts s); cbn [bind]; [|reflexivity]
                 end).
           rewrite Hdesc. cbn [bind].
           match goal with
           | |- context [writeUTF ?D ?v opts ?s] =>
               destruct (writeUTF D v opts s); cbn [bind]; [|reflexivity]
           end.
           now rewrite Htypes.
        -- apply appends_bind; [apply performAll_appends | apply appends_throw].
    + apply (appends_ext _
               (fun bb =>
                  st <- performAll (ProtobufJson.output rt cst previous) opts
                          [ CallWriteUTF
                              (jsOr (attachment inv (DUBBO_VERSION_KEY cst))
                                    (VStr DUBBO_VERSION));
                            CallWriteUTF (attachment inv (PATH_KEY cst));
                            CallWriteUTF
                              (jsOr (attachment inv (VERSION_KEY cst))
                                    (VStr "0.0.0"));
                            CallWriteUTF (methodName inv) ] bb ;;
                  Throw e)).
      * intros bb. unfold encodeBody. rewrite Hdata.
        cbn [performAll perform].
        do 4 (match goal with
              | |- context [writeUTF ?D ?v opts ?s] =>
                  destruct (writeUTF D v opts s); cbn [bind]; [|reflexivity]
              end).
        now rewrite Hdesc.
      * apply appends_bind; [apply performAll_appends | apply appends_throw].
  - unfold encodeBody. rewrite Hdata.
    destruct (isEvent req); cbn [writeUTF writeObject ProtobufJson.output];
      [apply writeUTF_appends | apply writeObject_appends].
Qed.

(** The sixteen octets of the header once the length field is in place:
    nothing of the storage the session started on is left in them. *)
Lemma header_octets (c : Z) (req : Request) (storage field : list Z) :
  List.length field = 4 ->
  prefix 16 (storeAll 12 field
               (_bytes (putHeader c req (mkByteBuffer storage 0))))
  = ([MAGIC_HIGH; MAGIC_LOW; toUint8 (flagOf c req); 0%Z]
     ++ int32BE (Z.shiftr (id req) 32) ++ int32BE (id req) ++ field)%list.
Proof.
  intros Hfield.
  destruct field as [|f0 [|f1 [|f2 [|f3 [|f4 field]]]]]; try discriminate.
  apply (nth_ext _ _ 0%Z 0%Z); [now rewrite length_prefix|].
  intros k Hk. rewrite length_prefix in Hk. rewrite nth_prefix by lia.
  unfold putHeader, skip, putLong, putBuffer, put. cbn [_bytes _offset].
  rewrite !nth_storeAll, !nth_store.
  do 16 (destruct k as [|k]; [reflexivity|]). lia.
Qed.

End SharedBuffer.


Section StaleBytes.

Import Bytes Env Request JsonLines.

Variable rt : Runtime.
Variable cst : Constants.

Lemma writeArgs_any_previous (p1 p2 : ByteBuffer) (opts : Options)
    (args : list JsValue) (types : list string) :
  forall i bb,
    writeArgs (ProtobufJson.output rt cst p1) opts args types i bb
    = writeArgs (ProtobufJson.output rt cst p2) opts args types i bb.
Proof.
  induction types as [|type types IH]; intros i bb; [reflexivity|].
  cbn [writeArgs writeObject ProtobufJson.output].
  destruct (ProtobufJson.writeObject rt _ _ _ _ bb); cbn [bind];
    [apply IH | reflexivity].
Qed.

(** The writers of a session do not depend on the buffer the module held
    when [serialize()] was called. *)
Lemma encodeBody_any_previous (p1 p2 : ByteBuffer) (req : Request)
    (opts : Options) (bb : ByteBuffer) :
  encodeBody cst (ProtobufJson.output rt cst p1) req opts bb
  = encodeBody cst (ProtobufJson.output rt cst p2) req opts bb.
Proof.
  unfold encodeBody. cbn [writeUTF writeObject ProtobufJson.output].
  destruct (data req) as [inv|v]; [|reflexivity].
  repeat match goal with
  | |- bind ?x _ = bind ?x _ => destruct x; cbn [bind]; [|reflexivity]
  end.
  rewrite (writeArgs_any_previous p1 p2).
  now destruct (writeArgs _ _ _ _ _ _).
Qed.

(** The packet of a session whose body is the run of octets [run]. *)
Lemma encodeWith_explicit (previous : ByteBuffer) (req : Request)
    (opts : Options) (run : result (list Z)) :
  (forall bb,
     encodeBody cst (ProtobufJson.output rt cst previous) req opts bb
     = (vs <- run ;; Ok (putBuffer vs bb))) ->
  encodeWith cst (ProtobufJson.output rt cst previous) req opts
  = (vs <- run ;;
     field <- (if ((- 2 ^ 31 <=?
                      (if notDefaultCodec cst opts
                       then Z.of_nat (16 + List.length vs)
                       else Z.of_nat (16 + List.length vs) - 16))
                   && ((if notDefaultCodec cst opts
                        then Z.of_nat (16 + List.length vs)
                        else Z.of_nat (16 + List.length vs) - 16) <? 2 ^ 31))%Z%bool
               then Ok (int32BE (if notDefaultCodec cst opts
                                 then Z.of_nat (16 + List.length vs)
                                 else Z.of_nat (16 + List.length vs) - 16))
               else Throw RangeError) ;;
     Ok ([MAGIC_HIGH; MAGIC_LOW;
          toUint8 (flagOf (PROTOBUF_JSON_SERIALIZATION_ID cst) req); 0%Z]
         ++ int32BE (Z.shiftr (id req) 32) ++ int32BE (id req) ++ field ++ vs)%list).
Proof.
  intros Hrun. unfold encodeWith. rewrite Hrun.
  destruct run as [vs|e]; cbn [bind]; [|reflexivity].
  unfold bodyLen, writeInt32BE.
  cbn [outLen outBytes onBytes serialize contentTypeId ProtobufJson.output].
  unfold position.
  assert (Hoff : _offset (putBuffer vs
                   (putHeader (PROTOBUF_JSON_SERIALIZATION_ID cst) req
                              (reset previous))) = 16 + List.length vs)
    by reflexivity.
  rewrite !Hoff. change (Z.of_nat HEADER_LENGTH) with 16%Z.
  match goal with
  | |- context [if _ then Ok (storeAll 12 (int32BE ?n) _) else _] =>
      generalize n; intros len
  end.
  destruct ((- 2 ^ 31 <=? len)%Z && (len <? 2 ^ 31)%Z)%bool; cbn [bind];
    [|reflexivity].
  f_equal. cbn [outGet ProtobufJson.output]. unfold putBuffer.
  change (_offset (putHeader (PROTOBUF_JSON_SERIALIZATION_ID cst) req
                             (reset previous))) with 16.
  unfold written. cbn [_bytes _offset].
  rewrite (patched_packet _ (int32BE len) vs eq_refl).
  unfold reset. rewrite (header_octets _ req _ (int32BE len) eq_refl).
  now rewrite <- !app_assoc.
Qed.

End StaleBytes.

(** X29. A packet never holds octets of an earlier packet, although the
    protobuf-json driver writes every packet into the one buffer of its
    module and [serialize()] only moves the position back: whatever the
    earlier sessions left in the buffer, [encode] returns the same packet,
    or throws the same error, as on any other buffer.  Every octet below the
    final position is written again, the four octets that [skip(4)] passes
    over by the length field. *)
Theorem protobuf_json_packet_ignores_stale_bytes (rt : Env.Runtime)
    (cst : Env.Constants) (previous previous' : Bytes.ByteBuffer)
    (req : Request.Request) (opts : Env.Options) :
  Request.encodeWith cst (ProtobufJson.output rt cst previous) req opts
  = Request.encodeWith cst (ProtobufJson.output rt cst previous') req opts.
Proof.
  destruct (encodeBody_appends rt cst previous req opts) as [run Hrun].
  rewrite (encodeWith_explicit rt cst previous req opts run Hrun).
  rewrite (encodeWith_explicit rt cst previous' req opts run); [reflexivity|].
  intros bb. rewrite <- Hrun. apply encodeBody_any_previous.
Qed.
